(** * RAMSES ingestion: [read_amr], [read_offset] and [fill_hydro]

    A shallow embedding of [yt/frontends/ramses/io_utils.pyx] and the
    properties of its three procedures: the topology reader, the offset
    indexer and the selective field filler. *)

From Stdlib Require Import ZArith List Lia Bool String.
From stdpp Require Import base option list strings gmap.
From coqutil Require Import Byte Word.LittleEndianList.
Import ListNotations.
Open Scope Z_scope.

(** ** Machine integers

    [INT32_t] and C [int] are 32-bit signed, [INT64_t] is 64-bit signed.  A
    narrowing conversion or an [int] product keeps the low 32 bits. *)

Definition wrap32 (z : Z) : Z := (z + 2 ^ 31) mod 2 ^ 32 - 2 ^ 31.

Definition in_int32 (z : Z) : Prop := - 2 ^ 31 <= z < 2 ^ 31.

Definition INT32_SIZE : Z := 4.
Definition INT64_SIZE : Z := 8.
Definition DOUBLE_SIZE : Z := 8.

(** A [float64] is carried as its 64-bit pattern: the procedures move doubles
    around and never compute with them, except for the shift by the domain
    half-extent in [read_amr], which is a parameter there. *)
Definition float64 : Type := Z.

(** ** Faults

    The exceptions that can leave the three procedures. *)

Inductive fault : Type :=
| StructuralIntegrity (file_name : string) (file_ilevel expected : Z)
    (* YTIllDefinedAMRData, with the three values it reports *)
| AttributeFault   (* AttributeError: the object has no such attribute *)
| IOFault          (* a read or seek of the record reader failed *)
| ValueFault       (* ValueError raised by numpy *)
| MemoryFault.     (* an access that boundscheck(False) leaves unchecked *)

Inductive result (A : Type) : Type :=
| Ok (a : A)
| Raise (e : fault).
Arguments Ok {A} a.
Arguments Raise {A} e.

#[export] Instance result_ret : MRet result := fun A a => Ok a.
#[export] Instance result_bind : MBind result := fun A B k m =>
  match m with
  | Ok a => k a
  | Raise e => Raise e
  end.

Definition from_option {A} (e : fault) (o : option A) : result A :=
  match o with
  | Some a => Ok a
  | None => Raise e
  end.

(** [for x in range(n)] and [for x in xs], the body threading the loop state
    and an exception leaving the loop. *)

Definition range (n : Z) : list Z := map Z.of_nat (seq 0 (Z.to_nat n)).

Fixpoint for_each {X S : Type} (xs : list X) (body : X -> S -> result S) (s : S)
  : result S :=
  match xs with
  | [] => Ok s
  | x :: xs' => s' ← body x s; for_each xs' body s'
  end.

(** ** numpy arrays

    A C-contiguous 2-D [int32]/[int64] array: its shape and its cells in
    row-major order. *)

Record ndarray2 : Type := mk_ndarray2 {
  shape0 : nat;
  shape1 : nat;
  cells : list Z
}.

(** [np.full((n0, n1), v)]; numpy refuses a negative dimension. *)
Definition np_full (n0 n1 : Z) (v : Z) : result ndarray2 :=
  if (n0 <? 0) || (n1 <? 0) then Raise ValueFault
  else Ok (mk_ndarray2 (Z.to_nat n0) (Z.to_nat n1)
             (replicate (Z.to_nat n0 * Z.to_nat n1) v)).

Definition in_bounds (a : ndarray2) (i j : Z) : bool :=
  (0 <=? i) && (i <? Z.of_nat (shape0 a)) && (0 <=? j) && (j <? Z.of_nat (shape1 a)).

Definition flat_index (a : ndarray2) (i j : Z) : nat :=
  Z.to_nat i * shape1 a + Z.to_nat j.

(** [a[i, j]] under boundscheck(False), wraparound(False): an index outside
    the array is not checked by the source; the model stops with
    [MemoryFault] there. *)
Definition get2 (a : ndarray2) (i j : Z) : result Z :=
  if in_bounds a i j then from_option MemoryFault (cells a !! flat_index a i j)
  else Raise MemoryFault.

(** [a[i, j] = v] through a memoryview, same directives.  Outside the array
    the model leaves the array as it is; [read_offset] never gets there, its
    writes being at [icpu < ncpu_and_bound] and [0 <= ilevel - min_level <
    n_levels] (lemma [read_offset_section_tables] reads each of them
    back). *)
Definition set2 (a : ndarray2) (i j : Z) (v : Z) : ndarray2 :=
  if in_bounds a i j
  then mk_ndarray2 (shape0 a) (shape1 a) (<[flat_index a i j := v]> (cells a))
  else a.

(** Reading without the fault, for statements about a finished table. *)
Definition lookup2 (a : ndarray2) (i j : Z) : option Z :=
  if in_bounds a i j then cells a !! flat_index a i j else None.

(** ** The sequential record reader *)

Module Fortran.

(** Modelled from the spec: the record reader [FortranFile]
    ([yt.utilities.cython_fortran_utils]) is an external collaborator of
    which the source only shows the calls.  It exposes typed
    read/skip/seek/tell primitives over unformatted sequential records:
    every record is bounded by length markers, a 4-byte marker before and
    one after the payload, which makes the 8 bytes of framing per record
    that [skip_len] counts.  A read or seek that fails is an I/O fault that
    propagates.  The file is its bytes and a cursor; [io_log] records the
    record-level reads and the seeks performed, oldest first.  The
    interface lists no attribute [name]: the reader itself has none
    ([name] is [None]); an object of a subclass may carry one. *)

Inductive io_event : Type :=
| EvRead (at_byte : nat) (payload_len : nat)   (* one record consumed *)
| EvSeek (to_byte : nat).

Record FortranFile : Type := mk_file {
  contents : list byte;
  cursor : nat;
  io_log : list io_event;
  name : option string
}.

Definition open_at (bs : list byte) (p : nat) : FortranFile := mk_file bs p [] None.

(** [f.name]: the attribute lookup, an [AttributeError] on a reader without
    that attribute. *)
Definition get_name (f : FortranFile) : result string :=
  match name f with
  | Some n => Ok n
  | None => Raise AttributeFault
  end.

Definition read_bytes (n : nat) (f : FortranFile) : result (list byte * FortranFile) :=
  if (cursor f + n <=? length (contents f))%nat
  then Ok (take n (drop (cursor f) (contents f)),
           mk_file (contents f) (cursor f + n) (io_log f) (name f))
  else Raise IOFault.

Definition read_marker (f : FortranFile) : result (Z * FortranFile) :=
  '(bs, f') ← read_bytes 4 f; Ok (wrap32 (le_combine bs), f').

(** One record: leading marker, payload, trailing marker; the markers must
    agree and give a byte count. *)
Definition read_record (f : FortranFile) : result (list byte * FortranFile) :=
  '(s1, f1) ← read_marker f;
  if s1 <? 0 then Raise IOFault else
  '(payload, f2) ← read_bytes (Z.to_nat s1) f1;
  '(s2, f3) ← read_marker f2;
  if s1 =? s2
  then Ok (payload, mk_file (contents f3) (cursor f3)
                      (io_log f3 ++ [EvRead (cursor f) (Z.to_nat s1)]) (name f3))
  else Raise IOFault.

(** [f.read_int()]: a record holding one [INT32_t]. *)
Definition read_int (f : FortranFile) : result (Z * FortranFile) :=
  '(payload, f') ← read_record f;
  if (length payload =? 4)%nat then Ok (wrap32 (le_combine payload), f')
  else Raise ValueFault.

Fixpoint chunks8 (n : nat) (bs : list byte) : list float64 :=
  match n with
  | O => []
  | S n' => le_combine (take 8 bs) :: chunks8 n' (drop 8 bs)
  end.

(** [f.read_vector("d")] and [f.read_vector_inplace("d", dst)]: a record
    holding doubles; the caller stores them. *)
Definition read_vector (f : FortranFile) : result (list float64 * FortranFile) :=
  '(payload, f') ← read_record f;
  if (length payload mod 8 =? 0)%nat
  then Ok (chunks8 (length payload / 8) payload, f')
  else Raise ValueFault.

(** [f.skip(n)]: pass over [n] records. *)
Definition skip (f : FortranFile) (n : Z) : result FortranFile :=
  for_each (range n) (fun _ f0 => '(_, f1) ← read_record f0; Ok f1) f.

Definition tell (f : FortranFile) : Z := Z.of_nat (cursor f).

(** [f.seek(pos, whence)], [whence] 0 (from the start, the default) or 1
    (from the cursor).  A position before the start of the file is refused. *)
Definition seek (f : FortranFile) (pos : Z) (whence : Z) : result FortranFile :=
  let target := if whence =? 1 then tell f + pos else pos in
  if (target <? 0) || negb ((whence =? 0) || (whence =? 1)) then Raise IOFault
  else Ok (mk_file (contents f) (Z.to_nat target)
             (io_log f ++ [EvSeek (Z.to_nat target)]) (name f)).

End Fortran.
Import Fortran.

(** ** [skip_len]

    [cdef inline int skip_len(int Nskip, int record_len)]: the byte length of
    [Nskip] records of [record_len] doubles, computed in C [int]. *)
Definition skip_len (Nskip record_len : Z) : Z :=
  wrap32 (Nskip * (record_len * DOUBLE_SIZE + INT64_SIZE)).

(** The header dictionary, with the keys the procedures read. *)
Record Headers : Type := mk_headers {
  ndim : Z;
  numbl : ndarray2;
  nboundary : Z;
  nx : Z * Z * Z;
  nlevelmax : Z;
  ncpu : Z
}.

(** ** [read_offset] *)

Definition offset_state : Type := FortranFile * ndarray2 * ndarray2.

(** The body of the two loops of [read_offset], at [(ilevel, icpu)]. *)
Definition read_offset_body (min_level Nskip ilevel icpu : Z) (st : offset_state)
  : result offset_state :=
  let '(f, offset, level_count) := st in
  '(file_ilevel, f) ← read_int f;
  '(file_ncache, f) ← read_int f;
  if file_ncache =? 0 then Ok (f, offset, level_count)
  else if negb (file_ilevel =? ilevel + 1)
  then (* raise YTIllDefinedAMRData(..., f.name, file_ilevel, ilevel): the
          arguments are evaluated first *)
       file_name ← get_name f;
       Raise (StructuralIntegrity file_name file_ilevel ilevel)
  else
    let '(offset, level_count) :=
      if ilevel >=? min_level
      then (set2 offset icpu (ilevel - min_level) (tell f),
            set2 level_count icpu (ilevel - min_level) file_ncache)
      else (offset, level_count) in
    f ← seek f (skip_len Nskip file_ncache) 1;
    Ok (f, offset, level_count).

Definition read_offset (f : FortranFile) (min_level domain_id nvar : Z)
    (headers : Headers) (Nskip : Z) : result offset_state :=
  let n_levels := nlevelmax headers - min_level in
  let ncpu_and_bound := nboundary headers + ncpu headers in
  let twotondim := 2 ^ ndim headers in
  let Nskip := if Nskip =? -1 then wrap32 (twotondim * nvar) else Nskip in
  offset ← np_full ncpu_and_bound n_levels (-1);
  level_count ← np_full ncpu_and_bound n_levels 0;
  for_each (range (nlevelmax headers)) (fun ilevel =>
    for_each (range ncpu_and_bound) (read_offset_body min_level Nskip ilevel))
    (f, offset, level_count).

(** ** The spatial index

    [RAMSESOctreeContainer] is an external collaborator.  The procedures
    only call it, so the container is represented by the calls it has
    received, oldest first, each with the arguments the procedures choose
    ([levels], [cell_inds], [file_inds], [tr] and [domains] are forwarded
    untouched by [fill_hydro] and left out).  [add] answers with the number
    of grids it added, which is recorded with the call. *)

(** A row of the coordinate array; [None] is a cell of [np.empty] that has
    not been written yet. *)
Definition position : Type := option float64 * option float64 * option float64.

(** A 2-D slice [buffer[:, :, i]] of the decode buffer, rows first. *)
Definition slice2 : Type := list (list (option float64)).

Inductive oct_call : Type :=
| OctAdd (domain level : Z) (positions : list position) (count_boundary : Z)
    (added : Z)
| OctFillLevel (level : Z) (tmp : gmap string slice2)
| OctFillLevelWithDomain (level : Z) (tmp : gmap string slice2) (domain : Z).

Definition oct_handler : Type := list oct_call.

(** ** [fill_hydro] *)

(** The decode buffer, a Fortran-ordered 3-D array
    [(cell-slot, sub-cell, requested-field)]: the first index runs fastest. *)
Record decode_buffer : Type := mk_buffer {
  dim0 : nat;
  dim1 : nat;
  dim2 : nat;
  mem : list (option float64)
}.

Definition np_empty3 (n0 n1 n2 : Z) : result decode_buffer :=
  if (n0 <? 0) || (n1 <? 0) || (n2 <? 0) then Raise ValueFault
  else Ok (mk_buffer (Z.to_nat n0) (Z.to_nat n1) (Z.to_nat n2)
             (replicate (Z.to_nat n0 * Z.to_nat n1 * Z.to_nat n2) None)).

(** The address of [buffer[c, i, j]], in cells. *)
Definition cell_index (b : decode_buffer) (c i j : nat) : nat :=
  (c + dim0 b * (i + dim1 b * j))%nat.

(** [f.read_vector_inplace('d', &buffer[0, i, j])] stores the doubles of the
    record from that address on, whatever their number; past the end of the
    allocation the model stops with [MemoryFault]. *)
Definition write_vector (b : decode_buffer) (i j : Z) (vs : list float64)
  : result decode_buffer :=
  let base := cell_index b 0 (Z.to_nat i) (Z.to_nat j) in
  if (base + length vs <=? length (mem b))%nat
  then Ok (mk_buffer (dim0 b) (dim1 b) (dim2 b)
             (take base (mem b) ++ (Some <$> vs) ++ drop (base + length vs) (mem b)))
  else Raise MemoryFault.

(** [buffer[:, :, j]], read at the time of the call that receives it. *)
Definition buffer_slice (b : decode_buffer) (j : nat) : slice2 :=
  (fun c => (fun i => default None (mem b !! cell_index b c i j)) <$> seq 0 (dim1 b))
    <$> seq 0 (dim0 b).

(** [level_count.max()]; numpy refuses an empty array. *)
Definition np_max (a : ndarray2) : result Z :=
  match cells a with
  | [] => Raise ValueFault
  | x :: xs => Ok (fold_left Z.max xs x)
  end.

Definition array_get (a : list Z) (i : Z) : result Z :=
  if i <? 0 then Raise MemoryFault else from_option MemoryFault (a !! Z.to_nat i).

Definition array_set (a : list Z) (i : Z) (v : Z) : result (list Z) :=
  if (0 <=? i) && (i <? Z.of_nat (length a)) then Ok (<[Z.to_nat i := v]> a)
  else Raise MemoryFault.

(** [field in fields] *)
Definition py_in (field : string) (fields : list string) : bool :=
  existsb (String.eqb field) fields.

(** The jump table: one walk over [all_fields]. *)
Definition build_jumps (all_fields fields : list string) : result (list Z) :=
  let nfields_selected := Z.of_nat (length fields) in
  let jumps := replicate (Z.to_nat (nfields_selected + 1)) 0 in
  '(jumps, j, jump_len) ← for_each all_fields (fun field '(jumps, j, jump_len) =>
      if py_in field fields
      then jumps ← array_set jumps j jump_len; Ok (jumps, j + 1, 0)
      else Ok (jumps, j, jump_len + 1))
    (jumps, 0, 0);
  array_set jumps j jump_len.

Definition field_state : Type := FortranFile * Z * decode_buffer.

(** The body of [for j in range(nfields_selected)]. *)
Definition read_field (jumps : list Z) (nc i j : Z) (st : field_state)
  : result field_state :=
  let '(f, jump_len, buffer) := st in
  jmp ← array_get jumps j;
  let jump_len := jump_len + jmp in
  '(f, jump_len) ← (if jump_len >? 0
                     then f ← seek f (skip_len jump_len nc) 1; Ok (f, 0)
                     else Ok (f, jump_len));
  '(vs, f) ← read_vector f;
  buffer ← write_vector buffer i j vs;
  Ok (f, jump_len, buffer).

(** The body of [for i in range(twotondim)]. *)
Definition read_subcell (jumps : list Z) (nfields_selected nc i : Z)
    (st : field_state) : result field_state :=
  '(f, jump_len, buffer) ← for_each (range nfields_selected) (read_field jumps nc i) st;
  jmp ← array_get jumps nfields_selected;
  Ok (f, jump_len + jmp, buffer).

(** The decoding of one present block: the seek to its first requested
    record and the loops over the sub-cells and the requested fields. *)
Definition decode_block (jumps : list Z)
    (first_field_index twotondim nfields_selected nc offset : Z)
    (f : FortranFile) (buffer : decode_buffer) : result field_state :=
  f ← seek f (offset + skip_len first_field_index nc) 0;
  (* We have already skipped the first fields (if any)
     so we "rewind" (this will cancel the first seek) *)
  for_each (range twotondim) (read_subcell jumps nfields_selected nc)
    (f, - first_field_index, buffer).

(** [tmp = {}; for i, field in enumerate(fields): tmp[field] = buffer[:, :, i]] *)
Definition alias_buffer (fields : list string) (b : decode_buffer)
  : gmap string slice2 :=
  fold_left (fun tmp '(i, field) => <[field := buffer_slice b i]> tmp)
    (imap (fun i field => (i, field)) fields) ∅.

Definition hydro_state : Type := FortranFile * decode_buffer * oct_handler.

(** The body of the loops over levels and over the selected domains. *)
Definition fill_hydro_body (offsets level_count : ndarray2) (cpu_list jumps : list Z)
    (first_field_index twotondim : Z) (fields : list string) (ilevel ii : Z)
    (st : hydro_state) : result hydro_state :=
  let '(f, buffer, oct) := st in
  let nfields_selected := Z.of_nat (length fields) in
  let ncpu_selected := Z.of_nat (length cpu_list) in
  icpu ← array_get cpu_list ii;
  let icpu := wrap32 icpu in
  nc ← get2 level_count icpu ilevel;
  let nc := wrap32 nc in
  if nc =? 0 then Ok st else
  offset ← get2 offsets icpu ilevel;
  if offset =? -1 then Ok st else
  '(f, _, buffer) ← decode_block jumps first_field_index twotondim
                      nfields_selected nc offset f buffer;
  let tmp := alias_buffer fields buffer in
  let call := if ncpu_selected >? 1
              then OctFillLevelWithDomain ilevel tmp (wrap32 (icpu + 1))
              else OctFillLevel ilevel tmp in
  Ok (f, buffer, oct ++ [call]).

Definition fill_hydro (f : FortranFile) (offsets level_count : ndarray2)
    (cpu_enumerator : list Z) (ndim : Z) (all_fields fields : list string)
    (oct : oct_handler) : result hydro_state :=
  let twotondim := 2 ^ ndim in
  let nfields_selected := Z.of_nat (length fields) in
  let nlevels := Z.of_nat (shape1 offsets) in
  let ncpu_selected := Z.of_nat (length cpu_enumerator) in
  jumps ← build_jumps all_fields fields;
  first_field_index ← array_get jumps 0;
  dim ← np_max level_count;
  buffer ← np_empty3 dim twotondim nfields_selected;
  for_each (range nlevels) (fun ilevel =>
    for_each (range ncpu_selected)
      (fill_hydro_body offsets level_count cpu_enumerator jumps first_field_index
         twotondim fields ilevel))
    (f, buffer, oct).

(** ** [read_amr] *)

Section ReadAmr.

(** What the collaborators compute: the float arithmetic of the re-centring,
    [v - h] and [(i - 1.0) / 2.0], and the number of grids the container
    reports for an [add], which may depend on every call it has received. *)
Variable fsub : float64 -> float64 -> float64.
Variable half_extent : Z -> float64.
Variable oct_add : oct_handler -> Z -> Z -> list position -> Z -> Z.

Definition np_empty_pos (n : Z) : list position :=
  replicate (Z.to_nat n) (None, None, None).

(** The number of rows that [pos[:stop]] selects. *)
Definition py_stop (stop : Z) (len : nat) : nat :=
  if stop <? 0 then Z.to_nat (Z.of_nat len + stop)
  else Nat.min (Z.to_nat stop) len.

Definition set_column (c : nat) (row : position) (v : float64) : position :=
  let '(x, y, z) := row in
  match c with
  | 0%nat => (Some v, y, z)
  | 1%nat => (x, Some v, z)
  | _ => (x, y, Some v)
  end.

(** [pos[:ng, c] = vs]: numpy wants as many values as rows, or one value that
    it repeats. *)
Definition assign_column (pos : list position) (ng : Z) (c : nat)
    (vs : list float64) : result (list position) :=
  let m := py_stop ng (length pos) in
  if (length vs =? m)%nat
  then Ok (zip_with (set_column c) (take m pos) vs ++ drop m pos)
  else match vs with
       | [v] => Ok (((fun row => set_column c row v) <$> take m pos) ++ drop m pos)
       | _ => Raise ValueFault
       end.

Record amr_state : Type := mk_amr {
  amr_file : FortranFile;
  amr_oct : oct_handler;
  amr_pos : list position;
  amr_buffer_size : Z;
  amr_max_level : Z
}.

(** The body of the two loops of [read_amr], at [(ilevel, icpu)]. *)
Definition read_amr_body (headers : Headers) (ngridbound : list Z)
    (min_level ilevel icpu : Z) (st : amr_state) : result amr_state :=
  let '(nx, ny, nz) := nx headers in
  let skip_len := 1 + 2 * ndim headers + 2 ^ ndim headers + 2 ^ ndim headers
                  + 2 ^ ndim headers in
  ng ← (if icpu <? ncpu headers then get2 (numbl headers) ilevel icpu
        else array_get ngridbound (icpu - ncpu headers + nboundary headers * ilevel));
  let ng := wrap32 ng in
  if ng =? 0 then Ok st else
  f ← skip (amr_file st) 3;
  let '(pos, buffer_size) :=
    if ng >? amr_buffer_size st then (np_empty_pos ng, ng)
    else (amr_pos st, amr_buffer_size st) in
  '(xs, f) ← read_vector f;
  pos ← assign_column pos ng 0 ((fun v => fsub v (half_extent nx)) <$> xs);
  '(ys, f) ← read_vector f;
  pos ← assign_column pos ng 1 ((fun v => fsub v (half_extent ny)) <$> ys);
  '(zs, f) ← read_vector f;
  pos ← assign_column pos ng 2 ((fun v => fsub v (half_extent nz)) <$> zs);
  f ← skip f skip_len;
  if ilevel >=? min_level then
    let grids := take (py_stop ng (length pos)) pos in
    let n := oct_add (amr_oct st) (icpu + 1) (ilevel - min_level) grids 1 in
    let oct := amr_oct st ++ [OctAdd (icpu + 1) (ilevel - min_level) grids 1 n] in
    let max_level := if n >? 0 then Z.max (ilevel - min_level) (amr_max_level st)
                     else amr_max_level st in
    Ok (mk_amr f oct pos buffer_size max_level)
  else Ok (mk_amr f (amr_oct st) pos buffer_size (amr_max_level st)).

Definition read_amr (f : FortranFile) (headers : Headers) (ngridbound : list Z)
    (min_level : Z) (oct : oct_handler) : result (Z * amr_state) :=
  let ncpu_and_bound := nboundary headers + ncpu headers in
  st ← for_each (range (nlevelmax headers)) (fun ilevel =>
         for_each (range ncpu_and_bound)
           (read_amr_body headers ngridbound min_level ilevel))
         (mk_amr f oct (np_empty_pos 0) 0 0);
  Ok (amr_max_level st, st).

End ReadAmr.

(** ** The on-disk layout of the data section

    What the writer of the simulation puts on disk, used to state what the
    readers find: a record is its payload between two 4-byte markers, and a
    block of the data section is two integer records (declared level,
    declared record count) followed, when the count is not zero, by its
    field records. *)

Definition record (payload : list byte) : list byte :=
  le_split 4 (Z.of_nat (length payload)) ++ payload
  ++ le_split 4 (Z.of_nat (length payload)).

Definition record_int (v : Z) : list byte := record (le_split 4 v).

Definition record_doubles (vs : list float64) : list byte :=
  record (flat_map (le_split 8) vs).

Record block : Type := mk_block {
  blk_level : Z;                      (* declared level id *)
  blk_count : Z;                      (* declared record count *)
  blk_records : list (list float64)   (* the field records of the payload *)
}.

Definition encode_payload (b : block) : list byte :=
  flat_map record_doubles (blk_records b).

Definition encode_block (b : block) : list byte :=
  record_int (blk_level b) ++ record_int (blk_count b) ++ encode_payload b.

Definition encode_blocks (bs : list block) : list byte :=
  flat_map encode_block bs.

(** ** Vocabulary of the statements *)

Definition well_shaped (a : ndarray2) : Prop :=
  length (cells a) = (shape0 a * shape1 a)%nat.

(** Entry by entry, the offset is the absence sentinel exactly when the count
    is zero. *)
Definition paired (offset level_count : ndarray2) : Prop :=
  shape0 offset = shape0 level_count /\ shape1 offset = shape1 level_count /\
  well_shaped offset /\ well_shaped level_count /\
  Forall2 (fun o c => o <> -1 <-> c <> 0) (cells offset) (cells level_count).

(** The levels of the insertions that added at least one grid, and their
    maximum (0 when there is none; the levels are never negative). *)
Definition productive_levels (calls : list oct_call) : list Z :=
  flat_map (fun c => match c with
                     | OctAdd _ level _ _ added => if added >? 0 then [level] else []
                     | _ => []
                     end) calls.

Definition max_of (levels : list Z) : Z := fold_right Z.max 0 levels.

Definition is_add_within (lo hi : Z) (c : oct_call) : Prop :=
  match c with
  | OctAdd _ level _ _ _ => lo <= level <= hi
  | _ => False
  end.

(** What the iterations of [read_amr] have done to the container and to the
    running maximum. *)
Definition amr_tracks (oct0 : oct_handler) (lo hi : Z) (st : amr_state) : Prop :=
  exists calls,
    amr_oct st = oct0 ++ calls /\
    amr_max_level st = max_of (productive_levels calls) /\
    Forall (is_add_within lo hi) calls.


(** The bytes [bs] lie in the file contents [c] from byte [p] on. *)
Definition bytes_at (c : list byte) (p : nat) (bs : list byte) : Prop :=
  (p + length bs <= length c)%nat /\ take (length bs) (drop p c) = bs.

(** A record whose length fits the signed 4-byte markers. *)
Definition marker_fits (payload : list byte) : Prop :=
  Z.of_nat (length payload) < 2 ^ 31.

(** A block as the writer lays it out for [Nskip] field records per block:
    the two declared integers fit 4 bytes, an absent block has no payload,
    and a present block has [Nskip] records of [blk_count] doubles, less
    than 2 GiB in all. *)
Definition well_formed_block (Nskip : Z) (b : block) : Prop :=
  in_int32 (blk_level b) /\ 0 <= blk_count b /\ in_int32 (blk_count b) /\
  if blk_count b =? 0 then blk_records b = []
  else Z.of_nat (length (blk_records b)) = Nskip /\
       Forall (fun r => Z.of_nat (length r) = blk_count b) (blk_records b) /\
       in_int32 (Nskip * (blk_count b * 8 + 8)).

(** The data section: for every level, in order, the blocks of every domain,
    in order. *)
Definition encode_section (data : list (list block)) : list byte :=
  flat_map encode_blocks data.

Definition well_formed_section (Nskip nlevelmax ncpu_and_bound : Z)
    (data : list (list block)) : Prop :=
  length data = Z.to_nat nlevelmax /\
  Forall (fun row => length row = Z.to_nat ncpu_and_bound /\
                     Forall (well_formed_block Nskip) row) data.

(** What the raise of [read_offset] ends with on the reader [f]: the fault
    that carries the name of the reader, the level id read from the file and
    the level of the loop, or, for a reader without a name, the failure of
    the lookup of that name. *)
Definition level_fault (f : FortranFile) (file_ilevel ilevel : Z) : fault :=
  match name f with
  | Some n => StructuralIntegrity n file_ilevel ilevel
  | None => AttributeFault
  end.

(** A block agrees with the level [ilevel] of the loop when it is absent or
    declares [ilevel + 1]. *)
Definition coherentb (ilevel : Z) (b : block) : bool :=
  (blk_count b =? 0) || (blk_level b =? ilevel + 1).

Fixpoint coherent_from (ilevel : Z) (data : list (list block)) : bool :=
  match data with
  | [] => true
  | row :: rest => forallb (coherentb ilevel) row && coherent_from (ilevel + 1) rest
  end.

(** Some block of the section that is present (its declared record count is
    not zero) declares a level id other than [level + 1]. *)
Definition mislabelled_present (data : list (list block)) : Prop :=
  exists (level domain : nat) (row : list block) (b : block),
    data !! level = Some row /\ row !! domain = Some b /\
    blk_count b <> 0 /\ blk_level b <> Z.of_nat level + 1.

(** The [Nskip] that [read_offset] works with. *)
Definition effective_Nskip (headers : Headers) (nvar Nskip : Z) : Z :=
  if Nskip =? -1 then wrap32 (2 ^ ndim headers * nvar) else Nskip.

(** How a call reached the index: the method and the level and domain it
    was given. *)
Inductive route : Type :=
| ViaAdd
| ViaFillLevel (level : Z)
| ViaFillLevelWithDomain (level domain : Z).

Definition route_of (c : oct_call) : route :=
  match c with
  | OctAdd _ _ _ _ _ => ViaAdd
  | OctFillLevel level _ => ViaFillLevel level
  | OctFillLevelWithDomain level _ domain => ViaFillLevelWithDomain level domain
  end.

(** The block of domain [icpu] (0-based) at level column [ilevel] is present
    in the tables: its record count is not zero and its offset is not the
    sentinel. *)
Definition block_present (offsets level_count : ndarray2) (ilevel icpu : Z) : bool :=
  match lookup2 level_count icpu ilevel, lookup2 offsets icpu ilevel with
  | Some nc, Some offset => negb (wrap32 nc =? 0) && negb (offset =? -1)
  | _, _ => false
  end.

(** The blocks that [fill_hydro] decodes, in the order of its loops: level by
    level, and within a level the domains of [cpu_list] in order. *)
Definition processed_blocks (offsets level_count : ndarray2) (cpu_list : list Z)
  : list (Z * Z) :=
  flat_map (fun ilevel =>
    flat_map (fun icpu => if block_present offsets level_count ilevel (wrap32 icpu)
                          then [(ilevel, wrap32 icpu)] else [])
      cpu_list)
    (range (Z.of_nat (shape1 offsets))).

(** The route of the call that hands a block over. *)
Definition handoff_route (ncpu_selected ilevel icpu : Z) : route :=
  if ncpu_selected >? 1 then ViaFillLevelWithDomain ilevel (icpu + 1)
  else ViaFillLevel ilevel.


(** ** The seek plan of [fill_hydro] and its reference *)

(** Which entries of the catalogue are requested, in on-disk order. *)
Definition requested (all_fields fields : list string) : list bool :=
  map (fun field => py_in field fields) all_fields.

(** The skip distances of the spec: walking the catalogue, the count of
    consecutive non-requested fields, emitted and reset at each requested
    field, with the count left at the end as trailing entry. *)
Fixpoint skip_distances (acc : Z) (req : list bool) : list Z :=
  match req with
  | [] => [acc]
  | true :: req' => acc :: skip_distances 0 req'
  | false :: req' => skip_distances (acc + 1) req'
  end.

(** Every requested field is an entry of the catalogue, once: the walk over
    the catalogue finds as many requested fields as were asked for. *)
Fixpoint count_true (req : list bool) : nat :=
  match req with
  | [] => 0
  | true :: req' => S (count_true req')
  | false :: req' => count_true req'
  end.

Definition requested_once (all_fields fields : list string) : Prop :=
  count_true (requested all_fields fields) = length fields.

(** The naive reference plan for one block: rewind to the start of the
    block, then walk every field record of every sub-cell in on-disk order,
    reading the record of a requested field into the next slot of the
    buffer and skipping the record of any other field, one record at a
    time. *)
Definition naive_field (fields : list string) (nc i : Z) (field : string)
    (st : FortranFile * Z * decode_buffer) : result (FortranFile * Z * decode_buffer) :=
  let '(f, j, buffer) := st in
  if py_in field fields
  then '(vs, f) ← read_vector f;
       buffer ← write_vector buffer i j vs;
       Ok (f, j + 1, buffer)
  else f ← seek f (skip_len 1 nc) 1; Ok (f, j, buffer).

Definition naive_subcell (all_fields fields : list string) (nc i : Z)
    (st : FortranFile * decode_buffer) : result (FortranFile * decode_buffer) :=
  let '(f, buffer) := st in
  '(f, _, buffer) ← for_each all_fields (naive_field fields nc i) (f, 0, buffer);
  Ok (f, buffer).

Definition naive_block (all_fields fields : list string) (twotondim nc offset : Z)
    (f : FortranFile) (buffer : decode_buffer) : result (FortranFile * decode_buffer) :=
  f ← seek f offset 0;
  for_each (range twotondim) (naive_subcell all_fields fields nc) (f, buffer).

(** The byte positions of the records that were read, oldest first. *)
Definition read_positions (log : list io_event) : list nat :=
  flat_map (fun e => match e with
                     | EvRead p _ => [p]
                     | EvSeek _ => []
                     end) log.

(** The positions on disk of the requested records among the records that
    lie one after the other from byte [p] on, each [reclen] bytes long. *)
Fixpoint requested_positions (reclen p : nat) (req : list bool) : list nat :=
  match req with
  | [] => []
  | true :: req' => p :: requested_positions reclen (p + reclen) req'
  | false :: req' => requested_positions reclen (p + reclen) req'
  end.

(** The same for a block of [twotondim] sub-cells that starts at byte
    [offset]: sub-cell after sub-cell, each with the records of all the
    catalogue. *)
Fixpoint block_positions (reclen offset : nat) (twotondim : nat) (req : list bool)
  : list nat :=
  match twotondim with
  | O => []
  | S n => requested_positions reclen offset req
           ++ block_positions reclen (offset + length req * reclen) n req
  end.

(** The buffer is allocated with its declared dimensions. *)
Definition buffer_allocated (b : decode_buffer) : Prop :=
  length (mem b) = (dim0 b * dim1 b * dim2 b)%nat.

(** What the reader returns for a vector written as [rec]. *)
Definition read_back (rec : list float64) : list float64 :=
  (fun v => v mod 2 ^ 64) <$> rec.

(** The records of the requested fields among the records of one sub-cell. *)
Fixpoint requested_records (req : list bool) (recs : list (list float64))
  : list (list float64) :=
  match req, recs with
  | true :: req', rec :: recs' => rec :: requested_records req' recs'
  | false :: req', _ :: recs' => requested_records req' recs'
  | _, _ => []
  end.

(** Storing the requested records of sub-cell [i] into the slots [j],
    [j + 1], ... of the buffer. *)
Definition store_records (i : Z) (recs : list (list float64))
    (st : Z * decode_buffer) : result (Z * decode_buffer) :=
  for_each recs (fun rec '(j, b) =>
    b ← write_vector b i j (read_back rec); Ok (j + 1, b)) st.

(** Storing the requested records of the sub-cells [i0], [i0 + 1], ... *)
Fixpoint store_subcells (req : list bool) (i0 : nat)
    (subcells : list (list (list float64))) (b : decode_buffer)
  : result decode_buffer :=
  match subcells with
  | [] => Ok b
  | recs :: rest =>
      '(_, b) ← store_records (Z.of_nat i0) (requested_records req recs) (0, b);
      store_subcells req (S i0) rest b
  end.

(** The payload of a block on disk: sub-cell after sub-cell, the records of
    all the fields of the catalogue. *)
Definition encode_subcells (subcells : list (list (list float64))) : list byte :=
  flat_map (flat_map record_doubles) subcells.

(** Every sub-cell holds one record of [nc] doubles per field of the
    catalogue. *)
Definition well_formed_subcells (nvar : nat) (nc : Z)
    (subcells : list (list (list float64))) : Prop :=
  Forall (fun recs => length recs = nvar /\
                      Forall (fun rec => Z.of_nat (length rec) = nc) recs) subcells.

(** The byte length of a record of [nc] doubles with its two markers. *)
Definition record_bytes (nc : Z) : nat := Z.to_nat (nc * 8 + 8).

(** What the decoding of a sub-cell needs from the one before: the cursor is
    short of the sub-cell by the distance accumulated, and the first jump,
    added to that distance, is a skip within the catalogue. *)
Definition subcell_entry (req : list bool) (nc jl : Z) (p : nat) (f : FortranFile)
  : Prop :=
  Z.of_nat (cursor f) + jl * (nc * 8 + 8) = Z.of_nat p /\
  (count_true req = 0%nat \/
   0 <= jl + hd 0 (skip_distances 0 req) <= Z.of_nat (length req)).


(** The buffer [b'] has the dimensions of [b] and is allocated. *)
Definition same_dims (b b' : decode_buffer) : Prop :=
  dim0 b' = dim0 b /\ dim1 b' = dim1 b /\ dim2 b' = dim2 b /\ buffer_allocated b'.


(** What reached the index under the name [field], call after call. *)
Definition delivered (field : string) (oct : oct_handler) : list (option slice2) :=
  map (fun c => match c with
                | OctAdd _ _ _ _ _ => None
                | OctFillLevel _ tmp => tmp !! field
                | OctFillLevelWithDomain _ tmp _ => tmp !! field
                end) oct.


(** The entries that the tables must hold for a block that starts at byte
    [start] of the file: the position just after its two header records and
    its record count, or the sentinels when the block is absent. *)
Definition offset_entry (start : nat) (b : block) : Z :=
  if blk_count b =? 0 then -1 else Z.of_nat (start + 24).

Definition count_entry (b : block) : Z := blk_count b.

(** The cell [buffer[c, i, j]]; [None] when it was never written. *)
Definition cell (b : decode_buffer) (c i j : nat) : option float64 :=
  default None (mem b !! cell_index b c i j).

(** The names of the requested catalogue entries, in on-disk order. *)
Fixpoint requested_names (req : list bool) (names : list string) : list string :=
  match req, names with
  | true :: req', x :: names' => x :: requested_names req' names'
  | false :: req', _ :: names' => requested_names req' names'
  | _, _ => []
  end.

(** The request names the requested catalogue entries in on-disk order. *)
Definition in_catalogue_order (all_fields fields : list string) : Prop :=
  fields = requested_names (requested all_fields fields) all_fields.

(** ** The on-disk layout of the topology section

    One block per non-empty [(level, domain)]: three linkage records, the
    three coordinate vectors, and the [1 + 2 ndim + 3 2^ndim] trailing
    metadata records.  The reader passes over the linkage and the metadata
    without looking; they are written here as integer records. *)

Definition encode_grids (ndim : Z) (xs ys zs : list float64) : list byte :=
  concat (replicate 3 (record_int 0))
  ++ record_doubles xs ++ record_doubles ys ++ record_doubles zs
  ++ concat (replicate (Z.to_nat (1 + 2 * ndim + 3 * 2 ^ ndim)) (record_int 0)).

(** ** Sample inputs

    Small files and headers on which the procedures are run. *)

Module Sample.

(** Stand-ins for the collaborators of [read_amr]: a re-centring on bit
    patterns, and two containers, one that takes every grid it is offered
    and one that finds every grid already present. *)
Definition fsub (v h : float64) : float64 := v - h.
Definition half_extent (i : Z) : float64 := (i - 1) / 2.
Definition add_all : oct_handler -> Z -> Z -> list position -> Z -> Z :=
  fun _ _ _ grids _ => Z.of_nat (length grids).
Definition add_none : oct_handler -> Z -> Z -> list position -> Z -> Z :=
  fun _ _ _ _ _ => 0.

(** One dimension, one domain, two levels; two grids at level 0, three at
    level 1. *)
Definition amr_headers : Headers :=
  mk_headers 1 (mk_ndarray2 2 1 [2; 3]) 0 (3, 3, 3) 2 1.

Definition amr_file : FortranFile :=
  open_at (encode_grids 1 [10; 20] [30; 40] [50; 60]
           ++ encode_grids 1 [11; 21; 31] [12; 22; 32] [13; 23; 33]) 0.

(** The same header with the grids of level 1 only. *)
Definition amr_headers_deep : Headers :=
  mk_headers 1 (mk_ndarray2 2 1 [0; 3]) 0 (3, 3, 3) 2 1.

Definition amr_file_deep : FortranFile :=
  open_at (encode_grids 1 [11; 21; 31] [12; 22; 32] [13; 23; 33]) 0.

(** The same header with no grid at all, and the empty topology section. *)
Definition amr_headers_empty : Headers :=
  mk_headers 1 (mk_ndarray2 2 1 [0; 0]) 0 (3, 3, 3) 2 1.

Definition amr_file_empty : FortranFile := open_at [] 0.

Definition amr_start (f : FortranFile) : amr_state :=
  mk_amr f [] (np_empty_pos 0) 0 0.

(** Where the runs on the sample topology end. *)
Definition amr_final (oct_add : oct_handler -> Z -> Z -> list position -> Z -> Z)
    (min_level : Z) : amr_state :=
  match read_amr fsub half_extent oct_add amr_file amr_headers [] min_level [] with
  | Ok (_, st) => st
  | Raise _ => amr_start amr_file
  end.
Definition amr_final_none : amr_state := Eval vm_compute in amr_final add_none 0.
Definition amr_final_all : amr_state := Eval vm_compute in amr_final add_all 1.

(** Data section: one dimension, one variable, one domain, two levels, so two
    field records per block. *)
Definition data_headers : Headers :=
  mk_headers 1 (mk_ndarray2 2 1 [2; 1]) 0 (3, 3, 3) 2 1.

Definition data_block0 : block := mk_block 1 2 [[11; 12]; [13; 14]].
Definition data_block1 : block := mk_block 2 1 [[21]; [22]].

Definition data_section : list (list block) := [[data_block0]; [data_block1]].

Definition data_file : FortranFile := open_at (encode_section data_section) 0.

(** The file position and the two tables after indexing [data_file]. *)
Definition data_indexed : offset_state :=
  Eval vm_compute in
    match read_offset data_file 0 1 1 data_headers (-1) with
    | Ok st => st
    | Raise _ => (data_file, mk_ndarray2 0 0 [], mk_ndarray2 0 0 [])
    end.

(** The block of level 0 declares level 7 and two records. *)
Definition data_section_mislabelled : list (list block) :=
  [[mk_block 7 2 [[11; 12]; [13; 14]]]; [mk_block 2 1 [[21]; [22]]]].

Definition data_file_mislabelled : FortranFile :=
  open_at (encode_section data_section_mislabelled) 0.

(** Two fields, one dimension: per sub-cell a density record then a pressure
    record. *)
Definition hydro_fields : list string := ["density"; "pressure"]%string.

Definition hydro_block : block :=
  mk_block 1 2 [[11; 12]; [21; 22]; [13; 14]; [23; 24]].

(** The payload of [hydro_block], sub-cell by sub-cell. *)
Definition hydro_subcells : list (list (list float64)) :=
  [[[11; 12]; [21; 22]]; [[13; 14]; [23; 24]]].

Definition hydro_file : FortranFile := open_at (encode_blocks [hydro_block]) 0.

(** A decode buffer for two cells, two sub-cells and one requested field. *)
Definition hydro_buffer : decode_buffer := mk_buffer 2 2 1 (replicate 4 None).
Definition hydro_offsets : ndarray2 := mk_ndarray2 1 1 [24].
Definition hydro_counts : ndarray2 := mk_ndarray2 1 1 [2].


(** Two domains at one level: the block of domain 0 holds two cells, the
    block of domain 1 one cell. *)
Definition hydro2_section : list (list block) :=
  [[mk_block 1 2 [[11; 12]; [21; 22]; [13; 14]; [23; 24]];
    mk_block 1 1 [[31]; [41]; [32]; [42]]]].

Definition hydro2_file : FortranFile := open_at (encode_section hydro2_section) 0.
Definition hydro2_offsets : ndarray2 := mk_ndarray2 2 1 [24; 144].
Definition hydro2_counts : ndarray2 := mk_ndarray2 2 1 [2; 1].

Definition hydro2_final : hydro_state :=
  Eval vm_compute in
    match fill_hydro hydro2_file hydro2_offsets hydro2_counts [0; 1] 1 hydro_fields
            ["pressure"%string] [] with
    | Ok st => st
    | Raise _ => (hydro2_file, mk_buffer 0 0 0 [], [])
    end.

End Sample.
(** ** Vocabulary of the further properties *)

(** The block [b] of [(level, domain)] is the first block of the section, in
    file order, that is present and declares a level id other than
    [level + 1]. *)
Definition first_mislabelled_present (data : list (list block))
    (level domain : nat) (b : block) : Prop :=
  (exists row, data !! level = Some row /\ row !! domain = Some b) /\
  blk_count b <> 0 /\ blk_level b <> Z.of_nat level + 1 /\
  forall (l d : nat) (row' : list block) (b' : block),
    data !! l = Some row' -> row' !! d = Some b' ->
    (l < level)%nat \/ (l = level /\ (d < domain)%nat) ->
    blk_count b' = 0 \/ blk_level b' = Z.of_nat l + 1.

(** The dictionary that a call hands to the index; [add] hands none. *)
Definition tmp_of (c : oct_call) : option (gmap string slice2) :=
  match c with
  | OctAdd _ _ _ _ _ => None
  | OctFillLevel _ tmp => Some tmp
  | OctFillLevelWithDomain _ tmp _ => Some tmp
  end.

(** The payload of a block lies in the file from byte [offset] on:
    [twotondim] sub-cells, each with one record of [nc] doubles for every
    field of the catalogue. *)
Definition block_on_disk (c : list byte) (nvar : nat) (twotondim offset nc : Z)
    (subcells : list (list (list float64))) : Prop :=
  0 <= offset /\
  length subcells = Z.to_nat twotondim /\
  well_formed_subcells nvar nc subcells /\
  bytes_at c (Z.to_nat offset) (encode_subcells subcells).

(** The slice holds, in its row [c] below [nc] and its column [i], the
    [c]-th double of the record that the field named [x] has in sub-cell [i]
    of the payload. *)
Definition slice_holds (all_fields : list string) (x : string) (nc : Z)
    (subcells : list (list (list float64))) (slice : slice2) : Prop :=
  forall (i : nat) (recs : list (list float64)),
    subcells !! i = Some recs ->
    exists (k : nat) (rec : list float64),
      all_fields !! k = Some x /\ recs !! k = Some rec /\
      forall c : nat,
        Z.of_nat c < nc ->
        slice !! c ≫= (fun row => row !! i) = Some (read_back rec !! c).

(** The call hands the block of [(ilevel, icpu)] over: it takes the route of
    the block and its dictionary holds, under every requested name, a slice
    with the records of that field. *)
Definition hands_over (all_fields fields : list string) (ncpu_selected nc : Z)
    (subcells : list (list (list float64))) (ilevel icpu : Z) (call : oct_call)
  : Prop :=
  route_of call = handoff_route ncpu_selected ilevel icpu /\
  exists tmp,
    tmp_of call = Some tmp /\
    forall x, In x fields ->
      exists slice, tmp !! x = Some slice /\
                    slice_holds all_fields x nc subcells slice.

(** The call hands over the block [blk = (ilevel, icpu)] of the tables, whose
    payload on disk is [disk ilevel icpu]. *)
Definition delivers_block (all_fields fields : list string) (ncpu_selected : Z)
    (level_count : ndarray2) (disk : Z -> Z -> list (list (list float64)))
    (blk : Z * Z) (call : oct_call) : Prop :=
  exists nc,
    lookup2 level_count (snd blk) (fst blk) = Some nc /\
    hands_over all_fields fields ncpu_selected nc (disk (fst blk) (snd blk))
      (fst blk) (snd blk) call.

(** The tables as [fill_hydro] needs them: of one shape, with fewer rows
    than a C [int] can count, and record counts that are not negative, fit a
    C [int] and, where they are not zero, make the records of one sub-cell
    take less than 2 GiB. *)
Definition decodable_tables (nvar : nat) (offsets level_count : ndarray2) : Prop :=
  shape0 offsets = shape0 level_count /\ shape1 offsets = shape1 level_count /\
  well_shaped offsets /\ well_shaped level_count /\
  Z.of_nat (shape0 level_count) < 2 ^ 31 /\
  cells level_count <> [] /\
  Forall (fun nc => 0 <= nc < 2 ^ 31 /\
                    (nc <> 0 -> in_int32 (Z.of_nat nvar * (nc * 8 + 8))))
    (cells level_count).

(** ** The on-disk layout of a block of the topology section

    The block of a non-empty [(level, domain)]: the three linkage records
    (grid index, next, previous), the three coordinate vectors, and the
    metadata records (father, neighbours, sons, cpu map, refinement map). *)
Record grid_block : Type := mk_grids {
  g_linkage : list (list byte);
  g_xs : list float64;
  g_ys : list float64;
  g_zs : list float64;
  g_metadata : list (list byte)
}.

Definition encode_grid_block (g : grid_block) : list byte :=
  flat_map record (g_linkage g)
  ++ record_doubles (g_xs g) ++ record_doubles (g_ys g) ++ record_doubles (g_zs g)
  ++ flat_map record (g_metadata g).

(** A block of [ng] grids in [ndim] dimensions: three linkage records, [ng]
    coordinates per axis, [1 + 2 ndim + 3 2^ndim] metadata records, every
    record short enough for its 4-byte markers. *)
Definition well_formed_grids (ndim ng : Z) (g : grid_block) : Prop :=
  length (g_linkage g) = 3%nat /\ Forall marker_fits (g_linkage g) /\
  Z.of_nat (length (g_xs g)) = ng /\ Z.of_nat (length (g_ys g)) = ng /\
  Z.of_nat (length (g_zs g)) = ng /\ in_int32 (ng * 8 + 8) /\
  Z.of_nat (length (g_metadata g)) = 1 + 2 * ndim + 3 * 2 ^ ndim /\
  Forall marker_fits (g_metadata g).

(** The grid count of [(ilevel, icpu)] as [read_amr] looks it up: in [numbl]
    for a real domain, in [ngridbound] for a boundary one; [None] where the
    lookup is outside the array. *)
Definition grid_count (headers : Headers) (ngridbound : list Z) (ilevel icpu : Z)
  : option Z :=
  if icpu <? ncpu headers then lookup2 (numbl headers) ilevel icpu
  else if icpu - ncpu headers + nboundary headers * ilevel <? 0 then None
  else ngridbound !! Z.to_nat (icpu - ncpu headers + nboundary headers * ilevel).

(** The coordinates of one axis as read back and re-centred by [h]. *)
Definition recentred (fsub : float64 -> float64 -> float64) (h : float64)
    (vs : list float64) : list float64 :=
  (fun v => fsub v h) <$> read_back vs.

(** The rows of the coordinate array made of three columns. *)
Definition grid_rows (xs ys zs : list float64) : list position :=
  zip_with (fun xy z => (Some (fst xy), Some (snd xy), Some z)) (zip xs ys) zs.

(** The rows that [read_amr] hands to [add] for the block [g]. *)
Definition grid_positions (fsub : float64 -> float64 -> float64)
    (half_extent : Z -> float64) (headers : Headers) (g : grid_block)
  : list position :=
  let '(nx, ny, nz) := nx headers in
  grid_rows (recentred fsub (half_extent nx) (g_xs g))
    (recentred fsub (half_extent ny) (g_ys g))
    (recentred fsub (half_extent nz) (g_zs g)).

(** An [add] call addressed to one of [ndomains] domains, 1-based, at one of
    [nlevels] levels, 0-based, with the boundary grids counted. *)
Definition add_addressed (ndomains nlevels : Z) (c : oct_call) : Prop :=
  match c with
  | OctAdd domain level _ count_boundary _ =>
      1 <= domain <= ndomains /\ 0 <= level < nlevels /\ count_boundary = 1
  | _ => False
  end.

(** ** The topology section as a whole

    For every level, in order, and every domain (real, then boundary), in
    order: the block of the pair, or nothing when the pair has no grid. *)
Definition encode_topology_row (row : list (option grid_block)) : list byte :=
  flat_map (fun o => match o with
                     | Some g => encode_grid_block g
                     | None => []
                     end) row.

Definition encode_topology (topo : list (list (option grid_block))) : list byte :=
  flat_map encode_topology_row topo.

(** The header counts no grid for a pair without block, and [ng > 0] grids
    for a pair whose block holds [ng] grids. *)
Definition block_counted (headers : Headers) (ngridbound : list Z)
    (ilevel icpu : Z) (o : option grid_block) : Prop :=
  match o with
  | None => grid_count headers ngridbound ilevel icpu = Some 0
  | Some g => exists ng, grid_count headers ngridbound ilevel icpu = Some ng /\
                         0 < ng /\ well_formed_grids (ndim headers) ng g
  end.

Definition well_formed_topology (headers : Headers) (ngridbound : list Z)
    (topo : list (list (option grid_block))) : Prop :=
  length topo = Z.to_nat (nlevelmax headers) /\
  forall (level : nat) (row : list (option grid_block)),
    topo !! level = Some row ->
    length row = Z.to_nat (nboundary headers + ncpu headers) /\
    forall (domain : nat) (o : option grid_block),
      row !! domain = Some o ->
      block_counted headers ngridbound (Z.of_nat level) (Z.of_nat domain) o.

(** What an [add] call asks of the index: domain, level and rows. *)
Definition add_request : Type := Z * Z * list position.

Definition request_of (c : oct_call) : option add_request :=
  match c with
  | OctAdd domain level positions _ _ => Some (domain, level, positions)
  | _ => None
  end.

(** The requests that the blocks of a row, then of the section, call for: one
    per block at a level from [min_level] on, in file order. *)
Fixpoint row_requests (fsub : float64 -> float64 -> float64)
    (half_extent : Z -> float64) (headers : Headers) (min_level ilevel : Z)
    (d0 : nat) (row : list (option grid_block)) : list add_request :=
  match row with
  | [] => []
  | o :: rest =>
      match o with
      | Some g =>
          if ilevel >=? min_level
          then [(Z.of_nat d0 + 1, ilevel - min_level,
                 grid_positions fsub half_extent headers g)]
          else []
      | None => []
      end ++ row_requests fsub half_extent headers min_level ilevel (S d0) rest
  end.

Fixpoint topology_requests (fsub : float64 -> float64 -> float64)
    (half_extent : Z -> float64) (headers : Headers) (min_level : Z)
    (l0 : nat) (topo : list (list (option grid_block))) : list add_request :=
  match topo with
  | [] => []
  | row :: rest =>
      row_requests fsub half_extent headers min_level (Z.of_nat l0) 0 row
      ++ topology_requests fsub half_extent headers min_level (S l0) rest
  end.

(** An event of the reader that is a seek or the read of a 4-byte record. *)
Definition header_event (e : io_event) : Prop :=
  match e with
  | EvRead _ payload_len => payload_len = 4%nat
  | EvSeek _ => True
  end.

(** ** Further sample inputs *)

Module Scenario.

(** The data section of [Sample.data_headers] with a sound block at level 0
    and, at level 1, a present block that declares level 9. *)
Definition late_block : block := mk_block 9 1 [[21]; [22]].

Definition data_section_late : list (list block) :=
  [[Sample.data_block0]; [late_block]].

Definition data_file_late : FortranFile := open_at (encode_section data_section_late) 0.

(** The same file read through a reader of a subclass that carries a name. *)
Definition late_name : string := "hydro_00080.out00001".

Definition data_file_late_named : FortranFile :=
  mk_file (encode_section data_section_late) 0 [] (Some late_name).

(** The run of [fill_hydro] on the sample block with nothing requested. *)
Definition hydro_final_empty : hydro_state :=
  Eval vm_compute in
    match fill_hydro Sample.hydro_file Sample.hydro_offsets Sample.hydro_counts [0] 1
            Sample.hydro_fields [] [] with
    | Ok st => st
    | Raise _ => (Sample.hydro_file, mk_buffer 0 0 0 [], [])
    end.

(** The tables of [Sample.data_file] when no level is asked for. *)
Definition data_indexed_none : offset_state :=
  Eval vm_compute in
    match read_offset Sample.data_file 2 1 1 Sample.data_headers (-1) with
    | Ok st => st
    | Raise _ => (Sample.data_file, mk_ndarray2 0 0 [], mk_ndarray2 0 0 [])
    end.

(** The payloads of the two blocks of [Sample.hydro2_section], sub-cell by
    sub-cell, by level column and domain. *)
Definition hydro2_disk (ilevel icpu : Z) : list (list (list float64)) :=
  if icpu =? 0 then [[[11; 12]; [21; 22]]; [[13; 14]; [23; 24]]]
  else [[[31]; [41]]; [[32]; [42]]].


Definition hydro2_payload (level domain : nat) : list (list (list float64)) :=
  match domain with
  | O => [[[11; 12]; [21; 22]]; [[13; 14]; [23; 24]]]
  | _ => [[[31]; [41]]; [[32]; [42]]]
  end.

(** The first block of [Sample.amr_file]: two grids in one dimension. *)
Definition amr_block0 : grid_block :=
  mk_grids (replicate 3 (le_split 4 0)) [10; 20] [30; 40] [50; 60]
    (replicate 9 (le_split 4 0)).

(** Its second block, three grids, and the whole section. *)
Definition amr_block1 : grid_block :=
  mk_grids (replicate 3 (le_split 4 0)) [11; 21; 31] [12; 22; 32] [13; 23; 33]
    (replicate 9 (le_split 4 0)).

Definition amr_topology : list (list (option grid_block)) :=
  [[Some amr_block0]; [Some amr_block1]].

(** A decode buffer for two cells, two sub-cells and two requested fields. *)
Definition hydro_buffer2 : decode_buffer := mk_buffer 2 2 2 (replicate 8 None).

(** A header that counts three grids where [Sample.amr_file] holds two. *)
Definition amr_headers_miscounted : Headers :=
  mk_headers 1 (mk_ndarray2 2 1 [3; 3]) 0 (3, 3, 3) 2 1.

(** A record count for which three records of that many doubles, with their
    markers, take 4294967304 bytes: more than a C [int] holds. *)
Definition large_count : Z := 178956970.

(** The head of a file whose first block, of level 1, declares
    [large_count] cells: its two header records and the first bytes of its
    first field record, whose marker counts 1431655760 bytes. *)
Definition large_block_head : FortranFile :=
  open_at (record_int 1 ++ record_int large_count
           ++ le_split 4 (large_count * 8) ++ le_split 8 0) 0.

(** A catalogue of four fields of which the last one is requested. *)
Definition wide_fields : list string := ["u1"; "u2"; "u3"; "a"]%string.


End Scenario.
(** * Properties *)

(** ** Loops and machine integers *)

Lemma bind_Ok {A B} (m : result A) (k : A -> result B) (b : B) :
  (m ≫= k) = Ok b -> exists a, m = Ok a /\ k a = Ok b.
Proof. destruct m as [a|e]; simpl; [eauto | discriminate]. Qed.

Lemma bind_ret {A B} (a : A) (k : A -> result B) : (Ok a ≫= k) = k a.
Proof. reflexivity. Qed.

(** Run the binds whose first computation is known. *)
Ltac step := rewrite ?bind_ret; cbv beta iota.

(** A run that ended normally did not take the raise of [read_offset]. *)
Ltac no_raise :=
  match goal with
  | H : (get_name _ ≫= _) = Ok _ |- _ =>
      apply bind_Ok in H as (? & _ & H); discriminate H
  end.

Lemma for_each_app {X S} (xs ys : list X) (body : X -> S -> result S) (s : S) :
  for_each (xs ++ ys) body s = for_each xs body s ≫= for_each ys body.
Proof.
  revert s. induction xs as [|x xs IH]; intros s; simpl; [reflexivity|].
  destruct (body x s) as [s'|e]; simpl; [apply IH | reflexivity].
Qed.

(** A property kept by every iteration that ends normally is kept by the
    loop. *)
Lemma for_each_invariant {X S} (I : S -> Prop) (xs : list X)
    (body : X -> S -> result S) :
  (forall x s s', In x xs -> body x s = Ok s' -> I s -> I s') ->
  forall s s', for_each xs body s = Ok s' -> I s -> I s'.
Proof.
  induction xs as [|x xs IH]; intros Hbody s s' Hrun Hs; simpl in Hrun.
  - congruence.
  - apply bind_Ok in Hrun as (s1 & H1 & H2).
    eapply IH; [ | exact H2 | ].
    + intros y t t' Hy. apply Hbody. now right.
    + eapply Hbody; [now left | exact H1 | exact Hs].
Qed.

Lemma range_spec (n x : Z) : In x (range n) <-> 0 <= x < n.
Proof.
  unfold range. rewrite in_map_iff. split.
  - intros (k & <- & Hk). apply in_seq in Hk. lia.
  - intros H. exists (Z.to_nat x). split; [lia|]. apply in_seq. lia.
Qed.

Lemma range_succ (n : Z) : 0 <= n -> range (n + 1) = range n ++ [n].
Proof.
  intros H. unfold range.
  replace (Z.to_nat (n + 1)) with (S (Z.to_nat n)) by lia.
  rewrite seq_S, map_app. simpl. now rewrite Z2Nat.id.
Qed.

(** Linear arithmetic with the bounds of the machine integers evaluated. *)
Ltac int_lia :=
  unfold in_int32 in *;
  change (2 ^ 31) with 2147483648 in *;
  change (2 ^ 32) with 4294967296 in *;
  lia.

Lemma wrap32_small (z : Z) : in_int32 z -> wrap32 z = z.
Proof.
  unfold in_int32, wrap32. intros H.
  rewrite Z.mod_small; lia.
Qed.

Lemma wrap32_range (z : Z) : in_int32 (wrap32 z).
Proof.
  unfold in_int32, wrap32.
  pose proof (Z.mod_pos_bound (z + 2 ^ 31) (2 ^ 32) ltac:(lia)). lia.
Qed.

Lemma skip_len_exact (Nskip record_len : Z) :
  in_int32 (Nskip * (record_len * 8 + 8)) ->
  skip_len Nskip record_len = Nskip * (record_len * 8 + 8).
Proof. intros H. unfold skip_len, DOUBLE_SIZE, INT64_SIZE. now apply wrap32_small. Qed.

(** ** [read_offset]: the two tables are written together *)

Lemma np_full_Ok n0 n1 v a :
  np_full n0 n1 v = Ok a ->
  0 <= n0 /\ 0 <= n1 /\ shape0 a = Z.to_nat n0 /\ shape1 a = Z.to_nat n1 /\
  cells a = replicate (Z.to_nat n0 * Z.to_nat n1) v.
Proof.
  unfold np_full. destruct (n0 <? 0) eqn:E0; [discriminate|].
  destruct (n1 <? 0) eqn:E1; [discriminate|]. simpl.
  intros [= <-]. simpl. repeat split; lia.
Qed.

Lemma in_bounds_spec a i j :
  in_bounds a i j = true <->
  0 <= i < Z.of_nat (shape0 a) /\ 0 <= j < Z.of_nat (shape1 a).
Proof. unfold in_bounds. rewrite !andb_true_iff. lia. Qed.

Lemma flat_index_lt a i j :
  in_bounds a i j = true -> (flat_index a i j < shape0 a * shape1 a)%nat.
Proof. rewrite in_bounds_spec. unfold flat_index. nia. Qed.

Lemma set2_shape a i j v :
  shape0 (set2 a i j v) = shape0 a /\ shape1 (set2 a i j v) = shape1 a.
Proof. unfold set2. destruct (in_bounds a i j); auto. Qed.

Lemma set2_well_shaped a i j v : well_shaped a -> well_shaped (set2 a i j v).
Proof.
  unfold well_shaped, set2. destruct (in_bounds a i j); simpl; auto.
  now rewrite length_insert.
Qed.

Lemma paired_set2 offset level_count i j o c :
  paired offset level_count -> (o <> -1 <-> c <> 0) ->
  paired (set2 offset i j o) (set2 level_count i j c).
Proof.
  intros (H0 & H1 & Hwo & Hwc & Hall) Hoc.
  unfold paired. repeat split;
    try (destruct (set2_shape offset i j o), (set2_shape level_count i j c); congruence);
    try (now apply set2_well_shaped).
  unfold set2, in_bounds, flat_index. rewrite <- H0, <- H1.
  destruct (_ && _); simpl; [|exact Hall]. now apply Forall2_insert.
Qed.

Lemma read_offset_body_paired min_level Nskip ilevel icpu f offset level_count
    f' offset' level_count' :
  read_offset_body min_level Nskip ilevel icpu (f, offset, level_count)
    = Ok (f', offset', level_count') ->
  paired offset level_count -> paired offset' level_count'.
Proof.
  unfold read_offset_body. intros Hrun Hinv.
  apply bind_Ok in Hrun as ([file_ilevel f1] & _ & Hrun).
  apply bind_Ok in Hrun as ([file_ncache f2] & _ & Hrun).
  destruct (file_ncache =? 0) eqn:Ecache; [now inversion Hrun; subst|].
  destruct (negb (file_ilevel =? ilevel + 1)); [no_raise|].
  apply Z.eqb_neq in Ecache.
  destruct (ilevel >=? min_level).
  - apply bind_Ok in Hrun as (f3 & _ & [= <- <- <-]).
    apply paired_set2; [exact Hinv|]. unfold tell. split; intros; lia.
  - apply bind_Ok in Hrun as (f3 & _ & [= <- <- <-]). exact Hinv.
Qed.

Lemma paired_lookup2 offset level_count i j :
  paired offset level_count -> in_bounds offset i j = true ->
  exists o c, lookup2 offset i j = Some o /\ lookup2 level_count i j = Some c /\
              (o <> -1 <-> c <> 0).
Proof.
  intros (H0 & H1 & Hwo & Hwc & Hall) Hin.
  assert (Hin' : in_bounds level_count i j = true).
  { unfold in_bounds in *. now rewrite <- H0, <- H1. }
  pose proof (flat_index_lt _ _ _ Hin) as Hlt.
  unfold lookup2. rewrite Hin, Hin'.
  assert (Hidx : flat_index level_count i j = flat_index offset i j).
  { unfold flat_index. now rewrite H1. }
  rewrite Hidx.
  destruct (lookup_lt_is_Some_2 (cells offset) (flat_index offset i j)) as [o Ho].
  { rewrite Hwo. exact Hlt. }
  destruct (Forall2_lookup_l _ _ _ _ _ Hall Ho) as (c & Hc & Hoc).
  eauto.
Qed.

(** C7.  Every entry of the two tables that [read_offset] returns pairs an
    offset different from the -1 sentinel with a nonzero record count, and
    the sentinel with a zero count: the entries exist for every domain
    [0 <= i < nboundary + ncpu] and every level column
    [0 <= j < nlevelmax - min_level], and in each the offset differs from -1
    if and only if the count differs from 0. *)
Theorem read_offset_offset_valid_iff_count_nonzero
    f min_level domain_id nvar headers Nskip f' offset level_count :
  read_offset f min_level domain_id nvar headers Nskip = Ok (f', offset, level_count) ->
  forall i j,
    0 <= i < nboundary headers + ncpu headers ->
    0 <= j < nlevelmax headers - min_level ->
    exists o c, lookup2 offset i j = Some o /\ lookup2 level_count i j = Some c /\
                (o <> -1 <-> c <> 0).
Proof.
  unfold read_offset. intros Hrun i j Hi Hj.
  apply bind_Ok in Hrun as (off0 & Hoff & Hrun).
  apply bind_Ok in Hrun as (cnt0 & Hcnt & Hrun).
  apply np_full_Ok in Hoff as (Hn0 & Hn1 & Ho0 & Ho1 & Hocells).
  apply np_full_Ok in Hcnt as (_ & _ & Hc0 & Hc1 & Hccells).
  set (I := fun st : offset_state =>
              paired (snd (fst st)) (snd st) /\
              shape0 (snd (fst st)) = shape0 off0 /\
              shape1 (snd (fst st)) = shape1 off0).
  assert (HI : I (f', offset, level_count)).
  { eapply (for_each_invariant I); [ | exact Hrun | ].
    - intros ilevel s s' _ Hin. eapply (for_each_invariant I); [ | exact Hin].
      intros icpu [[g o] c] [[g' o'] c'] _ Hbody (Hp & Hs0 & Hs1); simpl in *.
      pose proof (read_offset_body_paired _ _ _ _ _ _ _ _ _ _ Hbody Hp) as Hp'.
      split; [exact Hp'|].
      unfold read_offset_body in Hbody.
      apply bind_Ok in Hbody as ([file_ilevel f1] & _ & Hbody).
      apply bind_Ok in Hbody as ([file_ncache f2] & _ & Hbody).
      destruct (file_ncache =? 0); [now inversion Hbody; subst|].
      destruct (negb _); [no_raise|].
      destruct (ilevel >=? min_level);
        apply bind_Ok in Hbody as (f3 & _ & [= <- <- <-]); auto.
      destruct (set2_shape o icpu (ilevel - min_level) (tell f2)) as [E0 E1].
      simpl. rewrite E0, E1. now split.
    - unfold I, paired, well_shaped; simpl.
      rewrite Hocells, Hccells, Ho0, Ho1, Hc0, Hc1, !length_replicate.
      repeat split; try reflexivity.
      apply Forall2_replicate. lia. }
  destruct HI as (Hp & Hs0 & Hs1); simpl in *.
  apply paired_lookup2; [exact Hp|].
  apply in_bounds_spec. rewrite Hs0, Hs1, Ho0, Ho1. lia.
Qed.

(** ** [read_amr] *)

Lemma max_of_snoc (levels : list Z) (x : Z) :
  0 <= x -> max_of (levels ++ [x]) = Z.max x (max_of levels).
Proof.
  intros Hx. unfold max_of. induction levels as [|y ys IH]; simpl; lia.
Qed.

Lemma max_of_nonneg (levels : list Z) : 0 <= max_of levels.
Proof. unfold max_of. induction levels; simpl; lia. Qed.

Lemma max_of_upper (levels : list Z) (b : Z) :
  0 <= b -> Forall (fun l => l <= b) levels -> max_of levels <= b.
Proof.
  intros Hb. unfold max_of. induction 1; simpl; lia.
Qed.

Lemma max_of_ge (levels : list Z) (x : Z) : In x levels -> x <= max_of levels.
Proof.
  unfold max_of. induction levels as [|y ys IH]; simpl; [tauto|].
  intros [-> | H]; [lia | specialize (IH H); lia].
Qed.

Lemma max_of_attained (levels : list Z) :
  levels <> [] -> Forall (fun l => 0 <= l) levels -> In (max_of levels) levels.
Proof.
  unfold max_of. induction levels as [|y ys IH]; [congruence|].
  intros _ Hall. inversion Hall as [|? ? Hy Hys]; subst. simpl.
  destruct ys as [|z zs].
  - left. simpl. lia.
  - destruct (Z.max_spec y (fold_right Z.max 0 (z :: zs))) as [[_ E] | [_ E]];
      rewrite E; [right; apply IH; [congruence | exact Hys] | now left].
Qed.

Lemma productive_levels_app (xs ys : list oct_call) :
  productive_levels (xs ++ ys) = productive_levels xs ++ productive_levels ys.
Proof. unfold productive_levels. apply flat_map_app. Qed.

Lemma in_productive_levels (calls : list oct_call) (l : Z) :
  In l (productive_levels calls) <->
  exists domain positions cb added,
    In (OctAdd domain l positions cb added) calls /\ 0 < added.
Proof.
  unfold productive_levels. rewrite in_flat_map. split.
  - intros (c & Hc & Hl). destruct c as [d lev p cb n| |]; simpl in Hl; try tauto.
    destruct (n >? 0) eqn:E; simpl in Hl; [|tauto].
    destruct Hl as [<- | []]. exists d, p, cb, n. split; [exact Hc | lia].
  - intros (d & p & cb & n & Hc & Hn). eexists; split; [exact Hc|]. simpl.
    destruct (n >? 0) eqn:E; [now left | lia].
Qed.

Section ReadAmrProperties.

Variable fsub : float64 -> float64 -> float64.
Variable half_extent : Z -> float64.
Variable oct_add : oct_handler -> Z -> Z -> list position -> Z -> Z.

#[local] Abbreviation amr_body := (read_amr_body fsub half_extent oct_add).
#[local] Abbreviation amr_run := (read_amr fsub half_extent oct_add).

Lemma read_amr_body_tracks headers ngridbound min_level ilevel icpu oct0 hi st st' :
  amr_body headers ngridbound min_level ilevel icpu st = Ok st' ->
  ilevel - min_level <= hi ->
  amr_tracks oct0 0 hi st -> amr_tracks oct0 0 hi st'.
Proof.
  unfold read_amr_body. intros Hrun Hhi Htr.
  destruct (nx headers) as [[nx0 ny0] nz0].
  apply bind_Ok in Hrun as (ng & _ & Hrun).
  destruct (wrap32 ng =? 0); [now inversion Hrun; subst|].
  apply bind_Ok in Hrun as (f1 & _ & Hrun).
  destruct (if wrap32 ng >? amr_buffer_size st then _ else _) as [pos bs].
  apply bind_Ok in Hrun as ([xs f2] & _ & Hrun).
  apply bind_Ok in Hrun as (pos1 & _ & Hrun).
  apply bind_Ok in Hrun as ([ys f3] & _ & Hrun).
  apply bind_Ok in Hrun as (pos2 & _ & Hrun).
  apply bind_Ok in Hrun as ([zs f4] & _ & Hrun).
  apply bind_Ok in Hrun as (pos3 & _ & Hrun).
  apply bind_Ok in Hrun as (f5 & _ & Hrun).
  destruct Htr as (calls & Hoct & Hmax & Hall).
  destruct (ilevel >=? min_level) eqn:Elev.
  - inversion Hrun; subst; clear Hrun. unfold amr_tracks; simpl.
    rewrite !Hoct.
    eexists (calls ++ [_]). split; [rewrite <- app_assoc; reflexivity|].
    split.
    + rewrite productive_levels_app. unfold productive_levels at 2.
      cbn [flat_map]. rewrite app_nil_r.
      destruct (_ >? 0).
      * rewrite max_of_snoc by lia. now rewrite Hmax.
      * now rewrite app_nil_r.
    + apply Forall_app. split; [exact Hall|]. constructor; [|constructor].
      simpl. lia.
  - inversion Hrun; subst; clear Hrun. now exists calls.
Qed.

Lemma read_amr_tracks f headers ngridbound min_level oct max_level st :
  amr_run f headers ngridbound min_level oct = Ok (max_level, st) ->
  max_level = amr_max_level st /\
  amr_tracks oct 0 (nlevelmax headers - 1 - min_level) st.
Proof.
  unfold read_amr. intros Hrun.
  apply bind_Ok in Hrun as (st1 & Hloop & [= <- <-]). split; [reflexivity|].
  eapply for_each_invariant; [ | exact Hloop | ].
  - intros ilevel s s' Hlev Hin. eapply for_each_invariant; [ | exact Hin].
    intros icpu t t' _ Hbody. eapply read_amr_body_tracks; [exact Hbody|].
    apply range_spec in Hlev. lia.
  - exists []. simpl. rewrite app_nil_r. repeat split. constructor.
Qed.

(** C3.  For a well-formed input ([min_level] not above [nlevelmax]) the
    value [read_amr] returns is at most [nlevelmax - min_level], and it is
    the maximum of [level - min_level] over the insertions of this run that
    added at least one grid: the index received the calls [calls], all of
    them [add]s at a level [0 <= level - min_level < nlevelmax - min_level]
    (so only for [level >= min_level]); the returned value bounds the level
    of every insertion that added a grid, and is the level of one of them
    whenever there is one. *)
Theorem read_amr_returns_max_added_level
    f headers ngridbound min_level oct max_level st :
  min_level <= nlevelmax headers ->
  amr_run f headers ngridbound min_level oct = Ok (max_level, st) ->
  max_level <= nlevelmax headers - min_level /\
  exists calls,
    amr_oct st = oct ++ calls /\
    Forall (is_add_within 0 (nlevelmax headers - 1 - min_level)) calls /\
    max_level = max_of (productive_levels calls) /\
    (forall domain level positions cb added,
        In (OctAdd domain level positions cb added) calls -> 0 < added ->
        level <= max_level) /\
    (productive_levels calls <> [] ->
     exists domain positions cb added,
       In (OctAdd domain max_level positions cb added) calls /\ 0 < added).
Proof.
  intros Hwf Hrun.
  apply read_amr_tracks in Hrun as (-> & calls & Hoct & Hmax & Hall).
  assert (Hlev : Forall (fun l => 0 <= l <= nlevelmax headers - 1 - min_level)
                   (productive_levels calls)).
  { apply List.Forall_forall. intros l Hl.
    apply in_productive_levels in Hl as (d & p & cb & n & Hc & _).
    rewrite List.Forall_forall in Hall. exact (Hall _ Hc). }
  split.
  - rewrite Hmax. apply max_of_upper; [lia|].
    eapply List.Forall_impl; [|exact Hlev]. simpl. intros; lia.
  - exists calls. repeat split; try assumption.
    + intros d l p cb n Hc Hn. rewrite Hmax. apply max_of_ge.
      apply in_productive_levels. eauto 6.
    + intros Hne. apply in_productive_levels. rewrite Hmax.
      apply max_of_attained; [exact Hne|].
      eapply List.Forall_impl; [|exact Hlev]. simpl. intros; lia.
Qed.

(** C5.  An iteration of [read_amr] whose grid count is zero (the [numbl]
    entry of a real domain, the boundary-count entry of a ghost domain)
    leaves the whole state as it was: the cursor has not moved, no record was
    read or skipped (the reader's log is the same) and the index received no
    call. *)
Theorem read_amr_empty_block_untouched
    headers ngridbound min_level ilevel icpu st :
  (icpu < ncpu headers /\ lookup2 (numbl headers) ilevel icpu = Some 0) \/
  (ncpu headers <= icpu /\
   0 <= icpu - ncpu headers + nboundary headers * ilevel /\
   ngridbound !! Z.to_nat (icpu - ncpu headers + nboundary headers * ilevel)
     = Some 0) ->
  exists st',
    amr_body headers ngridbound min_level ilevel icpu st = Ok st' /\
    cursor (amr_file st') = cursor (amr_file st) /\
    io_log (amr_file st') = io_log (amr_file st) /\
    amr_oct st' = amr_oct st /\
    st' = st.
Proof.
  intros Hzero. exists st.
  assert (Hrun : amr_body headers ngridbound min_level ilevel icpu st = Ok st);
    [|now rewrite Hrun].
  unfold read_amr_body. destruct (nx headers) as [[nx0 ny0] nz0].
  destruct Hzero as [(Hreal & Hnumbl) | (Hghost & Hidx & Hbound)].
  - apply Z.ltb_lt in Hreal. rewrite Hreal.
    unfold lookup2 in Hnumbl. unfold get2.
    destruct (in_bounds (numbl headers) ilevel icpu); [|discriminate].
    rewrite Hnumbl. reflexivity.
  - assert (E : (icpu <? ncpu headers) = false) by (apply Z.ltb_ge; lia).
    rewrite E. unfold array_get.
    assert (E' : (icpu - ncpu headers + nboundary headers * ilevel <? 0) = false)
      by (apply Z.ltb_ge; lia).
    rewrite E', Hbound. reflexivity.
Qed.

End ReadAmrProperties.

(** The returned depth is 0 as soon as no insertion of the run added a
    grid. *)
Lemma max_of_no_productive (calls : list oct_call) :
  (forall domain level positions cb added,
      In (OctAdd domain level positions cb added) calls -> added <= 0) ->
  productive_levels calls = [].
Proof.
  intros Hnone. destruct (productive_levels calls) as [|l ls] eqn:E; [reflexivity|].
  assert (Hin : In l (productive_levels calls)) by (rewrite E; now left).
  apply in_productive_levels in Hin as (d & p & cb & n & Hc & Hn).
  specialize (Hnone _ _ _ _ _ Hc). lia.
Qed.

(** C10.  [read_amr] returns 0 whenever no insertion of the run added a grid,
    whatever the container and the file; and the value 0 is also what it
    returns when grids were added at the minimum level only.  On the sample
    topology read from [min_level = 1] the index is populated with three
    grids at depth 0, on the empty topology the index receives no call at
    all, and both runs return 0. *)
Theorem read_amr_zero_is_ambiguous :
  (forall fsub half_extent oct_add f headers ngridbound min_level oct
          max_level st calls,
      read_amr fsub half_extent oct_add f headers ngridbound min_level oct
        = Ok (max_level, st) ->
      amr_oct st = oct ++ calls ->
      (forall domain level positions cb added,
          In (OctAdd domain level positions cb added) calls -> added <= 0) ->
      max_level = 0) /\
  (exists st grids,
      read_amr Sample.fsub Sample.half_extent Sample.add_all
        Sample.amr_file_deep Sample.amr_headers_deep [] 1 [] = Ok (0, st) /\
      amr_oct st = [OctAdd 1 0 grids 1 3] /\ length grids = 3%nat) /\
  (exists st,
      read_amr Sample.fsub Sample.half_extent Sample.add_all
        Sample.amr_file_empty Sample.amr_headers_empty [] 0 [] = Ok (0, st) /\
      amr_oct st = []).
Proof.
  split; [|split].
  - intros fsub half_extent oct_add f headers ngridbound min_level oct
      max_level st calls Hrun Hoct Hnone.
    apply read_amr_tracks in Hrun as (-> & calls' & Hoct' & Hmax & _).
    rewrite Hoct in Hoct'. apply app_inv_head in Hoct'. subst calls'.
    rewrite Hmax, (max_of_no_productive _ Hnone). reflexivity.
  - eexists _, _. split; [vm_compute; reflexivity|]. split; reflexivity.
  - eexists. split; [vm_compute; reflexivity|]. reflexivity.
Qed.

Lemma read_amr_zero_is_ambiguous_witness :
  read_amr Sample.fsub Sample.half_extent Sample.add_none
    Sample.amr_file Sample.amr_headers [] 0 [] = Ok (0, Sample.amr_final_none) /\
  amr_oct Sample.amr_final_none = [] ++ amr_oct Sample.amr_final_none /\
  0 = 0.
Proof.
  assert (Hrun : read_amr Sample.fsub Sample.half_extent Sample.add_none
                   Sample.amr_file Sample.amr_headers [] 0 []
                 = Ok (0, Sample.amr_final_none)) by (vm_compute; reflexivity).
  split; [exact Hrun|]. split; [reflexivity|].
  refine (proj1 read_amr_zero_is_ambiguous _ _ _ _ _ _ _ _ _ _ _ Hrun eq_refl _).
  intros domain level positions cb added [H | [H | []]]; inversion H; lia.
Defined.

Lemma read_amr_returns_max_added_level_witness :
  1 <= nlevelmax Sample.amr_headers /\
  read_amr Sample.fsub Sample.half_extent Sample.add_all
    Sample.amr_file Sample.amr_headers [] 1 [] = Ok (0, Sample.amr_final_all) /\
  0 <= nlevelmax Sample.amr_headers - 1 /\
  exists calls,
    amr_oct Sample.amr_final_all = [] ++ calls /\
    Forall (is_add_within 0 (nlevelmax Sample.amr_headers - 1 - 1)) calls /\
    0 = max_of (productive_levels calls) /\
    (forall domain level positions cb added,
        In (OctAdd domain level positions cb added) calls -> 0 < added ->
        level <= 0) /\
    (productive_levels calls <> [] ->
     exists domain positions cb added,
       In (OctAdd domain 0 positions cb added) calls /\ 0 < added).
Proof.
  assert (Hwf : 1 <= nlevelmax Sample.amr_headers) by (simpl; lia).
  assert (Hrun : read_amr Sample.fsub Sample.half_extent Sample.add_all
                   Sample.amr_file Sample.amr_headers [] 1 []
                 = Ok (0, Sample.amr_final_all)) by (vm_compute; reflexivity).
  split; [exact Hwf|]. split; [exact Hrun|].
  exact (read_amr_returns_max_added_level _ _ _ _ _ _ _ _ _ _ Hwf Hrun).
Defined.

Lemma read_amr_empty_block_untouched_witness :
  ((0 < ncpu Sample.amr_headers_deep /\
    lookup2 (numbl Sample.amr_headers_deep) 0 0 = Some 0) \/
   (ncpu Sample.amr_headers_deep <= 0 /\
    0 <= 0 - ncpu Sample.amr_headers_deep + nboundary Sample.amr_headers_deep * 0 /\
    ([] : list Z) !! Z.to_nat (0 - ncpu Sample.amr_headers_deep
                                + nboundary Sample.amr_headers_deep * 0) = Some 0)) /\
  exists st',
    read_amr_body Sample.fsub Sample.half_extent Sample.add_all
      Sample.amr_headers_deep [] 1 0 0 (Sample.amr_start Sample.amr_file_deep)
      = Ok st' /\
    cursor (amr_file st') = cursor (amr_file (Sample.amr_start Sample.amr_file_deep)) /\
    io_log (amr_file st') = io_log (amr_file (Sample.amr_start Sample.amr_file_deep)) /\
    amr_oct st' = amr_oct (Sample.amr_start Sample.amr_file_deep) /\
    st' = Sample.amr_start Sample.amr_file_deep.
Proof.
  assert (H : (0 < ncpu Sample.amr_headers_deep /\
               lookup2 (numbl Sample.amr_headers_deep) 0 0 = Some 0) \/
              (ncpu Sample.amr_headers_deep <= 0 /\
               0 <= 0 - ncpu Sample.amr_headers_deep
                    + nboundary Sample.amr_headers_deep * 0 /\
               ([] : list Z) !! Z.to_nat (0 - ncpu Sample.amr_headers_deep
                                + nboundary Sample.amr_headers_deep * 0) = Some 0)).
  { left. split; [simpl; lia | reflexivity]. }
  split; [exact H|].
  exact (read_amr_empty_block_untouched Sample.fsub Sample.half_extent
           Sample.add_all Sample.amr_headers_deep [] 1 0 0
           (Sample.amr_start Sample.amr_file_deep) H).
Defined.

Lemma read_offset_offset_valid_iff_count_nonzero_witness :
  read_offset Sample.data_file 0 1 1 Sample.data_headers (-1)
    = Ok Sample.data_indexed /\
  0 <= 0 < nboundary Sample.data_headers + ncpu Sample.data_headers /\
  0 <= 1 < nlevelmax Sample.data_headers - 0 /\
  exists o c, lookup2 (snd (fst Sample.data_indexed)) 0 1 = Some o /\
              lookup2 (snd Sample.data_indexed) 0 1 = Some c /\
              (o <> -1 <-> c <> 0).
Proof.
  assert (Hrun : read_offset Sample.data_file 0 1 1 Sample.data_headers (-1)
                 = Ok (fst (fst Sample.data_indexed), snd (fst Sample.data_indexed),
                       snd Sample.data_indexed)) by (vm_compute; reflexivity).
  assert (Hi : 0 <= 0 < nboundary Sample.data_headers + ncpu Sample.data_headers)
    by (simpl; lia).
  assert (Hj : 0 <= 1 < nlevelmax Sample.data_headers - 0) by (simpl; lia).
  split; [exact Hrun|]. split; [exact Hi|]. split; [exact Hj|].
  exact (read_offset_offset_valid_iff_count_nonzero _ _ _ _ _ _ _ _ _ Hrun 0 1 Hi Hj).
Defined.

(** ** The record reader on well-framed bytes *)

Lemma bytes_at_here (pre bs suf : list byte) :
  bytes_at (pre ++ bs ++ suf) (length pre) bs.
Proof.
  unfold bytes_at. split.
  - rewrite !length_app. lia.
  - rewrite drop_app_length. now rewrite take_app_length.
Qed.

Lemma bytes_at_app (c : list byte) (p : nat) (a b : list byte) :
  bytes_at c p (a ++ b) -> bytes_at c p a /\ bytes_at c (p + length a) b.
Proof.
  unfold bytes_at. rewrite length_app. intros [Hlen Heq]. split; split; try lia.
  - apply (f_equal (take (length a))) in Heq.
    rewrite take_take, take_app_length in Heq.
    now replace (length a `min` (length a + length b))%nat with (length a) in Heq by lia.
  - apply (f_equal (drop (length a))) in Heq.
    rewrite drop_app_length in Heq.
    transitivity (drop (length a) (take (length a + length b) (drop p c)));
      [|exact Heq].
    rewrite skipn_firstn_comm, drop_drop.
    now replace (length a + length b - length a)%nat with (length b) by lia.
Qed.

Lemma read_bytes_at (f : FortranFile) (bs : list byte) :
  bytes_at (contents f) (cursor f) bs ->
  read_bytes (length bs) f
  = Ok (bs, mk_file (contents f) (cursor f + length bs) (io_log f) (name f)).
Proof.
  intros [Hlen Heq]. unfold read_bytes.
  destruct (Nat.leb_spec (cursor f + length bs) (length (contents f))); [|lia].
  now rewrite Heq.
Qed.

Lemma wrap32_mod (z : Z) : wrap32 (z mod 2 ^ 32) = wrap32 z.
Proof.
  unfold wrap32. rewrite Zplus_mod_idemp_l. reflexivity.
Qed.

Lemma read_marker_at (f : FortranFile) (v : Z) :
  bytes_at (contents f) (cursor f) (le_split 4 v) ->
  read_marker f = Ok (wrap32 v, mk_file (contents f) (cursor f + 4) (io_log f) (name f)).
Proof.
  intros H. unfold read_marker.
  pose proof (read_bytes_at f _ H) as E. rewrite length_le_split in E.
  rewrite E. simpl. rewrite le_combine_split.
  change (Z.of_nat 4 * 8) with 32. now rewrite wrap32_mod.
Qed.

(** Reading a record that is on disk at the cursor gives its payload, moves
    the cursor past the two markers and the payload, and logs the read. *)
Lemma read_record_at (f : FortranFile) (payload : list byte) :
  marker_fits payload ->
  bytes_at (contents f) (cursor f) (record payload) ->
  read_record f
  = Ok (payload, mk_file (contents f) (cursor f + (8 + length payload))
                   (io_log f ++ [EvRead (cursor f) (length payload)]) (name f)).
Proof.
  unfold marker_fits, record. intros Hfit Hat.
  apply bytes_at_app in Hat as [Hm1 Hat].
  apply bytes_at_app in Hat as [Hp Hm2].
  rewrite length_le_split in Hp, Hm2.
  unfold read_record.
  rewrite (read_marker_at f _ Hm1). simpl.
  rewrite wrap32_small by (unfold in_int32; lia).
  destruct (Z.ltb_spec (Z.of_nat (length payload)) 0); [lia|].
  rewrite Nat2Z.id.
  set (f1 := mk_file (contents f) (cursor f + 4) (io_log f) (name f)).
  rewrite (read_bytes_at f1 payload Hp). simpl.
  set (f2 := mk_file (contents f) (cursor f + 4 + length payload) (io_log f) (name f)).
  rewrite (read_marker_at f2 _ Hm2). simpl.
  rewrite wrap32_small by (unfold in_int32; lia).
  rewrite Z.eqb_refl. do 3 f_equal. lia.
Qed.

Lemma read_int_at (f : FortranFile) (v : Z) :
  in_int32 v ->
  bytes_at (contents f) (cursor f) (record_int v) ->
  read_int f = Ok (v, mk_file (contents f) (cursor f + 12)
                        (io_log f ++ [EvRead (cursor f) 4]) (name f)).
Proof.
  intros Hv Hat. unfold read_int, record_int in *.
  rewrite (read_record_at f (le_split 4 v)) by
    (try exact Hat; unfold marker_fits; rewrite length_le_split; int_lia).
  step. rewrite length_le_split. simpl Nat.eqb. cbv iota.
  rewrite le_combine_split. change (Z.of_nat 4 * 8) with 32.
  rewrite wrap32_mod, wrap32_small by exact Hv. reflexivity.
Qed.

Lemma length_flat_map_le_split (vs : list float64) :
  length (flat_map (le_split 8) vs) = (8 * length vs)%nat.
Proof.
  induction vs as [|v vs IH]; cbn [flat_map length]; [reflexivity|].
  rewrite length_app, length_le_split, IH. lia.
Qed.

Lemma chunks8_flat_map (vs : list float64) :
  chunks8 (length vs) (flat_map (le_split 8) vs) = (fun v => v mod 2 ^ 64) <$> vs.
Proof.
  induction vs as [|v vs IH]; cbn [flat_map length chunks8]; [reflexivity|].
  rewrite take_app_length' by (symmetry; apply length_le_split).
  rewrite drop_app_length' by (symmetry; apply length_le_split).
  rewrite le_combine_split, IH, fmap_cons. reflexivity.
Qed.

(** Reading a vector of doubles that is on disk at the cursor. *)
Lemma read_vector_at (f : FortranFile) (vs : list float64) :
  Z.of_nat (length vs) * 8 < 2 ^ 31 ->
  bytes_at (contents f) (cursor f) (record_doubles vs) ->
  read_vector f
  = Ok ((fun v => v mod 2 ^ 64) <$> vs,
        mk_file (contents f) (cursor f + (8 + 8 * length vs))
          (io_log f ++ [EvRead (cursor f) (8 * length vs)]) (name f)).
Proof.
  intros Hlen Hat. unfold read_vector, record_doubles in *.
  rewrite (read_record_at f (flat_map (le_split 8) vs)) by
    (try exact Hat; unfold marker_fits; rewrite length_flat_map_le_split; int_lia).
  step. rewrite !length_flat_map_le_split.
  replace ((8 * length vs) mod 8)%nat with 0%nat
    by (symmetry; rewrite Nat.mul_comm; apply Nat.Div0.mod_mul).
  simpl Nat.eqb. cbv iota.
  replace ((8 * length vs) / 8)%nat with (length vs)
    by (rewrite Nat.mul_comm, Nat.div_mul; lia).
  now rewrite chunks8_flat_map.
Qed.

Lemma seek_relative (f : FortranFile) (n : Z) :
  0 <= n ->
  seek f n 1 = Ok (mk_file (contents f) (cursor f + Z.to_nat n)
                     (io_log f ++ [EvSeek (cursor f + Z.to_nat n)]) (name f)).
Proof.
  intros Hn. unfold seek, tell. simpl.
  destruct (Z.ltb_spec (Z.of_nat (cursor f) + n) 0); [lia|]. simpl.
  replace (Z.to_nat (Z.of_nat (cursor f) + n)) with (cursor f + Z.to_nat n)%nat by lia.
  reflexivity.
Qed.

Lemma seek_absolute (f : FortranFile) (p : Z) :
  0 <= p ->
  seek f p 0 = Ok (mk_file (contents f) (Z.to_nat p) (io_log f ++ [EvSeek (Z.to_nat p)]) (name f)).
Proof.
  intros Hp. unfold seek. simpl.
  destruct (Z.ltb_spec p 0); [lia|]. reflexivity.
Qed.

(** ** [read_offset] on a data section *)

Lemma length_record (payload : list byte) :
  length (record payload) = (8 + length payload)%nat.
Proof. unfold record. rewrite !length_app, !length_le_split. lia. Qed.

Lemma length_record_int (v : Z) : length (record_int v) = 12%nat.
Proof. unfold record_int. now rewrite length_record, length_le_split. Qed.

Lemma length_record_doubles (vs : list float64) :
  length (record_doubles vs) = (8 + 8 * length vs)%nat.
Proof. unfold record_doubles. now rewrite length_record, length_flat_map_le_split. Qed.

Lemma length_encode_records (records : list (list float64)) (count : Z) :
  Forall (fun r => Z.of_nat (length r) = count) records ->
  Z.of_nat (length (flat_map record_doubles records))
  = Z.of_nat (length records) * (count * 8 + 8).
Proof.
  induction 1 as [|r rs Hr _ IH]; cbn [flat_map length]; [lia|].
  rewrite length_app, length_record_doubles. lia.
Qed.

(** The payload of a present block is as long as [skip_len] computes. *)
Lemma length_encode_payload (Nskip : Z) (b : block) :
  well_formed_block Nskip b -> blk_count b <> 0 ->
  Z.of_nat (length (encode_payload b)) = skip_len Nskip (blk_count b).
Proof.
  intros (_ & _ & _ & Hwf) Hne. apply Z.eqb_neq in Hne. rewrite Hne in Hwf.
  destruct Hwf as (Hn & Hrec & Hfit).
  rewrite skip_len_exact by exact Hfit.
  unfold encode_payload. rewrite (length_encode_records _ _ Hrec). now rewrite Hn.
Qed.

Lemma length_encode_block (b : block) :
  length (encode_block b) = (24 + length (encode_payload b))%nat.
Proof. unfold encode_block. rewrite !length_app, !length_record_int. lia. Qed.

(** One iteration of [read_offset] on a block that is on disk at the
    cursor. *)
Lemma read_offset_body_at min_level Nskip ilevel icpu f offset level_count b :
  well_formed_block Nskip b ->
  bytes_at (contents f) (cursor f) (encode_block b) ->
  read_offset_body min_level Nskip ilevel icpu (f, offset, level_count)
  = if blk_count b =? 0
    then Ok (mk_file (contents f) (cursor f + length (encode_block b))
               (io_log f ++ [EvRead (cursor f) 4; EvRead (cursor f + 12) 4]) (name f),
             offset, level_count)
    else if negb (blk_level b =? ilevel + 1)
    then Raise (level_fault f (blk_level b) ilevel)
    else Ok (mk_file (contents f) (cursor f + length (encode_block b))
               (io_log f ++ [EvRead (cursor f) 4; EvRead (cursor f + 12) 4;
                             EvSeek (cursor f + length (encode_block b))]) (name f),
             if ilevel >=? min_level
             then set2 offset icpu (ilevel - min_level) (Z.of_nat (cursor f + 24))
             else offset,
             if ilevel >=? min_level
             then set2 level_count icpu (ilevel - min_level) (blk_count b)
             else level_count).
Proof.
  intros Hwf Hat.
  pose proof Hwf as (Hlev & Hpos & Hcnt & Hrecs).
  rewrite !(length_encode_block b).
  unfold encode_block in Hat.
  apply bytes_at_app in Hat as [Hl Hat]. apply bytes_at_app in Hat as [Hc _].
  rewrite length_record_int in Hc.
  unfold read_offset_body.
  rewrite (read_int_at f _ Hlev Hl). step.
  set (f1 := mk_file (contents f) (cursor f + 12) (io_log f ++ [EvRead (cursor f) 4]) (name f)).
  rewrite (read_int_at f1 _ Hcnt Hc). step.
  subst f1. cbn [contents cursor io_log].
  rewrite <- !app_assoc. cbn [app].
  replace (cursor f + 12 + 12)%nat with (cursor f + 24)%nat by lia.
  destruct (blk_count b =? 0) eqn:Ezero.
  - unfold encode_payload. rewrite Hrecs. reflexivity.
  - destruct (negb (blk_level b =? ilevel + 1)).
    { unfold get_name, level_fault. cbn [name]. now destruct (name f). }
    apply Z.eqb_neq in Ezero.
    pose proof (length_encode_payload Nskip b Hwf Ezero) as Hpay.
    set (f2 := mk_file _ _ _ _).
    assert (Hseek : seek f2 (skip_len Nskip (blk_count b)) 1
                    = Ok (mk_file (contents f)
                            (cursor f + (24 + length (encode_payload b)))
                            (io_log f ++ [EvRead (cursor f) 4; EvRead (cursor f + 12) 4;
                                          EvSeek (cursor f + (24 + length (encode_payload b)))]) (name f))).
    { rewrite seek_relative by lia. subst f2. cbn [contents cursor io_log].
      rewrite <- Hpay, Nat2Z.id, <- !app_assoc. cbn [app].
      replace (cursor f + 24 + length (encode_payload b))%nat
        with (cursor f + (24 + length (encode_payload b)))%nat by lia.
      reflexivity. }
    assert (Htell : tell f2 = Z.of_nat (cursor f + 24)) by reflexivity.
    destruct (ilevel >=? min_level); step; rewrite ?Htell, Hseek; reflexivity.
Qed.

(** A well-formed block, whose payload takes less than 2 GiB.  When
    [read_offset] meets such a block, present (nonzero declared record
    count, declared level coherent) and of a level below [min_level], the
    iteration writes nothing into the two tables, so every entry keeps the
    -1 and 0 it was initialised with, and it leaves the cursor exactly past
    the payload of the block, that is at the header of the next block. *)
Theorem read_offset_skips_block_below_min_level
    min_level Nskip ilevel icpu f offset level_count b :
  well_formed_block Nskip b ->
  bytes_at (contents f) (cursor f) (encode_block b) ->
  blk_count b <> 0 ->
  blk_level b = ilevel + 1 ->
  ilevel < min_level ->
  exists f',
    read_offset_body min_level Nskip ilevel icpu (f, offset, level_count)
      = Ok (f', offset, level_count) /\
    contents f' = contents f /\
    cursor f' = (cursor f + length (encode_block b))%nat /\
    tell f' = tell f + 24 + skip_len Nskip (blk_count b).
Proof.
  intros Hwf Hat Hcount Hlevel Hbelow.
  rewrite (read_offset_body_at _ _ _ _ _ _ _ _ Hwf Hat).
  apply Z.eqb_neq in Hcount. rewrite Hcount.
  apply Z.eqb_eq in Hlevel. rewrite Hlevel. simpl negb. cbv iota.
  assert (E : (ilevel >=? min_level) = false) by lia. rewrite E.
  eexists. split; [reflexivity|]. cbn [contents cursor]. repeat split.
  unfold tell. cbn [cursor]. apply Z.eqb_neq in Hcount.
  rewrite <- (length_encode_payload Nskip b Hwf Hcount), length_encode_block. lia.
Qed.

Lemma length_encode_blocks_cons (b : block) (row : list block) :
  encode_blocks (b :: row) = encode_block b ++ encode_blocks row.
Proof. reflexivity. Qed.

(** The inner loop of [read_offset] over the blocks of one level: it ends
    past the last block when every block is coherent with the level, and
    stops at its raise otherwise. *)
Lemma read_offset_row min_level Nskip ilevel (row : list block) :
  forall (icpus : list Z) f offset level_count,
    length icpus = length row ->
    Forall (well_formed_block Nskip) row ->
    bytes_at (contents f) (cursor f) (encode_blocks row) ->
    if forallb (coherentb ilevel) row
    then exists f' offset' level_count',
        for_each icpus (read_offset_body min_level Nskip ilevel)
          (f, offset, level_count) = Ok (f', offset', level_count') /\
        contents f' = contents f /\
        cursor f' = (cursor f + length (encode_blocks row))%nat /\
        name f' = name f /\
        shape0 offset' = shape0 offset /\ shape1 offset' = shape1 offset
    else exists file_ilevel,
        for_each icpus (read_offset_body min_level Nskip ilevel)
          (f, offset, level_count)
        = Raise (level_fault f file_ilevel ilevel) /\
        file_ilevel <> ilevel + 1.
Proof.
  induction row as [|b row IH]; intros icpus f offset level_count Hlen Hwf Hat.
  - destruct icpus; [|discriminate]. simpl.
    exists f, offset, level_count. repeat split. lia.
  - destruct icpus as [|icpu icpus]; [discriminate|].
    injection Hlen as Hlen. inversion Hwf as [|? ? Hb Hrow]; subst.
    rewrite length_encode_blocks_cons in Hat |- *.
    apply bytes_at_app in Hat as [Hhere Hrest].
    cbn [for_each forallb].
    rewrite (read_offset_body_at _ _ _ _ _ _ _ _ Hb Hhere).
    unfold coherentb at 1.
    destruct (blk_count b =? 0) eqn:Ezero; cbn [orb andb].
    + step.
      specialize (IH icpus (mk_file (contents f) (cursor f + length (encode_block b))
                              (io_log f ++ [EvRead (cursor f) 4; EvRead (cursor f + 12) 4]) (name f))
                    offset level_count Hlen Hrow Hrest).
      destruct (forallb (coherentb ilevel) row).
      * destruct IH as (f' & o' & c' & Hrun & Hc & Hp & Hn & Hs).
        exists f', o', c'. split; [exact Hrun|]. cbn [contents cursor name] in *.
        rewrite length_app. repeat split; try tauto. lia.
      * exact IH.
    + destruct (blk_level b =? ilevel + 1) eqn:Elevel; cbn [negb].
      * step.
        match goal with
        | |- context [for_each icpus _ (?g, ?o, ?c)] =>
            specialize (IH icpus g o c Hlen Hrow Hrest)
        end.
        destruct (forallb (coherentb ilevel) row).
        -- destruct IH as (f' & o' & c' & Hrun & Hc & Hp & Hn & Hs0 & Hs1).
           exists f', o', c'. split; [exact Hrun|]. cbn [contents cursor name] in *.
           rewrite length_app. repeat split; try tauto; try lia.
           ++ rewrite Hs0. destruct (ilevel >=? min_level); [apply set2_shape | reflexivity].
           ++ rewrite Hs1. destruct (ilevel >=? min_level); [apply set2_shape | reflexivity].
        -- exact IH.
      * exists (blk_level b). split; [reflexivity|]. now apply Z.eqb_neq.
Qed.

(** The two loops of [read_offset] over a data section starting at level
    [ilevel]. *)
Lemma read_offset_section min_level Nskip ncpu_and_bound (data : list (list block)) :
  forall (ilevel : Z) f offset level_count,
    Forall (fun row => length row = Z.to_nat ncpu_and_bound /\
                       Forall (well_formed_block Nskip) row) data ->
    bytes_at (contents f) (cursor f) (encode_section data) ->
    let levels := map (fun k => ilevel + Z.of_nat k) (seq 0 (length data)) in
    let run := for_each levels (fun ilevel =>
                 for_each (range ncpu_and_bound)
                   (read_offset_body min_level Nskip ilevel))
                 (f, offset, level_count) in
    if coherent_from ilevel data
    then exists f' offset' level_count',
        run = Ok (f', offset', level_count') /\
        contents f' = contents f /\
        cursor f' = (cursor f + length (encode_section data))%nat
    else exists file_ilevel expected,
        run = Raise (level_fault f file_ilevel expected) /\
        file_ilevel <> expected + 1.
Proof.
  induction data as [|row data IH]; intros ilevel f offset level_count Hwf Hat.
  - simpl. exists f, offset, level_count. repeat split. lia.
  - inversion Hwf as [|? ? [Hlen Hrow] Hdata]; subst.
    change (encode_section (row :: data))
      with (encode_blocks row ++ encode_section data) in *.
    apply bytes_at_app in Hat as [Hhere Hrest].
    cbn [length seq map for_each coherent_from]. rewrite Z.add_0_r.
    assert (Hicpus : length (range ncpu_and_bound) = length row).
    { unfold range. now rewrite length_map, length_seq. }
    pose proof (read_offset_row min_level Nskip ilevel row _ f offset level_count
                  Hicpus Hrow Hhere) as Hinner.
    destruct (forallb (coherentb ilevel) row); cbn [andb].
    + destruct Hinner as (f1 & o1 & c1 & Hrun & Hc1 & Hp1 & Hn1 & _).
      rewrite Hrun. step.
      rewrite <- Hc1, <- Hp1 in Hrest.
      specialize (IH (ilevel + 1) f1 o1 c1 Hdata Hrest).
      rewrite <- seq_shift, map_map.
      cbv zeta in IH.
      erewrite (map_ext (fun k => ilevel + Z.of_nat (S k)));
        [|intros k; rewrite Nat2Z.inj_succ;
          replace (ilevel + Z.succ (Z.of_nat k)) with (ilevel + 1 + Z.of_nat k) by lia;
          reflexivity].
      destruct (coherent_from (ilevel + 1) data).
      * destruct IH as (f' & o' & c' & Hrun' & Hc & Hp).
        exists f', o', c'. split; [exact Hrun'|]. rewrite length_app.
        split; [congruence | lia].
      * destruct IH as (lev & expected & Hrun' & Hne).
        exists lev, expected. split; [|exact Hne].
        rewrite Hrun'. unfold level_fault. now rewrite Hn1.
    + destruct Hinner as (lev & Hrun & Hne). rewrite Hrun.
      exists lev, ilevel. split; [reflexivity | exact Hne].
Qed.

Lemma forallb_false_lookup {A} (p : A -> bool) (l : list A) :
  forallb p l = false <-> exists (i : nat) (x : A), l !! i = Some x /\ p x = false.
Proof.
  induction l as [|a l IH]; simpl.
  - split; [discriminate | intros (i & x & H & _); destruct i; discriminate].
  - rewrite andb_false_iff, IH. split.
    + intros [Ha | (i & x & Hx & Hp)]; [exists 0%nat, a | exists (S i), x]; auto.
    + intros ([|i] & x & Hx & Hp); simpl in Hx.
      * left. congruence.
      * right. eauto.
Qed.

Lemma coherent_from_false (ilevel : Z) (data : list (list block)) :
  coherent_from ilevel data = false <->
  exists (level domain : nat) (row : list block) (b : block),
    data !! level = Some row /\ row !! domain = Some b /\
    blk_count b <> 0 /\ blk_level b <> ilevel + Z.of_nat level + 1.
Proof.
  revert ilevel. induction data as [|row data IH]; intros ilevel; simpl.
  - split; [discriminate | intros (l & d & r & b & H & _); destruct l; discriminate].
  - rewrite andb_false_iff, IH, forallb_false_lookup. split.
    + intros [(d & b & Hb & Hco) | (l & d & r & b & Hr & Hb & Hc & Hl)].
      * exists 0%nat, d, row, b. unfold coherentb in Hco.
        apply orb_false_iff in Hco as [Hc Hl].
        apply Z.eqb_neq in Hc, Hl. repeat split; auto. simpl. lia.
      * exists (S l), d, r, b. repeat split; auto. lia.
    + intros ([|l] & d & r & b & Hr & Hb & Hc & Hl); simpl in Hr.
      * left. injection Hr as <-. exists d, b. split; [exact Hb|].
        unfold coherentb. apply orb_false_iff. split; apply Z.eqb_neq; [exact Hc | lia].
      * right. exists l, d, r, b. repeat split; auto. lia.
Qed.

Lemma range_as_levels (n : Z) (len : nat) :
  len = Z.to_nat n -> range n = map (fun k => 0 + Z.of_nat k) (seq 0 len).
Proof. intros ->. unfold range. apply map_ext. intros k. lia. Qed.

(** What a call of [read_offset] ends with on a well-formed data section:
    its tables when every present block declares the level it stands at,
    and otherwise the raise met at a present block whose declared level id
    is not the level of the loop plus one. *)
Lemma read_offset_outcome f min_level domain_id nvar headers Nskip data :
  0 <= nlevelmax headers - min_level ->
  0 <= nboundary headers + ncpu headers ->
  well_formed_section (effective_Nskip headers nvar Nskip) (nlevelmax headers)
    (nboundary headers + ncpu headers) data ->
  bytes_at (contents f) (cursor f) (encode_section data) ->
  (mislabelled_present data ->
   exists file_ilevel expected,
     read_offset f min_level domain_id nvar headers Nskip
     = Raise (level_fault f file_ilevel expected) /\
     file_ilevel <> expected + 1) /\
  (~ mislabelled_present data ->
   exists st, read_offset f min_level domain_id nvar headers Nskip = Ok st).
Proof.
  intros Hlevels Hdomains [Hlen Hrows] Hat.
  pose proof (read_offset_section min_level (effective_Nskip headers nvar Nskip)
                (nboundary headers + ncpu headers) data 0 f) as Hrun.
  unfold read_offset, np_full. cbv zeta.
  fold (effective_Nskip headers nvar Nskip).
  destruct (Z.ltb_spec (nboundary headers + ncpu headers) 0); [lia|].
  destruct (Z.ltb_spec (nlevelmax headers - min_level) 0); [lia|].
  cbn [orb]. step.
  rewrite (range_as_levels _ _ Hlen).
  match goal with
  | |- context [for_each _ _ (f, ?o, ?c)] => specialize (Hrun o c Hrows Hat)
  end.
  cbv zeta in Hrun.
  pose proof (coherent_from_false 0 data) as Hfalse.
  assert (Hiff : coherent_from 0 data = false <-> mislabelled_present data).
  { rewrite Hfalse. unfold mislabelled_present.
    split; intros (l & d & r & b & H1 & H2 & H3 & H4); exists l, d, r, b;
      repeat split; auto; lia. }
  destruct (coherent_from 0 data).
  - destruct Hrun as (f' & o' & c' & Hok & _). rewrite Hok.
    split; [|eauto].
    intros Hm. apply Hiff in Hm. discriminate.
  - destruct Hrun as (lev & expected & Hfault & Hne). rewrite Hfault.
    split; [eauto|].
    intros Hnot. exfalso. apply Hnot. now apply Hiff.
Qed.

(** C2.  On a well-formed data section read through the record reader, which
    has no attribute [name], a present block whose declared level id is not
    the level of the loop plus one makes [read_offset] end with the failure
    of the lookup of [f.name], met while the arguments of the
    structural-integrity fault are evaluated: that fault is not raised,
    whatever values it would carry.  Without such a block the call returns
    its tables. *)
Theorem read_offset_mislabelled_block_ends_in_attribute_fault
    f min_level domain_id nvar headers Nskip data :
  name f = None ->
  0 <= nlevelmax headers - min_level ->
  0 <= nboundary headers + ncpu headers ->
  well_formed_section (effective_Nskip headers nvar Nskip) (nlevelmax headers)
    (nboundary headers + ncpu headers) data ->
  bytes_at (contents f) (cursor f) (encode_section data) ->
  (mislabelled_present data ->
   read_offset f min_level domain_id nvar headers Nskip = Raise AttributeFault /\
   forall file_name file_ilevel expected,
     read_offset f min_level domain_id nvar headers Nskip
     <> Raise (StructuralIntegrity file_name file_ilevel expected)) /\
  (~ mislabelled_present data ->
   exists st, read_offset f min_level domain_id nvar headers Nskip = Ok st).
Proof.
  intros Hname Hlevels Hdomains Hwf Hat.
  destruct (read_offset_outcome f min_level domain_id nvar headers Nskip data
              Hlevels Hdomains Hwf Hat) as [Hbad Hgood].
  split; [|exact Hgood].
  intros Hm. destruct (Hbad Hm) as (lev & expected & Hrun & _).
  unfold level_fault in Hrun. rewrite Hname in Hrun.
  split; [exact Hrun|].
  intros n l e Hrun'. rewrite Hrun in Hrun'. discriminate.
Qed.

(** On the same sections, a reader that carries a name (an object of a
    subclass) raises the structural-integrity fault with that name, and no
    other fault. *)
Lemma read_offset_named_reader_raises_structural_fault
    f file_name min_level domain_id nvar headers Nskip data :
  name f = Some file_name ->
  0 <= nlevelmax headers - min_level ->
  0 <= nboundary headers + ncpu headers ->
  well_formed_section (effective_Nskip headers nvar Nskip) (nlevelmax headers)
    (nboundary headers + ncpu headers) data ->
  bytes_at (contents f) (cursor f) (encode_section data) ->
  mislabelled_present data ->
  exists file_ilevel expected,
    read_offset f min_level domain_id nvar headers Nskip
    = Raise (StructuralIntegrity file_name file_ilevel expected) /\
    file_ilevel <> expected + 1.
Proof.
  intros Hname Hlevels Hdomains Hwf Hat Hm.
  destruct (read_offset_outcome f min_level domain_id nvar headers Nskip data
              Hlevels Hdomains Hwf Hat) as [Hbad _].
  destruct (Hbad Hm) as (lev & expected & Hrun & Hne).
  exists lev, expected. split; [|exact Hne].
  unfold level_fault in Hrun. now rewrite Hname in Hrun.
Qed.

Lemma read_offset_mislabelled_block_ends_in_attribute_fault_witness :
  name Sample.data_file_mislabelled = None /\
  0 <= nlevelmax Sample.data_headers - 0 /\
  0 <= nboundary Sample.data_headers + ncpu Sample.data_headers /\
  well_formed_section (effective_Nskip Sample.data_headers 1 (-1))
    (nlevelmax Sample.data_headers)
    (nboundary Sample.data_headers + ncpu Sample.data_headers)
    Sample.data_section_mislabelled /\
  bytes_at (contents Sample.data_file_mislabelled) (cursor Sample.data_file_mislabelled)
    (encode_section Sample.data_section_mislabelled) /\
  mislabelled_present Sample.data_section_mislabelled /\
  read_offset Sample.data_file_mislabelled 0 1 1 Sample.data_headers (-1)
  = Raise AttributeFault.
Proof.
  assert (H0 : name Sample.data_file_mislabelled = None) by reflexivity.
  assert (H1 : 0 <= nlevelmax Sample.data_headers - 0) by (simpl; lia).
  assert (H2 : 0 <= nboundary Sample.data_headers + ncpu Sample.data_headers)
    by (simpl; lia).
  assert (H3 : well_formed_section (effective_Nskip Sample.data_headers 1 (-1))
                 (nlevelmax Sample.data_headers)
                 (nboundary Sample.data_headers + ncpu Sample.data_headers)
                 Sample.data_section_mislabelled).
  { split; [reflexivity|].
    repeat constructor; vm_compute; try reflexivity; try discriminate. }
  assert (H4 : bytes_at (contents Sample.data_file_mislabelled)
                 (cursor Sample.data_file_mislabelled)
                 (encode_section Sample.data_section_mislabelled)).
  { split; [vm_compute; lia | reflexivity]. }
  assert (H5 : mislabelled_present Sample.data_section_mislabelled).
  { exists 0%nat, 0%nat, [mk_block 7 2 [[11; 12]; [13; 14]]],
      (mk_block 7 2 [[11; 12]; [13; 14]]).
    repeat split; simpl; lia. }
  repeat (split; [assumption|]).
  exact (proj1 (proj1 (read_offset_mislabelled_block_ends_in_attribute_fault
                  Sample.data_file_mislabelled 0 1 1 Sample.data_headers (-1)
                  Sample.data_section_mislabelled H0 H1 H2 H3 H4) H5)).
Defined.

(** ** [read_offset]: every block is indexed where it lies *)

Lemma row_major_injective (a b c d s : nat) :
  (b < s)%nat -> (d < s)%nat -> (a * s + b = c * s + d)%nat -> a = c /\ b = d.
Proof.
  intros Hb Hd E.
  assert (Ha : ((a * s + b) / s = a)%nat)
    by (rewrite Nat.div_add_l, Nat.div_small by lia; lia).
  assert (Hc : ((c * s + d) / s = c)%nat)
    by (rewrite Nat.div_add_l, Nat.div_small by lia; lia).
  rewrite E in Ha. assert (a = c) by congruence. subst c. split; [reflexivity | lia].
Qed.

Lemma in_bounds_set2 (a : ndarray2) (i j v i' j' : Z) :
  in_bounds (set2 a i j v) i' j' = in_bounds a i' j'.
Proof. unfold set2. now destruct (in_bounds a i j). Qed.

Lemma lookup2_set2_same (a : ndarray2) (i j v : Z) :
  well_shaped a -> in_bounds a i j = true -> lookup2 (set2 a i j v) i j = Some v.
Proof.
  intros Hws Hin. unfold lookup2. rewrite in_bounds_set2, Hin.
  unfold set2. rewrite Hin. cbn [cells]. unfold flat_index at 1. cbn [shape1].
  fold (flat_index a i j).
  apply list_lookup_insert_eq. rewrite Hws. now apply flat_index_lt.
Qed.

Lemma lookup2_set2_other (a : ndarray2) (i j i' j' v : Z) :
  (i', j') <> (i, j) -> lookup2 (set2 a i j v) i' j' = lookup2 a i' j'.
Proof.
  intros Hne. unfold lookup2. rewrite in_bounds_set2.
  destruct (in_bounds a i' j') eqn:Hin'; [|reflexivity].
  unfold set2. destruct (in_bounds a i j) eqn:Hin; [|reflexivity].
  cbn [cells]. unfold flat_index. cbn [shape1].
  apply list_lookup_insert_ne.
  apply in_bounds_spec in Hin, Hin'.
  intros E. apply Hne.
  destruct (row_major_injective (Z.to_nat i) (Z.to_nat j) (Z.to_nat i') (Z.to_nat j')
              (shape1 a)) as [Ei Ej]; [lia | lia | exact E |].
  f_equal; lia.
Qed.

(** The blocks [rest] of one level, from domain [d0] on: the loop writes the
    entry of every present block at the position where its payload lies and
    touches no other entry. *)
Lemma read_offset_row_indexes min_level Nskip ilevel (rest : list block) :
  forall (d0 : nat) f offset level_count,
    Forall (well_formed_block Nskip) rest ->
    bytes_at (contents f) (cursor f) (encode_blocks rest) ->
    forallb (coherentb ilevel) rest = true ->
    well_shaped offset -> well_shaped level_count ->
    exists f' offset' level_count',
      for_each (map Z.of_nat (seq d0 (length rest)))
        (read_offset_body min_level Nskip ilevel) (f, offset, level_count)
      = Ok (f', offset', level_count') /\
      contents f' = contents f /\
      cursor f' = (cursor f + length (encode_blocks rest))%nat /\
      well_shaped offset' /\ well_shaped level_count' /\
      (shape0 offset' = shape0 offset /\ shape1 offset' = shape1 offset) /\
      (shape0 level_count' = shape0 level_count /\
       shape1 level_count' = shape1 level_count) /\
      (forall i j,
          ~ (j = ilevel - min_level /\ Z.of_nat d0 <= i < Z.of_nat (d0 + length rest)) ->
          lookup2 offset' i j = lookup2 offset i j /\
          lookup2 level_count' i j = lookup2 level_count i j) /\
      (forall (k : nat) (b : block),
          rest !! k = Some b ->
          if (blk_count b =? 0) || negb (ilevel >=? min_level)
          then lookup2 offset' (Z.of_nat (d0 + k)) (ilevel - min_level)
               = lookup2 offset (Z.of_nat (d0 + k)) (ilevel - min_level) /\
               lookup2 level_count' (Z.of_nat (d0 + k)) (ilevel - min_level)
               = lookup2 level_count (Z.of_nat (d0 + k)) (ilevel - min_level)
          else in_bounds offset (Z.of_nat (d0 + k)) (ilevel - min_level) = true ->
               in_bounds level_count (Z.of_nat (d0 + k)) (ilevel - min_level) = true ->
               lookup2 offset' (Z.of_nat (d0 + k)) (ilevel - min_level)
               = Some (offset_entry (cursor f + length (encode_blocks (take k rest))) b) /\
               lookup2 level_count' (Z.of_nat (d0 + k)) (ilevel - min_level)
               = Some (count_entry b)).
Proof.
  induction rest as [|b rest IH];
    intros d0 f offset level_count Hwf Hat Hco Hwo Hwc.
  - exists f, offset, level_count. cbn. repeat split; auto; try lia.
    intros k b Hk. destruct k; discriminate.
  - pose proof (Forall_inv Hwf) as Hb. pose proof (Forall_inv_tail Hwf) as Hrest.
    rewrite length_encode_blocks_cons in Hat |- *.
    apply bytes_at_app in Hat as [Hhere Hafter].
    cbn [forallb] in Hco. apply andb_true_iff in Hco as [Hcob Hcorest].
    cbn [length seq map for_each].
    rewrite (read_offset_body_at _ _ _ _ _ _ _ _ Hb Hhere).
    unfold coherentb in Hcob.
    set (written := negb (blk_count b =? 0) && (ilevel >=? min_level)).
    set (offset1 := if written
                    then set2 offset (Z.of_nat d0) (ilevel - min_level)
                           (Z.of_nat (cursor f + 24))
                    else offset).
    set (count1 := if written
                   then set2 level_count (Z.of_nat d0) (ilevel - min_level) (blk_count b)
                   else level_count).
    match goal with
    | |- exists _ _ _, (?X ≫= _) = _ /\ _ =>
        assert (Hstep : exists f1,
                   X = Ok (f1, offset1, count1) /\
                   contents f1 = contents f /\
                   cursor f1 = (cursor f + length (encode_block b))%nat)
    end.
    { subst offset1 count1 written.
      destruct (blk_count b =? 0); cbn [negb andb orb] in *.
      - eexists. split; [reflexivity|]. split; reflexivity.
      - rewrite Hcob. cbn [negb].
        destruct (ilevel >=? min_level); eexists; (split; [reflexivity|]);
          split; reflexivity. }
    destruct Hstep as (f1 & Hstep & Hc1 & Hp1).
    assert (Hwo1 : well_shaped offset1)
      by (subst offset1; destruct written; [apply set2_well_shaped|]; assumption).
    assert (Hwc1 : well_shaped count1)
      by (subst count1; destruct written; [apply set2_well_shaped|]; assumption).
    assert (Hso1 : shape0 offset1 = shape0 offset /\ shape1 offset1 = shape1 offset)
      by (subst offset1; destruct written; [apply set2_shape | auto]).
    assert (Hsc1 : shape0 count1 = shape0 level_count /\
                   shape1 count1 = shape1 level_count)
      by (subst count1; destruct written; [apply set2_shape | auto]).
    rewrite <- Hc1, <- Hp1 in Hafter.
    destruct (IH (S d0) f1 offset1 count1 Hrest Hafter Hcorest Hwo1 Hwc1)
      as (f' & o' & c' & Hrun & Hc & Hp & Hwo' & Hwc' & Hso & Hsc & Hframe & Hentries).
    exists f', o', c'. split; [rewrite Hstep; step; exact Hrun|].
    split; [congruence|]. split; [rewrite Hp, Hp1, length_app; lia|].
    split; [exact Hwo'|]. split; [exact Hwc'|].
    split; [destruct Hso, Hso1; split; congruence|].
    split; [destruct Hsc, Hsc1; split; congruence|].
    assert (Hfirst : forall i j, (i, j) <> (Z.of_nat d0, ilevel - min_level) ->
               lookup2 offset1 i j = lookup2 offset i j /\
               lookup2 count1 i j = lookup2 level_count i j).
    { intros i j Hne. subst offset1 count1.
      destruct written; [|auto]. split; now apply lookup2_set2_other. }
    split.
    + intros i j Hout.
      destruct (Hframe i j) as [Ho Hc']; [cbn [length] in Hout; lia|].
      destruct (Hfirst i j) as [Ho1 Hc1']; [intros [= -> ->]; cbn [length] in Hout; lia|].
      split; congruence.
    + intros [|k] b' Hk; cbn [lookup] in Hk.
      * injection Hk as <-. rewrite Nat.add_0_r. cbn [take encode_blocks flat_map length].
        rewrite Nat.add_0_r.
        destruct (Hframe (Z.of_nat d0) (ilevel - min_level)) as [Ho Hc']; [lia|].
        rewrite Ho, Hc'. subst offset1 count1 written.
        destruct (blk_count b =? 0) eqn:Ezero; cbn [negb andb orb]; [auto|].
        destruct (ilevel >=? min_level); cbn [negb]; [|auto].
        intros Hino Hinc.
        rewrite lookup2_set2_same, lookup2_set2_same by assumption.
        unfold offset_entry, count_entry. rewrite Ezero. auto.
      * specialize (Hentries k b' Hk).
        replace (d0 + S k)%nat with (S d0 + k)%nat by lia.
        destruct (Hfirst (Z.of_nat (S d0 + k)) (ilevel - min_level)) as [Ho1 Hc1'];
          [intros [= E]; lia|].
        assert (Hpos : (cursor f1 + length (encode_blocks (take k rest)))%nat
                       = (cursor f + length (encode_blocks (take (S k) (b :: rest))))%nat).
        { cbn [take]. rewrite length_encode_blocks_cons, length_app. lia. }
        rewrite Hpos, Ho1, Hc1' in Hentries.
        destruct ((blk_count b' =? 0) || negb (ilevel >=? min_level)); [exact Hentries|].
        intros Hino Hinc. apply Hentries.
        -- unfold in_bounds in *. destruct Hso1 as [-> ->]. exact Hino.
        -- unfold in_bounds in *. destruct Hsc1 as [-> ->]. exact Hinc.
Qed.

(** The levels [rest] of a section, from level [l0] on. *)
Lemma read_offset_levels_index min_level Nskip ncpu_and_bound
    (rest : list (list block)) :
  forall (l0 : nat) f offset level_count,
    Forall (fun row => length row = Z.to_nat ncpu_and_bound /\
                       Forall (well_formed_block Nskip) row) rest ->
    bytes_at (contents f) (cursor f) (encode_section rest) ->
    coherent_from (Z.of_nat l0) rest = true ->
    well_shaped offset -> well_shaped level_count ->
    exists f' offset' level_count',
      for_each (map Z.of_nat (seq l0 (length rest)))
        (fun ilevel => for_each (range ncpu_and_bound)
                         (read_offset_body min_level Nskip ilevel))
        (f, offset, level_count)
      = Ok (f', offset', level_count') /\
      contents f' = contents f /\
      cursor f' = (cursor f + length (encode_section rest))%nat /\
      (shape0 offset' = shape0 offset /\ shape1 offset' = shape1 offset) /\
      (shape0 level_count' = shape0 level_count /\
       shape1 level_count' = shape1 level_count) /\
      (forall i j,
          ~ (Z.of_nat l0 - min_level <= j < Z.of_nat (l0 + length rest) - min_level) ->
          lookup2 offset' i j = lookup2 offset i j /\
          lookup2 level_count' i j = lookup2 level_count i j) /\
      (forall (k d : nat) (row : list block) (b : block),
          rest !! k = Some row -> row !! d = Some b ->
          let j := Z.of_nat (l0 + k) - min_level in
          if (blk_count b =? 0) || negb (Z.of_nat (l0 + k) >=? min_level)
          then lookup2 offset' (Z.of_nat d) j = lookup2 offset (Z.of_nat d) j /\
               lookup2 level_count' (Z.of_nat d) j = lookup2 level_count (Z.of_nat d) j
          else in_bounds offset (Z.of_nat d) j = true ->
               in_bounds level_count (Z.of_nat d) j = true ->
               lookup2 offset' (Z.of_nat d) j
               = Some (offset_entry (cursor f + length (encode_section (take k rest))
                                     + length (encode_blocks (take d row))) b) /\
               lookup2 level_count' (Z.of_nat d) j = Some (count_entry b)).
Proof.
  induction rest as [|row rest IH];
    intros l0 f offset level_count Hwf Hat Hco Hwo Hwc.
  - exists f, offset, level_count. cbn. repeat split; auto; try lia.
    intros k d row b Hk. destruct k; discriminate.
  - pose proof (Forall_inv Hwf) as [Hlen Hrow].
    pose proof (Forall_inv_tail Hwf) as Hrest.
    change (encode_section (row :: rest))
      with (encode_blocks row ++ encode_section rest) in *.
    apply bytes_at_app in Hat as [Hhere Hafter].
    cbn [coherent_from] in Hco. apply andb_true_iff in Hco as [Hcorow Hcorest].
    cbn [length seq map for_each].
    destruct (read_offset_row_indexes min_level Nskip (Z.of_nat l0) row 0%nat
                f offset level_count Hrow Hhere Hcorow Hwo Hwc)
      as (f1 & o1 & c1 & Hrun1 & Hc1 & Hp1 & Hwo1 & Hwc1 & Hso1 & Hsc1 & Hframe1 & Hent1).
    rewrite <- Hc1, <- Hp1 in Hafter.
    replace (Z.of_nat l0 + 1) with (Z.of_nat (S l0)) in Hcorest by lia.
    destruct (IH (S l0) f1 o1 c1 Hrest Hafter Hcorest Hwo1 Hwc1)
      as (f' & o' & c' & Hrun & Hc & Hp & Hso & Hsc & Hframe & Hent).
    exists f', o', c'.
    split.
    { rewrite Hlen in Hrun1.
      change (map Z.of_nat (seq 0 (Z.to_nat ncpu_and_bound)))
        with (range ncpu_and_bound) in Hrun1.
      rewrite Hrun1. step. exact Hrun. }
    split; [congruence|]. split; [rewrite Hp, Hp1, length_app; lia|].
    split; [destruct Hso, Hso1; split; congruence|].
    split; [destruct Hsc, Hsc1; split; congruence|].
    split.
    + intros i j Hout. cbn [length] in Hout.
      destruct (Hframe i j) as [Ho Hc']; [lia|].
      destruct (Hframe1 i j) as [Ho1 Hc1']; [lia|].
      split; congruence.
    + intros [|k] d row' b Hk Hd; cbn [lookup] in Hk.
      * injection Hk as <-. rewrite Nat.add_0_r.
        cbn [take encode_section flat_map length]. rewrite Nat.add_0_r.
        destruct (Hframe (Z.of_nat d) (Z.of_nat l0 - min_level)) as [Ho Hc']; [lia|].
        rewrite Ho, Hc'. specialize (Hent1 d b Hd). cbn [Nat.add] in Hent1.
        exact Hent1.
      * specialize (Hent k d row' b Hk Hd). cbv zeta in Hent.
        replace (l0 + S k)%nat with (S l0 + k)%nat by lia.
        destruct (Hframe1 (Z.of_nat d) (Z.of_nat (S l0 + k) - min_level)) as [Ho1 Hc1'];
          [lia|].
        assert (Hpos : (cursor f1 + length (encode_section (take k rest)))%nat
                       = (cursor f + length (encode_section (take (S k) (row :: rest))))%nat).
        { cbn [take].
          change (encode_section (row :: take k rest))
            with (encode_blocks row ++ encode_section (take k rest)).
          rewrite length_app. lia. }
        rewrite Hpos, Ho1, Hc1' in Hent.
        destruct ((blk_count b =? 0) || negb (Z.of_nat (S l0 + k) >=? min_level));
          [exact Hent|].
        intros Hino Hinc. apply Hent.
        -- unfold in_bounds in *. destruct Hso1 as [-> ->]. exact Hino.
        -- unfold in_bounds in *. destruct Hsc1 as [-> ->]. exact Hinc.
Qed.




(** ** [fill_hydro]: the handoff *)

(** What the iterations append to a log kept in the loop state. *)
Lemma for_each_log {X S L} (log : S -> list L) (g : X -> list L) (xs : list X)
    (body : X -> S -> result S) :
  (forall x s s', In x xs -> body x s = Ok s' -> log s' = log s ++ g x) ->
  forall s s', for_each xs body s = Ok s' -> log s' = log s ++ flat_map g xs.
Proof.
  induction xs as [|x xs IH]; intros Hbody s s' Hrun; simpl in Hrun.
  - injection Hrun as <-. simpl. now rewrite app_nil_r.
  - apply bind_Ok in Hrun as (s1 & H1 & H2). simpl.
    rewrite (IH (fun y t t' Hy => Hbody y t t' (or_intror Hy)) _ _ H2).
    rewrite (Hbody x s s1 (or_introl eq_refl) H1). now rewrite app_assoc.
Qed.

Lemma flat_map_ext_within {A B} (f g : A -> list B) (l : list A) :
  (forall a, In a l -> f a = g a) -> flat_map f l = flat_map g l.
Proof.
  induction l as [|a l IH]; intros H; simpl; [reflexivity|].
  rewrite (H a (or_introl eq_refl)), IH; [reflexivity|].
  intros b Hb. apply H. now right.
Qed.

Lemma map_of_flat_map {A B C} (f : B -> C) (g : A -> list B) (l : list A) :
  map f (flat_map g l) = flat_map (fun a => map f (g a)) l.
Proof.
  induction l as [|a l IH]; simpl; [reflexivity|]. now rewrite map_app, IH.
Qed.

Lemma flat_map_range_lookup {A B} (l : list A) (h : A -> list B) :
  flat_map (fun ii => match l !! Z.to_nat ii with
                      | Some x => h x
                      | None => []
                      end) (range (Z.of_nat (length l)))
  = flat_map h l.
Proof.
  induction l as [|x l IH] using rev_ind; [reflexivity|].
  rewrite length_app, Nat2Z.inj_add. simpl length.
  rewrite range_succ by lia. rewrite !flat_map_app. simpl.
  rewrite Nat2Z.id, lookup_app_r, Nat.sub_diag by lia. simpl.
  rewrite !app_nil_r. f_equal. rewrite <- IH.
  apply flat_map_ext_within. intros ii Hii. apply range_spec in Hii.
  rewrite lookup_app_l by lia. reflexivity.
Qed.

Lemma get2_lookup2 (a : ndarray2) (i j v : Z) :
  get2 a i j = Ok v -> lookup2 a i j = Some v /\ in_bounds a i j = true.
Proof.
  unfold get2, lookup2. destruct (in_bounds a i j); [|discriminate].
  destruct (cells a !! flat_index a i j); simpl; [|discriminate].
  intros [= ->]. auto.
Qed.

Lemma array_get_lookup (a : list Z) (i v : Z) :
  array_get a i = Ok v -> 0 <= i /\ a !! Z.to_nat i = Some v.
Proof.
  unfold array_get. destruct (Z.ltb_spec i 0); [discriminate|].
  destruct (a !! Z.to_nat i); simpl; [|discriminate]. intros [= ->]. auto.
Qed.

Lemma fill_hydro_body_route offsets level_count cpu_list jumps first_field_index
    twotondim fields ilevel ii f buffer oct f' buffer' oct' :
  Z.of_nat (shape0 level_count) < 2 ^ 31 ->
  fill_hydro_body offsets level_count cpu_list jumps first_field_index twotondim
    fields ilevel ii (f, buffer, oct) = Ok (f', buffer', oct') ->
  exists calls,
    oct' = oct ++ calls /\
    map route_of calls
    = match cpu_list !! Z.to_nat ii with
      | Some icpu =>
          if block_present offsets level_count ilevel (wrap32 icpu)
          then [handoff_route (Z.of_nat (length cpu_list)) ilevel (wrap32 icpu)]
          else []
      | None => []
      end.
Proof.
  intros Hrows Hrun. unfold fill_hydro_body in Hrun.
  apply bind_Ok in Hrun as (icpu & Hicpu & Hrun).
  apply array_get_lookup in Hicpu as [_ Hicpu]. rewrite Hicpu.
  apply bind_Ok in Hrun as (nc & Hnc & Hrun).
  apply get2_lookup2 in Hnc as [Hnc Hin].
  unfold block_present. rewrite Hnc.
  destruct (wrap32 nc =? 0) eqn:Enc.
  - injection Hrun as <- <- <-. exists []. rewrite app_nil_r.
    split; [reflexivity|]. now destruct (lookup2 offsets (wrap32 icpu) ilevel).
  - apply bind_Ok in Hrun as (offset & Hoff & Hrun).
    apply get2_lookup2 in Hoff as [Hoff _]. rewrite Hoff.
    destruct (offset =? -1) eqn:Eoff.
    + injection Hrun as <- <- <-. exists []. rewrite app_nil_r. now split.
    + apply bind_Ok in Hrun as ([[f2 jl] b2] & _ & Hrun).
      injection Hrun as <- <- <-.
      eexists [_]. split; [reflexivity|]. simpl. unfold handoff_route.
      apply in_bounds_spec in Hin as [[Hlo Hhi] _].
      destruct (Z.of_nat (length cpu_list) >? 1); simpl; [|reflexivity].
      rewrite wrap32_small by int_lia. reflexivity.
Qed.

(** C8.  The calls [fill_hydro] makes to the index are, in order, one call
    per decoded block.  With more than one domain in [domain_list] every one
    of them is a [fill_level_with_domain] carrying the level of the block
    and the 1-based id [icpu + 1] of the one domain the block belongs to;
    with exactly one domain every one of them is a [fill_level]. *)
Theorem fill_hydro_routes_each_block
    f offsets level_count cpu_enumerator ndim all_fields fields oct
    f' buffer' oct' :
  Z.of_nat (shape0 level_count) < 2 ^ 31 ->
  fill_hydro f offsets level_count cpu_enumerator ndim all_fields fields oct
    = Ok (f', buffer', oct') ->
  exists calls,
    oct' = oct ++ calls /\
    ((1 < length cpu_enumerator)%nat ->
     map route_of calls
     = map (fun '(ilevel, icpu) => ViaFillLevelWithDomain ilevel (icpu + 1))
         (processed_blocks offsets level_count cpu_enumerator)) /\
    (length cpu_enumerator = 1%nat ->
     map route_of calls
     = map (fun '(ilevel, _) => ViaFillLevel ilevel)
         (processed_blocks offsets level_count cpu_enumerator)).
Proof.
  intros Hrows Hrun. unfold fill_hydro in Hrun.
  apply bind_Ok in Hrun as (jumps & _ & Hrun).
  apply bind_Ok in Hrun as (ffi & _ & Hrun).
  apply bind_Ok in Hrun as (dim & _ & Hrun).
  apply bind_Ok in Hrun as (buffer & _ & Hrun).
  set (n := Z.of_nat (length cpu_enumerator)) in *.
  set (per_domain := fun ilevel icpu =>
         if block_present offsets level_count ilevel (wrap32 icpu)
         then [handoff_route n ilevel (wrap32 icpu)] else []).
  set (extends := fun st : hydro_state => exists calls, snd st = oct ++ calls).
  assert (Hprefix : extends (f', buffer', oct')).
  { eapply (for_each_invariant extends);
      [ | exact Hrun | exists []; simpl; now rewrite app_nil_r ].
    intros ilevel s s' _ Hin.
    eapply (for_each_invariant extends); [ | exact Hin ].
    intros ii [[g b] o] [[g' b'] o'] _ Hbody [calls Hcalls]; simpl in *.
    destruct (fill_hydro_body_route _ _ _ _ _ _ _ _ _ _ _ _ _ _ _ Hrows Hbody)
      as (new & -> & _).
    exists (calls ++ new). rewrite Hcalls. now rewrite app_assoc. }
  destruct Hprefix as [calls Hcalls]. simpl in Hcalls. subst oct'. exists calls. split; [reflexivity|].
  assert (Hroutes : map route_of calls
                    = flat_map (fun ilevel => flat_map (per_domain ilevel) cpu_enumerator)
                        (range (Z.of_nat (shape1 offsets)))).
  { assert (Hlog : map route_of (oct ++ calls)
                   = map route_of oct
                     ++ flat_map (fun ilevel => flat_map (per_domain ilevel) cpu_enumerator)
                          (range (Z.of_nat (shape1 offsets))));
      [|rewrite map_app in Hlog; eapply app_inv_head, Hlog].
    refine (for_each_log (fun st : hydro_state => map route_of (snd st))
              _ _ _ _ _ _ Hrun).
    intros ilevel s s' _ Hin.
    rewrite <- (flat_map_range_lookup cpu_enumerator (per_domain ilevel)).
    eapply (for_each_log (fun st : hydro_state => map route_of (snd st))); [|exact Hin].
    intros ii [[g b] o] [[g' b'] o'] _ Hbody. simpl.
    destruct (fill_hydro_body_route _ _ _ _ _ _ _ _ _ _ _ _ _ _ _ Hrows Hbody)
      as (new & -> & Hnew).
    rewrite map_app, Hnew. reflexivity. }
  rewrite Hroutes. unfold processed_blocks.
  split; intros Hn; rewrite map_of_flat_map; apply flat_map_ext; intros ilevel;
    rewrite map_of_flat_map; apply flat_map_ext; intros icpu;
    unfold per_domain, handoff_route.
  - assert (E : (n >? 1) = true) by (unfold n; lia). rewrite E.
    now destruct (block_present _ _ _ _).
  - assert (E : (n >? 1) = false) by (unfold n; lia). rewrite E.
    now destruct (block_present _ _ _ _).
Qed.

Lemma fill_hydro_routes_each_block_witness :
  Z.of_nat (shape0 Sample.hydro2_counts) < 2 ^ 31 /\
  fill_hydro Sample.hydro2_file Sample.hydro2_offsets Sample.hydro2_counts [0; 1] 1
    Sample.hydro_fields ["pressure"%string] [] = Ok Sample.hydro2_final /\
  exists calls,
    snd Sample.hydro2_final = [] ++ calls /\
    ((1 < length [0; 1])%nat ->
     map route_of calls
     = map (fun '(ilevel, icpu) => ViaFillLevelWithDomain ilevel (icpu + 1))
         (processed_blocks Sample.hydro2_offsets Sample.hydro2_counts [0; 1])) /\
    (length [0; 1] = 1%nat ->
     map route_of calls
     = map (fun '(ilevel, _) => ViaFillLevel ilevel)
         (processed_blocks Sample.hydro2_offsets Sample.hydro2_counts [0; 1])).
Proof.
  assert (Hrows : Z.of_nat (shape0 Sample.hydro2_counts) < 2 ^ 31) by (simpl; int_lia).
  assert (Hrun : fill_hydro Sample.hydro2_file Sample.hydro2_offsets Sample.hydro2_counts
                   [0; 1] 1 Sample.hydro_fields ["pressure"%string] []
                 = Ok (fst (fst Sample.hydro2_final), snd (fst Sample.hydro2_final),
                       snd Sample.hydro2_final)) by (vm_compute; reflexivity).
  split; [exact Hrows|]. split; [exact Hrun|].
  exact (fill_hydro_routes_each_block _ _ _ _ _ _ _ _ _ _ _ Hrows Hrun).
Defined.

(** ** [fill_hydro]: the jump table *)

Lemma length_skip_distances (acc : Z) (req : list bool) :
  length (skip_distances acc req) = S (count_true req).
Proof.
  revert acc. induction req as [|[|] req IH]; intros acc; simpl; rewrite ?IH; auto.
Qed.

Lemma skip_distances_nonneg (acc : Z) (req : list bool) :
  0 <= acc -> Forall (fun d => 0 <= d) (skip_distances acc req).
Proof.
  revert acc. induction req as [|[|] req IH]; intros acc Hacc; simpl.
  - repeat constructor; lia.
  - constructor; [lia | apply IH; lia].
  - apply IH. lia.
Qed.

(** The walk of [build_jumps] from a point of the catalogue on: the entries
    written so far are [pre], the table still has [m] untouched zeros. *)
Lemma build_jumps_walk (fields : list string) (names : list string) :
  forall (pre : list Z) (m : nat) (acc : Z),
    (S (count_true (requested names fields)) <= m)%nat ->
    (for_each names (fun field '(jumps, j, jump_len) =>
        if py_in field fields
        then jumps ← array_set jumps j jump_len; Ok (jumps, j + 1, 0)
        else Ok (jumps, j, jump_len + 1))
       (pre ++ replicate m 0, Z.of_nat (length pre), acc)
     ≫= fun '(jumps, j, jump_len) => array_set jumps j jump_len)
    = Ok (pre ++ skip_distances acc (requested names fields)
          ++ replicate (m - S (count_true (requested names fields))) 0).
Proof.
  assert (Hset : forall (pre : list Z) (m : nat) (v : Z), (1 <= m)%nat ->
             array_set (pre ++ replicate m 0) (Z.of_nat (length pre)) v
             = Ok (pre ++ v :: replicate (m - 1) 0)).
  { intros pre m v Hm. unfold array_set.
    rewrite length_app, length_replicate.
    destruct (Z.leb_spec 0 (Z.of_nat (length pre))); [|lia].
    destruct (Z.ltb_spec (Z.of_nat (length pre)) (Z.of_nat (length pre + m))); [|lia].
    cbn [andb]. rewrite Nat2Z.id. destruct m as [|m]; [lia|].
    cbn [replicate]. replace (S m - 1)%nat with m by lia.
    replace (length pre) with (length pre + 0)%nat at 1 by lia.
    now rewrite insert_app_r. }
  induction names as [|x names IH]; intros pre m acc Hm.
  - cbn [for_each requested map count_true skip_distances] in *. step.
    rewrite Hset by lia. reflexivity.
  - unfold requested in *. cbn [for_each map] in *.
    destruct (py_in x fields) eqn:Ex; cbn [count_true skip_distances] in *.
    + rewrite Hset by lia. step.
      replace (pre ++ acc :: replicate (m - 1) 0)
        with ((pre ++ [acc]) ++ replicate (m - 1) 0) by now rewrite <- app_assoc.
      replace (Z.of_nat (length pre) + 1) with (Z.of_nat (length (pre ++ [acc])))
        by (rewrite length_app; simpl; lia).
      rewrite (IH (pre ++ [acc]) (m - 1)%nat 0) by lia.
      rewrite <- app_assoc. cbn [app].
      match goal with
      | |- context [replicate (m - 1 - ?k) 0] =>
          replace (m - 1 - k)%nat with (m - S k)%nat by lia
      end.
      reflexivity.
    + step. rewrite IH by exact Hm. reflexivity.
Qed.

(** The table [build_jumps] returns is the list of skip distances of the
    spec: one entry per requested field and one trailing entry. *)
Lemma build_jumps_spec (all_fields fields : list string) :
  requested_once all_fields fields ->
  build_jumps all_fields fields
  = Ok (skip_distances 0 (requested all_fields fields)) /\
  length (skip_distances 0 (requested all_fields fields)) = S (length fields).
Proof.
  intros Honce. unfold requested_once in Honce.
  split; [|now rewrite length_skip_distances, Honce].
  unfold build_jumps.
  replace (Z.to_nat (Z.of_nat (length fields) + 1)) with (S (length fields)) by lia.
  pose proof (build_jumps_walk fields all_fields [] (S (length fields)) 0) as Hwalk.
  specialize (Hwalk ltac:(lia)).
  rewrite Honce, Nat.sub_diag in Hwalk. cbn [replicate] in Hwalk.
  rewrite app_nil_r in Hwalk. exact Hwalk.
Qed.

Lemma skip_distances_cons (acc : Z) (req : list bool) :
  exists d ds, skip_distances acc req = d :: ds /\ 0 <= d - acc <= Z.of_nat (length req).
Proof.
  revert acc. induction req as [|[|] req IH]; intros acc; cbn [skip_distances length].
  - exists acc, []. split; [reflexivity | lia].
  - exists acc, (skip_distances 0 req). split; [reflexivity | lia].
  - destruct (IH (acc + 1)) as (d & ds & E & Hd). exists d, ds. split; [exact E | lia].
Qed.

Lemma skip_distances_last (acc : Z) (req : list bool) :
  0 <= acc ->
  0 <= List.last (skip_distances acc req) 0
    <= match count_true req with O => acc | S _ => 0 end + Z.of_nat (length req).
Proof.
  revert acc. induction req as [|[|] req IH]; intros acc Hacc;
    cbn [skip_distances length count_true].
  - simpl. lia.
  - destruct (skip_distances_cons 0 req) as (d & ds & E & _).
    specialize (IH 0 ltac:(lia)). rewrite E in IH |- *.
    change (List.last (acc :: d :: ds) 0) with (List.last (d :: ds) 0).
    destruct (count_true req); lia.
  - specialize (IH (acc + 1) ltac:(lia)). destruct (count_true req); lia.
Qed.

(** With a requested field in the catalogue, the entries before the first
    and after the last requested field count distinct catalogue entries. *)
Lemma skip_distances_ends (acc : Z) (req : list bool) :
  (1 <= count_true req)%nat -> 0 <= acc ->
  0 <= hd 0 (skip_distances acc req) + List.last (skip_distances acc req) 0
    <= acc + Z.of_nat (length req) - 1.
Proof.
  revert acc. induction req as [|[|] req IH]; intros acc Hc Hacc;
    cbn [skip_distances length count_true hd] in *.
  - lia.
  - pose proof (skip_distances_last 0 req ltac:(lia)) as Hl.
    destruct (skip_distances_cons 0 req) as (d & ds & E & _).
    rewrite E in Hl |- *.
    change (List.last (acc :: d :: ds) 0) with (List.last (d :: ds) 0).
    destruct (count_true req); lia.
  - specialize (IH (acc + 1) Hc). lia.
Qed.

(** ** [fill_hydro]: the decode buffer *)

Lemma write_vector_fits (b : decode_buffer) (i j : Z) (vs : list float64) :
  buffer_allocated b ->
  (length vs <= dim0 b)%nat -> 0 <= i < Z.of_nat (dim1 b) -> 0 <= j < Z.of_nat (dim2 b) ->
  exists b', write_vector b i j vs = Ok b' /\
             dim0 b' = dim0 b /\ dim1 b' = dim1 b /\ dim2 b' = dim2 b /\
             buffer_allocated b'.
Proof.
  unfold buffer_allocated, write_vector, cell_index. intros Hmem Hlen Hi Hj.
  assert (Hfit : (0 + dim0 b * (Z.to_nat i + dim1 b * Z.to_nat j) + length vs
                  <= length (mem b))%nat).
  { rewrite Hmem.
    assert (Z.to_nat i + dim1 b * Z.to_nat j + 1 <= dim1 b * dim2 b)%nat by nia.
    nia. }
  destruct (Nat.leb_spec (0 + dim0 b * (Z.to_nat i + dim1 b * Z.to_nat j) + length vs)
              (length (mem b))); [|lia].
  eexists. split; [reflexivity|]. cbn [dim0 dim1 dim2 mem]. repeat split.
  rewrite !length_app, length_fmap, length_take, length_drop. lia.
Qed.

Lemma py_in_spec (x : string) (fields : list string) :
  py_in x fields = true <-> In x fields.
Proof.
  unfold py_in. rewrite existsb_exists. split.
  - intros (y & Hy & E). apply String.eqb_eq in E. now subst.
  - intros H. exists x. split; [exact H | apply String.eqb_refl].
Qed.

Lemma in_requested_names (fields names : list string) (x : string) :
  In x (requested_names (requested names fields) names) <-> In x names /\ In x fields.
Proof.
  unfold requested. induction names as [|y names IH]; cbn [map requested_names].
  - simpl. tauto.
  - destruct (py_in y fields) eqn:E; cbn [In]; rewrite IH.
    + apply py_in_spec in E. split; [intros [-> | []]; auto | tauto].
    + assert (~ In y fields) by (rewrite <- py_in_spec; congruence).
      split; [tauto | intros [[-> | ?] ?]; tauto].
Qed.

Lemma length_requested_names_count (fields names : list string) :
  length (requested_names (requested names fields) names)
  = count_true (requested names fields).
Proof.
  unfold requested. induction names as [|y names IH]; [reflexivity|].
  cbn [map requested_names count_true]. destruct (py_in y fields); cbn [length]; auto.
Qed.

Lemma requested_names_NoDup (fields names : list string) :
  NoDup names -> NoDup (requested_names (requested names fields) names).
Proof.
  unfold requested. induction 1 as [|y names Hy Hnd IH]; cbn [map requested_names].
  - constructor.
  - destruct (py_in y fields); [|exact IH]. constructor; [|exact IH].
    intros Hin. apply Hy. apply list_elem_of_In in Hin.
    apply (in_requested_names fields names y) in Hin as [Hin _].
    now apply list_elem_of_In.
Qed.

(** The data-model invariant of the spec gives [requested_once]: a request
    without repetition, all of whose fields belong to a catalogue without
    repetition. *)
Lemma requested_once_of_subset (all_fields fields : list string) :
  NoDup all_fields -> NoDup fields ->
  (forall x, In x fields -> In x all_fields) ->
  requested_once all_fields fields.
Proof.
  intros Hall Hfields Hsub. unfold requested_once.
  rewrite <- length_requested_names_count.
  apply Permutation_length, NoDup_Permutation.
  - now apply requested_names_NoDup.
  - exact Hfields.
  - intros x. rewrite !list_elem_of_In, in_requested_names. split; [tauto|].
    intros Hx. split; [apply Hsub|]; exact Hx.
Qed.

(** ** [fill_hydro]: the seek plan against the naive plan *)

Lemma read_positions_app (l1 l2 : list io_event) :
  read_positions (l1 ++ l2) = read_positions l1 ++ read_positions l2.
Proof. unfold read_positions. apply flat_map_app. Qed.

Lemma length_record_of (nc : Z) (rec : list float64) :
  Z.of_nat (length rec) = nc ->
  length (record_doubles rec) = record_bytes nc.
Proof. intros <-. rewrite length_record_doubles. unfold record_bytes. lia. Qed.

(** Reading the record that lies at the cursor. *)
Lemma read_vector_here (f : FortranFile) (nc : Z) (rec : list float64) :
  Z.of_nat (length rec) = nc -> in_int32 (nc * 8 + 8) ->
  bytes_at (contents f) (cursor f) (record_doubles rec) ->
  exists f',
    read_vector f = Ok (read_back rec, f') /\
    contents f' = contents f /\
    cursor f' = (cursor f + record_bytes nc)%nat /\
    read_positions (io_log f') = read_positions (io_log f) ++ [cursor f].
Proof.
  intros Hlen Hfit Hat.
  rewrite (read_vector_at f rec) by (try exact Hat; int_lia).
  eexists. split; [reflexivity|]. cbn [contents cursor io_log].
  repeat split.
  - unfold record_bytes. lia.
  - rewrite read_positions_app. reflexivity.
Qed.

(** The conditional relative seek of [read_field]: after it the cursor has
    moved by the accumulated skip distance and the distance is spent. *)
Lemma conditional_seek (f : FortranFile) (nc jump_len bound : Z) :
  0 <= jump_len <= bound -> 0 < nc -> in_int32 (bound * (nc * 8 + 8)) ->
  exists f',
    (if jump_len >? 0
     then f ← seek f (skip_len jump_len nc) 1; Ok (f, 0)
     else Ok (f, jump_len)) = Ok (f', 0) /\
    contents f' = contents f /\
    Z.of_nat (cursor f') = Z.of_nat (cursor f) + jump_len * (nc * 8 + 8) /\
    read_positions (io_log f') = read_positions (io_log f).
Proof.
  intros Hjl Hnc Hfit.
  destruct (Z.gtb_spec jump_len 0).
  - assert (Hexact : skip_len jump_len nc = jump_len * (nc * 8 + 8)).
    { apply skip_len_exact. unfold in_int32 in *. nia. }
    rewrite Hexact, seek_relative by nia. step.
    eexists. split; [reflexivity|]. cbn [contents cursor io_log]. repeat split.
    + nia.
    + rewrite read_positions_app. cbn. now rewrite app_nil_r.
  - assert (jump_len = 0) as -> by lia.
    exists f. repeat split. lia.
Qed.

Lemma array_get_app_r (pre : list Z) (d : Z) (ds : list Z) :
  array_get (pre ++ d :: ds) (Z.of_nat (length pre)) = Ok d.
Proof.
  unfold array_get. destruct (Z.ltb_spec (Z.of_nat (length pre)) 0); [lia|].
  rewrite Nat2Z.id, list_lookup_middle by reflexivity. reflexivity.
Qed.

Lemma last_cons_nonempty (a d : Z) (ds : list Z) :
  List.last (a :: d :: ds) 0 = List.last (d :: ds) 0.
Proof. reflexivity. Qed.

(** One requested field: the skip distance [d] of the table brings the
    cursor onto the record, which is read into slot [j]. *)
Lemma read_field_step (jumps : list Z) (nc i j bound jl d : Z) (p : nat)
    (rec : list float64) (f : FortranFile) (buffer : decode_buffer) :
  0 < nc -> in_int32 (bound * (nc * 8 + 8)) -> 1 <= bound ->
  array_get jumps j = Ok d ->
  0 <= jl + d <= bound ->
  Z.of_nat (cursor f) + (jl + d) * (nc * 8 + 8) = Z.of_nat p ->
  Z.of_nat (length rec) = nc ->
  bytes_at (contents f) p (record_doubles rec) ->
  exists f',
    read_field jumps nc i j (f, jl, buffer)
    = (b ← write_vector buffer i j (read_back rec); Ok (f', 0, b)) /\
    contents f' = contents f /\
    cursor f' = (p + record_bytes nc)%nat /\
    read_positions (io_log f') = read_positions (io_log f) ++ [p].
Proof.
  intros Hnc Hfit Hbound Hget Hjl Hcur Hrec Hat.
  unfold read_field. rewrite Hget. step.
  destruct (conditional_seek f nc (jl + d) bound Hjl Hnc Hfit)
    as (f1 & Hseek & Hc1 & Hp1 & Hl1).
  rewrite Hseek. step.
  assert (Hcur1 : cursor f1 = p) by lia.
  rewrite <- Hc1, <- Hcur1 in Hat.
  destruct (read_vector_here f1 nc rec Hrec ltac:(unfold in_int32 in *; nia) Hat)
    as (f2 & Hread & Hc2 & Hp2 & Hl2).
  rewrite Hread. step.
  exists f2. split; [reflexivity|]. repeat split; congruence.
Qed.

(** The loop over the requested fields of [read_subcell], from a point of
    the catalogue on.  The table is [pre] followed by the skip distances of
    the rest of the catalogue, the records of the rest of the sub-cell lie at
    byte [p], and the cursor is short of [p] by the distance accumulated so
    far.  Every requested record is then read at its place, and the buffer
    receives the records in order. *)
Lemma optimized_walk (fields : list string) (nc i bound : Z) (jumps : list Z)
    (names : list string) :
  0 < nc -> in_int32 (bound * (nc * 8 + 8)) ->
  forall (recs : list (list float64)) (pre : list Z) (acc jl : Z) (p : nat)
         (f : FortranFile) (buffer : decode_buffer),
    let req := requested names fields in
    jumps = pre ++ skip_distances acc req ->
    length recs = length names ->
    Forall (fun rec => Z.of_nat (length rec) = nc) recs ->
    bytes_at (contents f) p (flat_map record_doubles recs) ->
    0 <= acc ->
    Z.of_nat (cursor f) + (jl + acc) * (nc * 8 + 8) = Z.of_nat p ->
    Z.of_nat (length names) <= bound ->
    (count_true req = 0%nat \/ 0 <= jl + hd 0 (skip_distances acc req) <= bound) ->
    exists f' jl',
      for_each (map Z.of_nat (seq (length pre) (count_true req)))
        (read_field jumps nc i) (f, jl, buffer)
      = ('(_, b) ← store_records i (requested_records req recs)
                     (Z.of_nat (length pre), buffer);
         Ok (f', jl', b)) /\
      contents f' = contents f /\
      Z.of_nat (cursor f') + (jl' + List.last (skip_distances acc req) 0) * (nc * 8 + 8)
      = Z.of_nat p + Z.of_nat (length names) * (nc * 8 + 8) /\
      ((1 <= count_true req)%nat -> jl' = 0) /\
      (count_true req = 0%nat -> jl' = jl) /\
      read_positions (io_log f')
      = read_positions (io_log f) ++ requested_positions (record_bytes nc) p req.
Proof.
  intros Hnc Hfit.
  induction names as [|x names IH];
    intros recs pre acc jl p f buffer req Hjumps Hlen Hrecs Hat Hacc Hcur Hbound Hnext.
  - destruct recs; [|discriminate]. subst req. cbn in *.
    exists f, jl. rewrite app_nil_r. repeat split; auto; lia.
  - destruct recs as [|rec recs]; [discriminate|].
    injection Hlen as Hlen.
    pose proof (Forall_inv Hrecs) as Hrec. pose proof (Forall_inv_tail Hrecs) as Hrecs'.
    cbn [flat_map] in Hat. apply bytes_at_app in Hat as [Hhere Hrest].
    rewrite (length_record_of nc rec Hrec) in Hrest.
    assert (HR : Z.of_nat (record_bytes nc) = nc * 8 + 8) by (unfold record_bytes; lia).
    subst req. unfold requested in *. cbn [map length] in *.
    destruct (py_in x fields) eqn:Ex;
      cbn [skip_distances count_true requested_records requested_positions hd] in *.
    + (* a requested field *)
      destruct Hnext as [Hnone | Hnext]; [discriminate|].
      cbn [seq map for_each].
      assert (Hget : array_get jumps (Z.of_nat (length pre)) = Ok acc)
        by (rewrite Hjumps; apply array_get_app_r).
      destruct (read_field_step jumps nc i (Z.of_nat (length pre)) bound jl acc p rec
                  f buffer Hnc Hfit ltac:(lia) Hget Hnext Hcur Hrec Hhere)
        as (f2 & Hstep & Hc2 & Hp2 & Hl2).
      rewrite Hstep.
      unfold store_records. cbn [for_each]. step.
      destruct (skip_distances_cons 0 (map (fun field => py_in field fields) names))
        as (d & ds & Esd & Hd).
      rewrite length_map in Hd.
      assert (Hjumps' : jumps = (pre ++ [acc])
                          ++ skip_distances 0 (map (fun field => py_in field fields) names))
        by (rewrite <- app_assoc; exact Hjumps).
      assert (Hat' : bytes_at (contents f2) (p + record_bytes nc)
                       (flat_map record_doubles recs))
        by (rewrite Hc2; exact Hrest).
      assert (Hcur' : Z.of_nat (cursor f2) + (0 + 0) * (nc * 8 + 8)
                      = Z.of_nat (p + record_bytes nc)) by (rewrite Hp2; lia).
      assert (Hnext' : count_true (map (fun field => py_in field fields) names) = 0%nat \/
                       0 <= 0 + hd 0 (skip_distances 0
                                        (map (fun field => py_in field fields) names))
                         <= bound)
        by (right; rewrite Esd; cbn [hd]; lia).
      assert (Hpre : length (pre ++ [acc]) = S (length pre))
        by (rewrite length_app; simpl; lia).
      assert (Hrest_of : forall b,
                 exists f' jl',
                   for_each (map Z.of_nat (seq (S (length pre))
                        (count_true (map (fun field => py_in field fields) names))))
                     (read_field jumps nc i) (f2, 0, b)
                   = ('(_, b) ← store_records i
                                  (requested_records
                                     (map (fun field => py_in field fields) names) recs)
                                  (Z.of_nat (length pre) + 1, b);
                      Ok (f', jl', b)) /\
                   contents f' = contents f /\
                   Z.of_nat (cursor f') + (jl' + List.last (d :: ds) 0) * (nc * 8 + 8)
                   = Z.of_nat p + Z.of_nat (S (length names)) * (nc * 8 + 8) /\
                   jl' = 0 /\
                   read_positions (io_log f')
                   = read_positions (io_log f)
                     ++ p :: requested_positions (record_bytes nc) (p + record_bytes nc)
                               (map (fun field => py_in field fields) names)).
      { intros b.
        destruct (IH recs (pre ++ [acc]) 0 0 (p + record_bytes nc)%nat f2 b
                    Hjumps' Hlen Hrecs' Hat' ltac:(lia) Hcur' ltac:(lia) Hnext')
          as (f' & jl' & Hrun & Hc & Hinv & Hone & Hzero & Hlog).
        rewrite Hpre in Hrun.
        replace (Z.of_nat (S (length pre))) with (Z.of_nat (length pre) + 1) in Hrun by lia.
        rewrite Esd in Hinv.
        exists f', jl'. split; [exact Hrun|]. repeat split.
        - congruence.
        - lia.
        - destruct (count_true (map (fun field => py_in field fields) names));
            [rewrite Hzero by reflexivity; reflexivity | apply Hone; lia].
        - rewrite Hlog, Hl2, <- app_assoc. reflexivity. }
      rewrite Esd, last_cons_nonempty.
      destruct (write_vector buffer i (Z.of_nat (length pre)) (read_back rec))
        as [b1|e] eqn:Ewrite; step.
      * destruct (Hrest_of b1) as (f' & jl' & Hrun & Hc & Hinv & Hjl & Hlog).
        exists f', jl'. split; [exact Hrun|]. repeat split; auto; lia.
      * destruct (Hrest_of buffer) as (f' & jl' & _ & Hc & Hinv & Hjl & Hlog).
        exists f', jl'. split; [reflexivity|]. repeat split; auto; lia.
    + (* a field that was not requested *)
      destruct (IH recs pre (acc + 1) jl (p + record_bytes nc)%nat
                  f buffer) as (f' & jl' & Hrun & Hc & Hinv & Hone & Hzero & Hlog);
        try assumption; try lia.
      exists f', jl'. split; [exact Hrun|]. repeat split; auto; lia.
Qed.

Lemma naive_field_requested fields nc i x f j buffer :
  py_in x fields = true ->
  naive_field fields nc i x (f, j, buffer)
  = ('(vs, f) ← read_vector f;
     buffer ← write_vector buffer i j vs;
     Ok (f, j + 1, buffer)).
Proof. intros E. unfold naive_field. now rewrite E. Qed.

Lemma naive_field_other fields nc i x f j buffer :
  py_in x fields = false ->
  naive_field fields nc i x (f, j, buffer)
  = (f ← seek f (skip_len 1 nc) 1; Ok (f, j, buffer)).
Proof. intros E. unfold naive_field. now rewrite E. Qed.

(** The naive walk over the catalogue from a point on: the cursor is on the
    next record. *)
Lemma naive_walk (fields : list string) (nc i : Z) (names : list string) :
  0 < nc -> (names <> [] -> in_int32 (nc * 8 + 8)) ->
  forall (recs : list (list float64)) (j : Z) (p : nat)
         (f : FortranFile) (buffer : decode_buffer),
    let req := requested names fields in
    length recs = length names ->
    Forall (fun rec => Z.of_nat (length rec) = nc) recs ->
    bytes_at (contents f) p (flat_map record_doubles recs) ->
    cursor f = p ->
    exists f',
      for_each names (naive_field fields nc i) (f, j, buffer)
      = ('(j', b) ← store_records i (requested_records req recs) (j, buffer);
         Ok (f', j', b)) /\
      contents f' = contents f /\
      cursor f' = (p + length names * record_bytes nc)%nat /\
      read_positions (io_log f')
      = read_positions (io_log f) ++ requested_positions (record_bytes nc) p req.
Proof.
  intros Hnc Hfit'.
  induction names as [|x names IH]; intros recs j p f buffer req Hlen Hrecs Hat Hcur.
  - destruct recs; [|discriminate]. subst req. cbn.
    exists f. rewrite app_nil_r. repeat split; auto; lia.
  - assert (Hfit : in_int32 (nc * 8 + 8)) by (apply Hfit'; discriminate).
    specialize (IH (fun _ => Hfit)).
    destruct recs as [|rec recs]; [discriminate|].
    injection Hlen as Hlen.
    pose proof (Forall_inv Hrecs) as Hrec. pose proof (Forall_inv_tail Hrecs) as Hrecs'.
    cbn [flat_map] in Hat. apply bytes_at_app in Hat as [Hhere Hrest].
    rewrite (length_record_of nc rec Hrec) in Hrest.
    subst req. unfold requested in *. cbn [map length for_each] in *.
    destruct (py_in x fields) eqn:Ex;
      cbn [requested_records requested_positions] in *.
    + rewrite (naive_field_requested _ _ _ _ _ _ _ Ex).
      rewrite <- Hcur in Hhere.
      destruct (read_vector_here f nc rec Hrec Hfit Hhere)
        as (f2 & Hread & Hc2 & Hp2 & Hl2).
      rewrite Hread. step. unfold store_records. cbn [for_each]. step.
      assert (Hat' : bytes_at (contents f2) (p + record_bytes nc)
                       (flat_map record_doubles recs)) by (rewrite Hc2; exact Hrest).
      assert (Hcur' : cursor f2 = (p + record_bytes nc)%nat) by lia.
      destruct (write_vector buffer i j (read_back rec)) as [b1|e]; step.
      * destruct (IH recs (j + 1) _ f2 b1 Hlen Hrecs' Hat' Hcur')
          as (f' & Hrun & Hc & Hp & Hlog).
        exists f'. split; [exact Hrun|]. repeat split; try congruence; try lia.
        rewrite Hlog, Hl2, Hcur, <- app_assoc. reflexivity.
      * destruct (IH recs (j + 1) _ f2 buffer Hlen Hrecs' Hat' Hcur')
          as (f' & _ & Hc & Hp & Hlog).
        exists f'. split; [reflexivity|]. repeat split; try congruence; try lia.
        rewrite Hlog, Hl2, Hcur, <- app_assoc. reflexivity.
    + assert (Hexact : skip_len 1 nc = nc * 8 + 8).
      { rewrite skip_len_exact; [lia|]. now rewrite Z.mul_1_l. }
      rewrite (naive_field_other _ _ _ _ _ _ _ Ex).
      rewrite Hexact, seek_relative by lia. step.
      set (f1 := mk_file _ _ _ _).
      assert (Hat' : bytes_at (contents f1) (p + record_bytes nc)
                       (flat_map record_doubles recs)) by exact Hrest.
      assert (Hcur' : cursor f1 = (p + record_bytes nc)%nat)
        by (subst f1; cbn [cursor]; unfold record_bytes; lia).
      destruct (IH recs j _ f1 buffer Hlen Hrecs' Hat' Hcur')
        as (f' & Hrun & Hc & Hp & Hlog).
      exists f'. split; [exact Hrun|]. repeat split; auto; try lia.
      rewrite Hlog. subst f1. cbn [io_log]. rewrite read_positions_app. cbn.
      now rewrite app_nil_r.
Qed.

Lemma array_get_last (l : list Z) (n : nat) :
  length l = S n -> array_get l (Z.of_nat n) = Ok (List.last l 0).
Proof.
  intros Hlen. unfold array_get. destruct (Z.ltb_spec (Z.of_nat n) 0); [lia|].
  rewrite Nat2Z.id.
  destruct (exists_last (l := l)) as (l' & a & ->); [now destruct l|].
  rewrite length_app in Hlen. simpl in Hlen.
  rewrite last_last. replace n with (length l') by lia.
  now rewrite list_lookup_middle.
Qed.

Lemma range_of_nat (n : nat) : range (Z.of_nat n) = map Z.of_nat (seq 0 n).
Proof. unfold range. now rewrite Nat2Z.id. Qed.

(** One sub-cell, as [read_subcell] decodes it. *)
Lemma read_subcell_spec (all_fields fields : list string) (nc i : Z)
    (recs : list (list float64)) (jl : Z) (p : nat) (f : FortranFile)
    (buffer : decode_buffer) :
  let req := requested all_fields fields in
  let jumps := skip_distances 0 req in
  0 < nc -> in_int32 (Z.of_nat (length all_fields) * (nc * 8 + 8)) ->
  length recs = length all_fields ->
  Forall (fun rec => Z.of_nat (length rec) = nc) recs ->
  bytes_at (contents f) p (flat_map record_doubles recs) ->
  subcell_entry req nc jl p f ->
  exists f' jl',
    read_subcell jumps (Z.of_nat (count_true req)) nc i (f, jl, buffer)
    = ('(_, b) ← store_records i (requested_records req recs) (0, buffer);
       Ok (f', jl', b)) /\
    contents f' = contents f /\
    subcell_entry req nc jl' (p + length all_fields * record_bytes nc) f' /\
    read_positions (io_log f')
    = read_positions (io_log f) ++ requested_positions (record_bytes nc) p req.
Proof.
  intros req jumps Hnc Hfit Hlen Hrecs Hat [Hcur Hnext].
  assert (Hreq : length req = length all_fields) by apply length_map.
  rewrite Hreq in Hnext.
  destruct (optimized_walk fields nc i (Z.of_nat (length all_fields)) jumps all_fields
              Hnc Hfit recs [] 0 jl p f buffer eq_refl Hlen Hrecs Hat ltac:(lia)
              ltac:(lia) ltac:(lia) Hnext)
    as (f' & jl' & Hrun & Hc & Hinv & Hone & Hzero & Hlog).
  fold req in Hrun, Hinv, Hone, Hzero, Hlog. cbn [length] in Hrun.
  change (Z.of_nat 0) with 0 in Hrun.
  assert (Hlast : array_get jumps (Z.of_nat (count_true req)) = Ok (List.last jumps 0))
    by (apply array_get_last, length_skip_distances).
  exists f', (jl' + List.last jumps 0).
  split; [|split; [exact Hc | split; [|exact Hlog]]].
  - unfold read_subcell. rewrite range_of_nat, Hrun.
    destruct (store_records i (requested_records req recs) (0, buffer)) as [[j b]|e];
      step; [|reflexivity].
    rewrite Hlast. reflexivity.
  - split.
    + fold jumps in Hinv. unfold record_bytes. nia.
    + destruct (count_true req) as [|c] eqn:Ec; [now left | right].
      rewrite (Hone ltac:(lia)), Hreq.
      pose proof (skip_distances_ends 0 req ltac:(lia) ltac:(lia)) as Hends.
      fold jumps in Hends. fold jumps. lia.
Qed.

Lemma naive_subcell_spec (all_fields fields : list string) (nc i : Z)
    (recs : list (list float64)) (p : nat) (f : FortranFile) (buffer : decode_buffer) :
  let req := requested all_fields fields in
  0 < nc -> (all_fields <> [] -> in_int32 (nc * 8 + 8)) ->
  length recs = length all_fields ->
  Forall (fun rec => Z.of_nat (length rec) = nc) recs ->
  bytes_at (contents f) p (flat_map record_doubles recs) ->
  cursor f = p ->
  exists f',
    naive_subcell all_fields fields nc i (f, buffer)
    = ('(_, b) ← store_records i (requested_records req recs) (0, buffer);
       Ok (f', b)) /\
    contents f' = contents f /\
    cursor f' = (p + length all_fields * record_bytes nc)%nat /\
    read_positions (io_log f')
    = read_positions (io_log f) ++ requested_positions (record_bytes nc) p req.
Proof.
  intros req Hnc Hfit Hlen Hrecs Hat Hcur.
  destruct (naive_walk fields nc i all_fields Hnc Hfit recs 0 p f buffer
              Hlen Hrecs Hat Hcur) as (f' & Hrun & Hc & Hp & Hlog).
  exists f'. split; [|auto].
  unfold naive_subcell. rewrite Hrun. fold req.
  destruct (store_records i (requested_records req recs) (0, buffer)) as [[j b]|e];
    reflexivity.
Qed.

Lemma bytes_at_subcells (c : list byte) (p : nat) (nc : Z)
    (recs : list (list float64)) (rest : list (list (list float64))) :
  Forall (fun rec => Z.of_nat (length rec) = nc) recs ->
  bytes_at c p (encode_subcells (recs :: rest)) ->
  bytes_at c p (flat_map record_doubles recs) /\
  bytes_at c (p + length recs * record_bytes nc) (encode_subcells rest).
Proof.
  intros Hrecs Hat. unfold encode_subcells in *. cbn [flat_map] in Hat.
  apply bytes_at_app in Hat as [Hhere Hrest]. split; [exact Hhere|].
  replace (length recs * record_bytes nc)%nat
    with (length (flat_map record_doubles recs)); [exact Hrest|].
  clear -Hrecs. induction Hrecs as [|rec recs Hrec _ IH]; [reflexivity|].
  cbn [flat_map length]. rewrite length_app, IH, (length_record_of nc rec Hrec). lia.
Qed.

(** The sub-cells of a block, as [decode_block] walks them from sub-cell
    [i0] on. *)
Lemma read_subcells_spec (all_fields fields : list string) (nc : Z)
    (subcells : list (list (list float64))) :
  let req := requested all_fields fields in
  let jumps := skip_distances 0 req in
  0 < nc -> in_int32 (Z.of_nat (length all_fields) * (nc * 8 + 8)) ->
  well_formed_subcells (length all_fields) nc subcells ->
  forall (i0 : nat) (jl : Z) (p : nat) (f : FortranFile) (buffer : decode_buffer),
    bytes_at (contents f) p (encode_subcells subcells) ->
    subcell_entry req nc jl p f ->
    exists f' jl',
      for_each (map Z.of_nat (seq i0 (length subcells)))
        (read_subcell jumps (Z.of_nat (count_true req)) nc) (f, jl, buffer)
      = (b ← store_subcells req i0 subcells buffer; Ok (f', jl', b)) /\
      contents f' = contents f /\
      read_positions (io_log f')
      = read_positions (io_log f)
        ++ block_positions (record_bytes nc) p (length subcells) req.
Proof.
  intros req jumps Hnc Hfit Hwf.
  induction Hwf as [|recs rest [Hlen Hrecs] _ IH]; intros i0 jl p f buffer Hat Hentry.
  - exists f, jl. cbn. rewrite app_nil_r. auto.
  - destruct (bytes_at_subcells _ _ nc recs rest Hrecs Hat) as [Hhere Hrest].
    rewrite Hlen in Hrest.
    assert (Hsub : forall b, exists f1 jl1,
               read_subcell jumps (Z.of_nat (count_true req)) nc (Z.of_nat i0) (f, jl, b)
               = ('(_, b) ← store_records (Z.of_nat i0) (requested_records req recs) (0, b);
                  Ok (f1, jl1, b)) /\
               contents f1 = contents f /\
               subcell_entry req nc jl1 (p + length all_fields * record_bytes nc) f1 /\
               read_positions (io_log f1)
               = read_positions (io_log f) ++ requested_positions (record_bytes nc) p req)
      by (intros b; apply read_subcell_spec; assumption).
    assert (Hreq : length req = length all_fields) by apply length_map.
    cbn [length seq map for_each store_subcells block_positions].
    destruct (Hsub buffer) as (f1 & jl1 & Hrun & Hc1 & Hentry1 & Hlog1).
    rewrite Hrun.
    destruct (store_records (Z.of_nat i0) (requested_records req recs) (0, buffer))
      as [[j b1]|e]; step.
    + rewrite <- Hc1 in Hrest.
      destruct (IH (S i0) jl1 _ f1 b1 Hrest Hentry1) as (f' & jl' & Hrest_run & Hc & Hlog).
      exists f', jl'. split; [exact Hrest_run|]. split; [congruence|].
      rewrite Hlog, Hlog1, Hreq, <- app_assoc. reflexivity.
    + rewrite <- Hc1 in Hrest.
      destruct (IH (S i0) jl1 _ f1 buffer Hrest Hentry1) as (f' & jl' & _ & Hc & Hlog).
      exists f', jl'. split; [reflexivity|]. split; [congruence|].
      rewrite Hlog, Hlog1, Hreq, <- app_assoc. reflexivity.
Qed.

Lemma naive_subcells_spec (all_fields fields : list string) (nc : Z)
    (subcells : list (list (list float64))) :
  let req := requested all_fields fields in
  0 < nc -> (all_fields <> [] -> in_int32 (nc * 8 + 8)) ->
  well_formed_subcells (length all_fields) nc subcells ->
  forall (i0 : nat) (p : nat) (f : FortranFile) (buffer : decode_buffer),
    bytes_at (contents f) p (encode_subcells subcells) ->
    cursor f = p ->
    exists f',
      for_each (map Z.of_nat (seq i0 (length subcells)))
        (naive_subcell all_fields fields nc) (f, buffer)
      = (b ← store_subcells req i0 subcells buffer; Ok (f', b)) /\
      contents f' = contents f /\
      read_positions (io_log f')
      = read_positions (io_log f)
        ++ block_positions (record_bytes nc) p (length subcells) req.
Proof.
  intros req Hnc Hfit Hwf.
  induction Hwf as [|recs rest [Hlen Hrecs] _ IH]; intros i0 p f buffer Hat Hcur.
  - exists f. cbn. rewrite app_nil_r. auto.
  - destruct (bytes_at_subcells _ _ nc recs rest Hrecs Hat) as [Hhere Hrest].
    rewrite Hlen in Hrest.
    assert (Hsub : forall b, exists f1,
               naive_subcell all_fields fields nc (Z.of_nat i0) (f, b)
               = ('(_, b) ← store_records (Z.of_nat i0) (requested_records req recs) (0, b);
                  Ok (f1, b)) /\
               contents f1 = contents f /\
               cursor f1 = (p + length all_fields * record_bytes nc)%nat /\
               read_positions (io_log f1)
               = read_positions (io_log f) ++ requested_positions (record_bytes nc) p req)
      by (intros b; apply naive_subcell_spec; assumption).
    assert (Hreq : length req = length all_fields) by apply length_map.
    cbn [length seq map for_each store_subcells block_positions].
    destruct (Hsub buffer) as (f1 & Hrun & Hc1 & Hp1 & Hlog1).
    rewrite Hrun.
    destruct (store_records (Z.of_nat i0) (requested_records req recs) (0, buffer))
      as [[j b1]|e]; step.
    + rewrite <- Hc1 in Hrest.
      destruct (IH (S i0) _ f1 b1 Hrest Hp1) as (f' & Hrest_run & Hc & Hlog).
      exists f'. split; [exact Hrest_run|]. split; [congruence|].
      rewrite Hlog, Hlog1, Hreq, <- app_assoc. reflexivity.
    + rewrite <- Hc1 in Hrest.
      destruct (IH (S i0) _ f1 buffer Hrest Hp1) as (f' & _ & Hc & Hlog).
      exists f'. split; [reflexivity|]. split; [congruence|].
      rewrite Hlog, Hlog1, Hreq, <- app_assoc. reflexivity.
Qed.

(** ** The stores fit the decode buffer *)

Lemma requested_records_Forall (P : list float64 -> Prop) (req : list bool)
    (recs : list (list float64)) :
  Forall P recs -> Forall P (requested_records req recs).
Proof.
  intros H. revert req. induction H as [|rec recs Hrec _ IH]; intros [|[|] req];
    cbn [requested_records]; auto.
Qed.

Lemma length_requested_records (req : list bool) (recs : list (list float64)) :
  (length (requested_records req recs) <= count_true req)%nat.
Proof.
  revert recs. induction req as [|[|] req IH]; intros [|rec recs];
    cbn [requested_records count_true length]; try lia.
  - specialize (IH recs). lia.
  - apply IH.
Qed.

Lemma store_records_fits (i : Z) (recs : list (list float64)) :
  forall (j : Z) (b : decode_buffer),
    buffer_allocated b ->
    Forall (fun rec => (length rec <= dim0 b)%nat) recs ->
    0 <= i < Z.of_nat (dim1 b) ->
    0 <= j -> j + Z.of_nat (length recs) <= Z.of_nat (dim2 b) ->
    exists b', store_records i recs (j, b) = Ok (j + Z.of_nat (length recs), b') /\
               same_dims b b'.
Proof.
  induction recs as [|rec recs IH]; intros j b Halloc Hrecs Hi Hj Hjs.
  - exists b. cbn. rewrite Z.add_0_r. unfold same_dims. auto.
  - pose proof (Forall_inv Hrecs) as Hrec. pose proof (Forall_inv_tail Hrecs) as Hrecs'.
    cbn [length] in Hjs.
    destruct (write_vector_fits b i j (read_back rec) Halloc)
      as (b1 & Hwrite & H0 & H1 & H2 & Halloc1); try lia.
    { unfold read_back. now rewrite length_fmap. }
    unfold store_records. cbn [for_each]. step. rewrite Hwrite. step.
    destruct (IH (j + 1) b1 Halloc1) as (b' & Hrun & H0' & H1' & H2' & Halloc');
      try lia.
    { now rewrite H0. }
    exists b'. unfold store_records in Hrun. rewrite Hrun.
    split; [f_equal; f_equal; cbn [length]; lia|].
    unfold same_dims. repeat split; congruence.
Qed.

Lemma store_subcells_fits (req : list bool) (nvar : nat) (nc : Z)
    (subcells : list (list (list float64))) :
  well_formed_subcells nvar nc subcells -> 0 <= nc ->
  forall (i0 : nat) (b : decode_buffer),
    buffer_allocated b ->
    nc <= Z.of_nat (dim0 b) ->
    (i0 + length subcells <= dim1 b)%nat ->
    (count_true req <= dim2 b)%nat ->
    exists b', store_subcells req i0 subcells b = Ok b' /\ same_dims b b'.
Proof.
  intros Hwf Hnc.
  induction Hwf as [|recs rest [Hlen Hrecs] _ IH]; intros i0 b Halloc Hdim0 Hdim1 Hdim2.
  - exists b. unfold same_dims. auto.
  - cbn [length] in Hdim1. cbn [store_subcells].
    pose proof (length_requested_records req recs) as Hcount.
    destruct (store_records_fits (Z.of_nat i0) (requested_records req recs) 0 b Halloc)
      as (b1 & Hrun & H0 & H1 & H2 & Halloc1); try lia.
    { apply requested_records_Forall.
      eapply List.Forall_impl; [|exact Hrecs]. cbn. intros rec Hrec. lia. }
    rewrite Hrun. step.
    destruct (IH (S i0) b1 Halloc1) as (b' & Hrest & H0' & H1' & H2' & Halloc');
      try lia.
    exists b'. split; [exact Hrest|]. unfold same_dims. repeat split; congruence.
Qed.

(** The decoding of a block by [decode_block], whatever the buffer: the
    stores are those of the requested records, sub-cell after sub-cell, and
    the reads are at the places of these records. *)
Lemma decode_block_spec
    (all_fields fields : list string) (twotondim nc offset : Z)
    (subcells : list (list (list float64))) (f : FortranFile)
    (buffer : decode_buffer) :
  let req := requested all_fields fields in
  requested_once all_fields fields ->
  0 < nc -> 0 <= offset ->
  in_int32 (Z.of_nat (length all_fields) * (nc * 8 + 8)) ->
  length subcells = Z.to_nat twotondim ->
  well_formed_subcells (length all_fields) nc subcells ->
  bytes_at (contents f) (Z.to_nat offset) (encode_subcells subcells) ->
  exists first_field_index f_seek jump_len,
    array_get (skip_distances 0 req) 0 = Ok first_field_index /\
    decode_block (skip_distances 0 req) first_field_index twotondim
      (Z.of_nat (length fields)) nc offset f buffer
    = (b ← store_subcells req 0 subcells buffer; Ok (f_seek, jump_len, b)) /\
    read_positions (io_log f_seek)
    = read_positions (io_log f)
      ++ block_positions (record_bytes nc) (Z.to_nat offset) (Z.to_nat twotondim) req.
Proof.
  intros req Honce Hnc Hoffset Hfit Hlen Hwf Hat.
  destruct (skip_distances_cons 0 req) as (ffi & ds & Esd & Hffi).
  assert (Hreq : length req = length all_fields) by apply length_map.
  rewrite Hreq in Hffi.
  set (f1 := mk_file (contents f) (Z.to_nat (offset + ffi * (nc * 8 + 8)))
               (io_log f ++ [EvSeek (Z.to_nat (offset + ffi * (nc * 8 + 8)))]) (name f)).
  assert (Hentry : subcell_entry req nc (- ffi) (Z.to_nat offset) f1).
  { split; [subst f1; cbn [cursor]; nia|]. right. rewrite Esd. cbn [hd]. lia. }
  destruct (read_subcells_spec all_fields fields nc subcells Hnc Hfit Hwf
              0%nat (- ffi) (Z.to_nat offset) f1 buffer Hat Hentry)
    as (f_seek & jl & Hseek_run & _ & Hseek_log).
  fold req in Hseek_run, Hseek_log.
  assert (Hlog1 : read_positions (io_log f1) = read_positions (io_log f))
    by (subst f1; cbn [io_log]; rewrite read_positions_app; cbn; now rewrite app_nil_r).
  exists ffi, f_seek, jl.
  split; [rewrite Esd; reflexivity|]. split.
  - unfold decode_block.
    rewrite skip_len_exact by (unfold in_int32 in *; nia).
    rewrite seek_absolute by nia. step. fold f1.
    unfold range. rewrite <- Hlen.
    unfold requested_once in Honce. fold req in Honce. rewrite <- Honce.
    exact Hseek_run.
  - rewrite Hseek_log, Hlog1, Hlen. reflexivity.
Qed.

(** The records of one sub-cell take less than 2 GiB.  For a present block
    that lies on disk at [offset], with [twotondim] sub-cells of one record
    of [nc] doubles per catalogue field, every requested field being an
    entry of the catalogue found once, and a buffer large enough, the jump
    table of [fill_hydro] is the list of skip distances of the spec
    (one per requested field and a trailing one), and the decoding that
    [fill_hydro] performs with it (one absolute seek to
    [offset + skip_len(first jump, nc)], then conditional relative seeks)
    reads the same records from the same byte positions into the same
    buffer as the naive plan that walks every record and skips the
    unrequested ones one by one: the positions are those that the requested
    records occupy on disk, sub-cell after sub-cell. *)
Theorem fill_hydro_seek_plan_matches_naive_plan
    (all_fields fields : list string) (twotondim nc offset : Z)
    (subcells : list (list (list float64))) (f : FortranFile)
    (buffer : decode_buffer) :
  let req := requested all_fields fields in
  requested_once all_fields fields ->
  0 < nc -> 0 <= offset ->
  in_int32 (Z.of_nat (length all_fields) * (nc * 8 + 8)) ->
  length subcells = Z.to_nat twotondim ->
  well_formed_subcells (length all_fields) nc subcells ->
  bytes_at (contents f) (Z.to_nat offset) (encode_subcells subcells) ->
  buffer_allocated buffer ->
  nc <= Z.of_nat (dim0 buffer) ->
  twotondim <= Z.of_nat (dim1 buffer) ->
  (length fields <= dim2 buffer)%nat ->
  exists jumps first_field_index f_seek jump_len f_naive buffer',
    build_jumps all_fields fields = Ok jumps /\
    jumps = skip_distances 0 req /\
    length jumps = S (length fields) /\
    array_get jumps 0 = Ok first_field_index /\
    decode_block jumps first_field_index twotondim (Z.of_nat (length fields)) nc
      offset f buffer = Ok (f_seek, jump_len, buffer') /\
    naive_block all_fields fields twotondim nc offset f buffer
      = Ok (f_naive, buffer') /\
    store_subcells req 0 subcells buffer = Ok buffer' /\
    read_positions (io_log f_seek)
    = read_positions (io_log f)
      ++ block_positions (record_bytes nc) (Z.to_nat offset) (Z.to_nat twotondim) req /\
    read_positions (io_log f_naive) = read_positions (io_log f_seek).
Proof.
  intros req Honce Hnc Hoffset Hfit Hlen Hwf Hat Halloc Hdim0 Hdim1 Hdim2.
  destruct (build_jumps_spec all_fields fields Honce) as [Hbuild Hjumps_len].
  fold req in Hbuild, Hjumps_len.
  destruct (store_subcells_fits req (length all_fields) nc subcells Hwf ltac:(lia)
              0%nat buffer Halloc Hdim0 ltac:(lia)
              ltac:(unfold requested_once in Honce; fold req in Honce; lia))
    as (buffer' & Hstore & _).
  (* the seek plan *)
  destruct (decode_block_spec all_fields fields twotondim nc offset subcells f buffer
              Honce Hnc Hoffset Hfit Hlen Hwf Hat)
    as (ffi & f_seek & jl & Hffi & Hseek_run & Hseek_log).
  fold req in Hffi, Hseek_run, Hseek_log.
  (* the naive plan *)
  set (f0 := mk_file (contents f) (Z.to_nat offset) (io_log f ++ [EvSeek (Z.to_nat offset)]) (name f)).
  assert (Hfit1 : all_fields <> [] -> in_int32 (nc * 8 + 8)).
  { intros Hne. destruct all_fields; [congruence|]. cbn [length] in Hfit.
    unfold in_int32 in *. nia. }
  destruct (naive_subcells_spec all_fields fields nc subcells Hnc Hfit1 Hwf
              0%nat (Z.to_nat offset) f0 buffer Hat eq_refl)
    as (f_naive & Hnaive_run & _ & Hnaive_log).
  fold req in Hnaive_run, Hnaive_log.
  rewrite Hstore in Hseek_run, Hnaive_run.
  assert (Hlog0 : read_positions (io_log f0) = read_positions (io_log f))
    by (subst f0; cbn [io_log]; rewrite read_positions_app; cbn; now rewrite app_nil_r).
  exists (skip_distances 0 req), ffi, f_seek, jl, f_naive, buffer'.
  split; [exact Hbuild|]. split; [reflexivity|]. split; [exact Hjumps_len|].
  split; [exact Hffi|].
  split; [exact Hseek_run|].
  split; [|split; [exact Hstore|split]].
  - unfold naive_block. rewrite seek_absolute by lia. step. fold f0.
    unfold range. rewrite <- Hlen. exact Hnaive_run.
  - exact Hseek_log.
  - rewrite Hnaive_log, Hseek_log, Hlog0, Hlen. reflexivity.
Qed.

Lemma fill_hydro_seek_plan_matches_naive_plan_witness :
  requested_once Sample.hydro_fields ["pressure"%string] /\
  0 < 2 /\ 0 <= 24 /\
  in_int32 (Z.of_nat (length Sample.hydro_fields) * (2 * 8 + 8)) /\
  length Sample.hydro_subcells = Z.to_nat 2 /\
  well_formed_subcells (length Sample.hydro_fields) 2 Sample.hydro_subcells /\
  bytes_at (contents Sample.hydro_file) (Z.to_nat 24)
    (encode_subcells Sample.hydro_subcells) /\
  buffer_allocated Sample.hydro_buffer /\
  2 <= Z.of_nat (dim0 Sample.hydro_buffer) /\
  2 <= Z.of_nat (dim1 Sample.hydro_buffer) /\
  (length ["pressure"%string] <= dim2 Sample.hydro_buffer)%nat /\
  exists jumps first_field_index f_seek jump_len f_naive buffer',
    build_jumps Sample.hydro_fields ["pressure"%string] = Ok jumps /\
    jumps = skip_distances 0 (requested Sample.hydro_fields ["pressure"%string]) /\
    length jumps = S (length ["pressure"%string]) /\
    array_get jumps 0 = Ok first_field_index /\
    decode_block jumps first_field_index 2 (Z.of_nat (length ["pressure"%string])) 2
      24 Sample.hydro_file Sample.hydro_buffer = Ok (f_seek, jump_len, buffer') /\
    naive_block Sample.hydro_fields ["pressure"%string] 2 2 24
      Sample.hydro_file Sample.hydro_buffer = Ok (f_naive, buffer') /\
    store_subcells (requested Sample.hydro_fields ["pressure"%string]) 0
      Sample.hydro_subcells Sample.hydro_buffer = Ok buffer' /\
    read_positions (io_log f_seek)
    = read_positions (io_log Sample.hydro_file)
      ++ block_positions (record_bytes 2) (Z.to_nat 24) (Z.to_nat 2)
           (requested Sample.hydro_fields ["pressure"%string]) /\
    read_positions (io_log f_naive) = read_positions (io_log f_seek).
Proof.
  assert (H1 : requested_once Sample.hydro_fields ["pressure"%string]) by reflexivity.
  assert (H2 : 0 < 2) by lia.
  assert (H3 : 0 <= 24) by lia.
  assert (H4 : in_int32 (Z.of_nat (length Sample.hydro_fields) * (2 * 8 + 8)))
    by (vm_compute; split; [discriminate | reflexivity]).
  assert (H5 : length Sample.hydro_subcells = Z.to_nat 2) by reflexivity.
  assert (H6 : well_formed_subcells (length Sample.hydro_fields) 2 Sample.hydro_subcells)
    by (repeat constructor).
  assert (H7 : bytes_at (contents Sample.hydro_file) (Z.to_nat 24)
                 (encode_subcells Sample.hydro_subcells))
    by (split; [vm_compute; lia | reflexivity]).
  assert (H8 : buffer_allocated Sample.hydro_buffer) by reflexivity.
  assert (H9 : 2 <= Z.of_nat (dim0 Sample.hydro_buffer)) by (simpl; lia).
  assert (H10 : 2 <= Z.of_nat (dim1 Sample.hydro_buffer)) by (simpl; lia).
  assert (H11 : (length ["pressure"%string] <= dim2 Sample.hydro_buffer)%nat)
    by (simpl; lia).
  repeat (split; [assumption|]).
  exact (fill_hydro_seek_plan_matches_naive_plan Sample.hydro_fields ["pressure"%string]
           2 2 24 Sample.hydro_subcells Sample.hydro_file Sample.hydro_buffer
           H1 H2 H3 H4 H5 H6 H7 H8 H9 H10 H11).
Defined.

Lemma read_offset_skips_block_below_min_level_witness :
  well_formed_block 2 Sample.data_block0 /\
  bytes_at (contents Sample.data_file) (cursor Sample.data_file)
    (encode_block Sample.data_block0) /\
  blk_count Sample.data_block0 <> 0 /\
  blk_level Sample.data_block0 = 0 + 1 /\
  0 < 1 /\
  exists f',
    read_offset_body 1 2 0 0
      (Sample.data_file, mk_ndarray2 1 1 [-1], mk_ndarray2 1 1 [0])
      = Ok (f', mk_ndarray2 1 1 [-1], mk_ndarray2 1 1 [0]) /\
    contents f' = contents Sample.data_file /\
    cursor f' = (cursor Sample.data_file
                 + length (encode_block Sample.data_block0))%nat /\
    tell f' = tell Sample.data_file + 24
              + skip_len 2 (blk_count Sample.data_block0).
Proof.
  assert (H1 : well_formed_block 2 Sample.data_block0).
  { unfold well_formed_block, in_int32. simpl.
    repeat split; try lia; repeat constructor. }
  assert (H2 : bytes_at (contents Sample.data_file) (cursor Sample.data_file)
                 (encode_block Sample.data_block0))
    by (split; [vm_compute; lia | reflexivity]).
  assert (H3 : blk_count Sample.data_block0 <> 0) by discriminate.
  assert (H4 : blk_level Sample.data_block0 = 0 + 1) by reflexivity.
  assert (H5 : 0 < 1) by lia.
  repeat (split; [assumption|]).
  exact (read_offset_skips_block_below_min_level 1 2 0 0 Sample.data_file
           (mk_ndarray2 1 1 [-1]) (mk_ndarray2 1 1 [0])
           Sample.data_block0 H1 H2 H3 H4 H5).
Defined.

(** ** [fill_hydro]: the maximum of the count table, the counts of [read_offset] *)

Lemma fold_left_max_ge (xs : list Z) (x : Z) :
  x <= fold_left Z.max xs x /\ Forall (fun y => y <= fold_left Z.max xs x) xs.
Proof.
  revert x. induction xs as [|y ys IH]; intros x; simpl.
  - split; [lia | constructor].
  - destruct (IH (Z.max x y)) as [Hx Hys]. split; [lia|].
    constructor; [lia | exact Hys].
Qed.

Lemma np_max_ge (a : ndarray2) (dim : Z) :
  np_max a = Ok dim -> Forall (fun y => y <= dim) (cells a).
Proof.
  unfold np_max. destruct (cells a) as [|x xs]; [discriminate|].
  intros [= <-]. destruct (fold_left_max_ge xs x) as [Hx Hxs].
  constructor; assumption.
Qed.

Lemma read_int_in_int32 (f f' : FortranFile) (v : Z) :
  read_int f = Ok (v, f') -> in_int32 v.
Proof.
  unfold read_int. intros H.
  apply bind_Ok in H as ([payload f1] & _ & H).
  destruct (length payload =? 4)%nat; [|discriminate].
  injection H as <- _. apply wrap32_range.
Qed.

(** The record counts that [read_offset] returns are [INT32_t] values. *)
Lemma read_offset_counts_in_int32 f min_level domain_id nvar headers Nskip
    f' offset level_count :
  read_offset f min_level domain_id nvar headers Nskip = Ok (f', offset, level_count) ->
  Forall in_int32 (cells level_count).
Proof.
  unfold read_offset. intros Hrun.
  apply bind_Ok in Hrun as (off0 & _ & Hrun).
  apply bind_Ok in Hrun as (cnt0 & Hcnt & Hrun).
  apply np_full_Ok in Hcnt as (_ & _ & _ & _ & Hcells).
  set (I := fun st : offset_state => Forall in_int32 (cells (snd st))).
  assert (HI : I (f', offset, level_count)); [|exact HI].
  eapply (for_each_invariant I); [ | exact Hrun | ].
  - intros ilevel s s' _ Hin. eapply (for_each_invariant I); [ | exact Hin].
    intros icpu [[g o] c] [[g' o'] c'] _ Hbody Hc. unfold I in *. simpl in *.
    unfold read_offset_body in Hbody.
    apply bind_Ok in Hbody as ([file_ilevel f1] & _ & Hbody).
    apply bind_Ok in Hbody as ([file_ncache f2] & Hread & Hbody).
    apply read_int_in_int32 in Hread.
    destruct (file_ncache =? 0); [now inversion Hbody; subst|].
    destruct (negb _); [no_raise|].
    destruct (ilevel >=? min_level);
      apply bind_Ok in Hbody as (f3 & _ & [= <- <- <-]); [|exact Hc].
    unfold set2. destruct (in_bounds c icpu (ilevel - min_level)); [|exact Hc].
    simpl. apply Forall_insert; assumption.
  - unfold I. simpl. rewrite Hcells. apply Forall_replicate. unfold in_int32. lia.
Qed.

(** ** [fill_hydro]: the order of the request *)

(** C1, at the failing input.  On the sample file, whose catalogue is density
    then pressure, the request [density] alone delivers the density records
    under the name density, and the same request written
    [pressure; density] delivers the pressure records under the name
    density and the density records under the name pressure: the records
    are decoded in catalogue order and named in request order. *)
Theorem fill_hydro_names_slots_in_request_order :
  (exists st,
      fill_hydro Sample.hydro_file Sample.hydro_offsets Sample.hydro_counts [0] 1
        Sample.hydro_fields ["density"%string] [] = Ok st /\
      delivered "density" (snd st) = [Some [[Some 11; Some 13]; [Some 12; Some 14]]]) /\
  (exists st,
      fill_hydro Sample.hydro_file Sample.hydro_offsets Sample.hydro_counts [0] 1
        Sample.hydro_fields ["density"; "pressure"]%string [] = Ok st /\
      delivered "density" (snd st) = [Some [[Some 11; Some 13]; [Some 12; Some 14]]] /\
      delivered "pressure" (snd st) = [Some [[Some 21; Some 23]; [Some 22; Some 24]]]) /\
  (exists st,
      fill_hydro Sample.hydro_file Sample.hydro_offsets Sample.hydro_counts [0] 1
        Sample.hydro_fields ["pressure"; "density"]%string [] = Ok st /\
      delivered "density" (snd st) = [Some [[Some 21; Some 23]; [Some 22; Some 24]]] /\
      delivered "pressure" (snd st) = [Some [[Some 11; Some 13]; [Some 12; Some 14]]]).
Proof.
  repeat split; eexists; (split; [vm_compute; reflexivity|]);
    repeat split; vm_compute; reflexivity.
Qed.

(** ** [fill_hydro]: what the decode buffer holds *)

Lemma write_vector_dims (b b' : decode_buffer) (i j : Z) (vs : list float64) :
  write_vector b i j vs = Ok b' ->
  dim0 b' = dim0 b /\ dim1 b' = dim1 b /\ dim2 b' = dim2 b /\
  mem b' = take (cell_index b 0 (Z.to_nat i) (Z.to_nat j)) (mem b)
           ++ (Some <$> vs)
           ++ drop (cell_index b 0 (Z.to_nat i) (Z.to_nat j) + length vs) (mem b) /\
  (cell_index b 0 (Z.to_nat i) (Z.to_nat j) + length vs <= length (mem b))%nat.
Proof.
  unfold write_vector.
  destruct (Nat.leb_spec (cell_index b 0 (Z.to_nat i) (Z.to_nat j) + length vs)
              (length (mem b))); [|discriminate].
  intros [= <-]. cbn [dim0 dim1 dim2 mem]. auto.
Qed.

(** The cells that an in-place read fills. *)
Lemma write_vector_cell_same (b b' : decode_buffer) (i j c : nat) (vs : list float64) :
  write_vector b (Z.of_nat i) (Z.of_nat j) vs = Ok b' ->
  (c < length vs)%nat ->
  cell b' c i j = vs !! c.
Proof.
  intros Hw Hc. apply write_vector_dims in Hw as (H0 & H1 & H2 & Hmem & Hfit).
  rewrite !Nat2Z.id in *.
  unfold cell, cell_index in *. rewrite H0, H1, Hmem. cbn [Nat.add] in *.
  rewrite lookup_app_r by (rewrite length_take; lia).
  rewrite length_take.
  replace (c + dim0 b * (i + dim1 b * j)
           - (dim0 b * (i + dim1 b * j)) `min` length (mem b))%nat with c by lia.
  rewrite lookup_app_l by (rewrite length_fmap; lia).
  rewrite list_lookup_fmap.
  destruct (lookup_lt_is_Some_2 vs c Hc) as [v ->]. reflexivity.
Qed.

(** The cells that an in-place read of at most [dim0] doubles leaves
    alone. *)
Lemma write_vector_cell_other (b b' : decode_buffer) (i j c i' j' : nat)
    (vs : list float64) :
  write_vector b (Z.of_nat i) (Z.of_nat j) vs = Ok b' ->
  (length vs <= dim0 b)%nat ->
  (i < dim1 b)%nat -> (i' < dim1 b)%nat -> (c < dim0 b)%nat ->
  (i', j') <> (i, j) \/ (length vs <= c)%nat ->
  cell b' c i' j' = cell b c i' j'.
Proof.
  intros Hw Hlen Hi Hi' Hc Hother.
  apply write_vector_dims in Hw as (H0 & H1 & H2 & Hmem & Hfit).
  rewrite !Nat2Z.id in *.
  unfold cell, cell_index in *. rewrite H0, H1, Hmem. cbn [Nat.add] in *.
  set (q := (i + dim1 b * j)%nat) in *. set (q' := (i' + dim1 b * j')%nat).
  f_equal.
  destruct (Nat.lt_trichotomy q' q) as [Hlt | [Heq | Hgt]].
  - assert (c + dim0 b * q' < dim0 b * q)%nat by nia.
    rewrite lookup_app_l by (rewrite length_take; lia).
    apply lookup_take_lt. lia.
  - assert (Hsame : i' = i /\ j' = j).
    { subst q q'.
      destruct (row_major_injective j' i' j i (dim1 b)) as [-> ->]; auto; lia. }
    destruct Hother as [Hne | Hge]; [destruct Hsame; congruence|].
    rewrite Heq.
    rewrite lookup_app_r by (rewrite length_take; lia).
    rewrite length_take.
    rewrite lookup_app_r by (rewrite length_fmap; lia).
    rewrite length_fmap, lookup_drop. f_equal. lia.
  - assert (dim0 b * q + dim0 b <= dim0 b * q')%nat by nia.
    rewrite lookup_app_r by (rewrite length_take; lia).
    rewrite length_take.
    rewrite lookup_app_r by (rewrite length_fmap; lia).
    rewrite length_fmap, lookup_drop. f_equal. lia.
Qed.

(** After the requested records of sub-cell [i] are stored from slot [j0]
    on, slot [j0 + t] of the sub-cell holds the [t]-th of them, and the
    slots of the other sub-cells and the slots outside the range are as
    before. *)
Lemma store_records_cells (i : nat) (recs : list (list float64)) :
  forall (j0 : nat) (b : decode_buffer) (j' : Z) (b' : decode_buffer),
    store_records (Z.of_nat i) recs (Z.of_nat j0, b) = Ok (j', b') ->
    Forall (fun rec => (length rec <= dim0 b)%nat) recs ->
    (i < dim1 b)%nat ->
    (dim0 b' = dim0 b /\ dim1 b' = dim1 b /\ dim2 b' = dim2 b) /\
    (forall (t : nat) (rec : list float64) (c : nat),
        recs !! t = Some rec -> (c < length rec)%nat ->
        cell b' c i (j0 + t) = read_back rec !! c) /\
    (forall (c i' j : nat),
        (c < dim0 b)%nat -> (i' < dim1 b)%nat ->
        i' <> i \/ (j < j0)%nat \/ (j0 + length recs <= j)%nat ->
        cell b' c i' j = cell b c i' j).
Proof.
  induction recs as [|rec recs IH]; intros j0 b j' b' Hrun Hrecs Hi.
  - cbn in Hrun. injection Hrun as <- <-. repeat split; auto.
    intros t rec c Ht. destruct t; discriminate.
  - pose proof (Forall_inv Hrecs) as Hrec. pose proof (Forall_inv_tail Hrecs) as Hrecs'.
    cbv beta in Hrec.
    unfold store_records in Hrun. cbn [for_each] in Hrun.
    apply bind_Ok in Hrun as ([j1 b1] & Hfirst & Hrun).
    apply bind_Ok in Hfirst as (b1' & Hwrite & [= <- <-]).
    pose proof (write_vector_dims _ _ _ _ _ Hwrite) as (H0 & H1 & H2 & _ & _).
    replace (Z.of_nat j0 + 1) with (Z.of_nat (S j0)) in Hrun by lia.
    destruct (IH (S j0) b1' j' b' Hrun) as ((H0' & H1' & H2') & Hcells & Hframe).
    { rewrite H0. exact Hrecs'. }
    { rewrite H1. exact Hi. }
    assert (Hlen : (length (read_back rec) <= dim0 b)%nat)
      by (unfold read_back; rewrite length_fmap; exact Hrec).
    split; [repeat split; congruence|]. split.
    + intros [|t] rec' c Ht Hc; cbn [lookup] in Ht.
      * injection Ht as <-. rewrite Nat.add_0_r.
        rewrite Hframe by (rewrite ?H0, ?H1; lia).
        apply (write_vector_cell_same _ _ _ _ _ _ Hwrite).
        unfold read_back. now rewrite length_fmap.
      * replace (j0 + S t)%nat with (S j0 + t)%nat by lia. now apply Hcells.
    + intros c i' j Hc Hi' Hout. cbn [length] in Hout.
      rewrite Hframe by (rewrite ?H0, ?H1; lia).
      apply (write_vector_cell_other _ _ _ _ _ _ _ _ Hwrite); try assumption.
      left. intros [= -> ->]. lia.
Qed.

(** After the sub-cells are stored from sub-cell [i0] on, slot [t] of
    sub-cell [i0 + s] holds the [t]-th requested record of that sub-cell. *)
Lemma store_subcells_cells (req : list bool) (subcells : list (list (list float64))) :
  forall (i0 : nat) (b b' : decode_buffer),
    store_subcells req i0 subcells b = Ok b' ->
    Forall (Forall (fun rec => (length rec <= dim0 b)%nat)) subcells ->
    (i0 + length subcells <= dim1 b)%nat ->
    (dim0 b' = dim0 b /\ dim1 b' = dim1 b /\ dim2 b' = dim2 b) /\
    (forall (s t : nat) (recs : list (list float64)) (rec : list float64) (c : nat),
        subcells !! s = Some recs ->
        requested_records req recs !! t = Some rec -> (c < length rec)%nat ->
        cell b' c (i0 + s) t = read_back rec !! c) /\
    (forall (c i j : nat),
        (c < dim0 b)%nat -> (i < i0)%nat -> cell b' c i j = cell b c i j).
Proof.
  induction subcells as [|recs subcells IH]; intros i0 b b' Hrun Hrecs Hdim.
  - cbn in Hrun. injection Hrun as <-. repeat split; auto.
    intros s t recs rec c Hs. destruct s; discriminate.
  - pose proof (Forall_inv Hrecs) as Hhere. pose proof (Forall_inv_tail Hrecs) as Hrest.
    cbn [length] in Hdim. cbn [store_subcells] in Hrun.
    apply bind_Ok in Hrun as ([j1 b1] & Hfirst & Hrun).
    change 0 with (Z.of_nat 0) in Hfirst.
    destruct (store_records_cells i0 (requested_records req recs) 0%nat b j1 b1 Hfirst)
      as ((H0 & H1 & H2) & Hcells1 & Hframe1).
    { now apply requested_records_Forall. }
    { lia. }
    destruct (IH (S i0) b1 b' Hrun) as ((H0' & H1' & H2') & Hcells & Hframe).
    { rewrite H0. exact Hrest. }
    { rewrite H1. lia. }
    split; [repeat split; congruence|]. split.
    + intros [|s] t recs' rec c Hs Ht Hc; cbn [lookup] in Hs.
      * injection Hs as <-. rewrite Nat.add_0_r.
        assert (Hrec : (length rec <= dim0 b)%nat).
        { pose proof (requested_records_Forall _ req recs Hhere) as Hall.
          rewrite List.Forall_forall in Hall. apply Hall.
          apply list_elem_of_In. eapply list_elem_of_lookup_2; eauto. }
        rewrite Hframe by (rewrite ?H0; lia).
        apply (Hcells1 t rec c Ht Hc).
      * replace (i0 + S s)%nat with (S i0 + s)%nat by lia. now apply (Hcells s t recs').
    + intros c i j Hc Hi.
      rewrite Hframe by (rewrite ?H0; lia).
      apply Hframe1; [exact Hc | lia | left; lia].
Qed.

(** The [t]-th requested name and the [t]-th requested record sit at the same
    place of the catalogue. *)
Lemma requested_names_records (req : list bool) :
  forall (names : list string) (recs : list (list float64)) (t : nat) (x : string),
    length recs = length names ->
    requested_names req names !! t = Some x ->
    exists (k : nat) (rec : list float64),
      names !! k = Some x /\ recs !! k = Some rec /\
      requested_records req recs !! t = Some rec.
Proof.
  induction req as [|[|] req IH]; intros [|y names] [|rec recs] t x Hlen Ht;
    cbn [requested_names requested_records] in *; try discriminate;
    try (destruct t; discriminate).
  - destruct t as [|t]; cbn [lookup] in Ht.
    + injection Ht as <-. exists 0%nat, rec. auto.
    + destruct (IH names recs t x ltac:(cbn in Hlen; lia) Ht) as (k & r & H1 & H2 & H3).
      exists (S k), r. auto.
  - destruct (IH names recs t x ltac:(cbn in Hlen; lia) Ht) as (k & r & H1 & H2 & H3).
    exists (S k), r. auto.
Qed.

Lemma alias_buffer_lookup (fields : list string) (b : decode_buffer)
    (j : nat) (x : string) :
  NoDup fields -> fields !! j = Some x ->
  alias_buffer fields b !! x = Some (buffer_slice b j).
Proof.
  unfold alias_buffer. revert j x.
  induction fields as [|y fields IH] using rev_ind; intros j x Hnd Hj.
  - discriminate.
  - apply NoDup_app in Hnd as (Hnd & Hfresh & _).
    rewrite imap_app, fold_left_app. cbn [imap fold_left].
    rewrite Nat.add_0_r.
    destruct (Nat.lt_ge_cases j (length fields)) as [Hlt | Hge].
    + rewrite lookup_app_l in Hj by exact Hlt.
      rewrite lookup_insert_ne; [now apply IH|].
      intros ->. apply (Hfresh x); [eapply list_elem_of_lookup_2; eauto | left].
    + rewrite lookup_app_r in Hj by exact Hge.
      destruct (j - length fields)%nat as [|?] eqn:E; [|discriminate].
      injection Hj as ->. assert (j = length fields) as -> by lia.
      apply lookup_insert_eq.
Qed.

Lemma buffer_slice_cell (b : decode_buffer) (j c i : nat) :
  (c < dim0 b)%nat -> (i < dim1 b)%nat ->
  buffer_slice b j !! c ≫= (fun row => row !! i) = Some (cell b c i j).
Proof.
  intros Hc Hi. unfold buffer_slice, slice2.
  rewrite list_lookup_fmap, lookup_seq_lt by exact Hc. cbn.
  rewrite list_lookup_fmap, lookup_seq_lt by exact Hi. reflexivity.
Qed.

Lemma length_requested_names (req : list bool) (names : list string) :
  length req = length names -> length (requested_names req names) = count_true req.
Proof.
  revert names. induction req as [|[|] req IH]; intros [|x names] Hlen;
    cbn [requested_names count_true length] in *; try discriminate; auto.
Qed.

Lemma requested_names_sublist (req : list bool) (names : list string) :
  sublist (requested_names req names) names.
Proof.
  revert names. induction req as [|[|] req IH]; intros [|x names];
    cbn [requested_names]; try constructor; auto using sublist_nil_l.
Qed.

Lemma in_catalogue_order_once (all_fields fields : list string) :
  in_catalogue_order all_fields fields -> requested_once all_fields fields.
Proof.
  unfold in_catalogue_order, requested_once. intros E. rewrite E at 2.
  symmetry. apply length_requested_names. apply length_map.
Qed.

(** What [fill_hydro] hands over for a block when the request is written in
    catalogue order: under each requested name, the slice whose row [c] and
    sub-cell column [i] hold the [c]-th double of the record that the field
    of that name has in sub-cell [i] on disk. *)
Theorem decode_block_delivers_named_records
    (all_fields fields : list string) (twotondim nc offset : Z)
    (subcells : list (list (list float64))) (f : FortranFile)
    (buffer : decode_buffer) :
  NoDup all_fields ->
  in_catalogue_order all_fields fields ->
  0 < nc -> 0 <= offset ->
  in_int32 (Z.of_nat (length all_fields) * (nc * 8 + 8)) ->
  length subcells = Z.to_nat twotondim ->
  well_formed_subcells (length all_fields) nc subcells ->
  bytes_at (contents f) (Z.to_nat offset) (encode_subcells subcells) ->
  buffer_allocated buffer ->
  nc <= Z.of_nat (dim0 buffer) ->
  twotondim <= Z.of_nat (dim1 buffer) ->
  (length fields <= dim2 buffer)%nat ->
  exists jumps first_field_index f' jump_len buffer',
    build_jumps all_fields fields = Ok jumps /\
    array_get jumps 0 = Ok first_field_index /\
    decode_block jumps first_field_index twotondim (Z.of_nat (length fields)) nc
      offset f buffer = Ok (f', jump_len, buffer') /\
    forall (j : nat) (x : string),
      fields !! j = Some x ->
      alias_buffer fields buffer' !! x = Some (buffer_slice buffer' j) /\
      forall (i : nat) (recs : list (list float64)),
        subcells !! i = Some recs ->
        exists (k : nat) (rec : list float64),
          all_fields !! k = Some x /\ recs !! k = Some rec /\
          forall c : nat,
            Z.of_nat c < nc ->
            buffer_slice buffer' j !! c ≫= (fun row => row !! i)
            = Some (read_back rec !! c).
Proof.
  intros Hnodup Horder Hnc Hoffset Hfit Hlen Hwf Hat Halloc Hdim0 Hdim1 Hdim2.
  pose proof (in_catalogue_order_once _ _ Horder) as Honce.
  set (req := requested all_fields fields) in *.
  destruct (build_jumps_spec all_fields fields Honce) as [Hbuild _].
  destruct (decode_block_spec all_fields fields twotondim nc offset subcells f buffer
              Honce Hnc Hoffset Hfit Hlen Hwf Hat)
    as (ffi & f' & jl & Hffi & Hrun & _).
  fold req in Hbuild, Hffi, Hrun.
  destruct (store_subcells_fits req (length all_fields) nc subcells Hwf ltac:(lia)
              0%nat buffer Halloc Hdim0 ltac:(lia)
              ltac:(unfold requested_once in Honce; fold req in Honce; lia))
    as (buffer' & Hstore & _).
  rewrite Hstore in Hrun.
  assert (Hsmall : Forall (Forall (fun rec => (length rec <= dim0 buffer)%nat)) subcells).
  { eapply List.Forall_impl; [|exact Hwf]. cbn. intros recs [_ Hrecs].
    eapply List.Forall_impl; [|exact Hrecs]. cbn. intros rec Hrec. lia. }
  destruct (store_subcells_cells req subcells 0%nat buffer buffer' Hstore Hsmall
              ltac:(lia)) as ((H0 & H1 & H2) & Hcells & _).
  assert (Hfields_nodup : NoDup fields).
  { rewrite Horder. eapply sublist_NoDup; [exact Hnodup | apply requested_names_sublist]. }
  exists (skip_distances 0 req), ffi, f', jl, buffer'.
  split; [exact Hbuild|]. split; [exact Hffi|]. split; [exact Hrun|].
  intros j x Hj. split; [now apply alias_buffer_lookup|].
  intros i recs Hi.
  assert (Hrecs : length recs = length all_fields /\
                  Forall (fun rec => Z.of_nat (length rec) = nc) recs).
  { unfold well_formed_subcells in Hwf. rewrite List.Forall_forall in Hwf.
    apply (Hwf recs). apply list_elem_of_In. eapply list_elem_of_lookup_2; eauto. }
  destruct Hrecs as [Hrecs_len Hrecs_nc].
  rewrite Horder in Hj. fold req in Hj.
  destruct (requested_names_records req all_fields recs j x Hrecs_len Hj)
    as (k & rec & Hk & Hrec & Hreq).
  exists k, rec. split; [exact Hk|]. split; [exact Hrec|].
  intros c Hc.
  assert (Hrec_nc : Z.of_nat (length rec) = nc).
  { rewrite List.Forall_forall in Hrecs_nc. apply Hrecs_nc.
    apply list_elem_of_In. eapply list_elem_of_lookup_2; eauto. }
  assert (Hi_lt : (i < length subcells)%nat) by (eapply lookup_lt_Some; eauto).
  rewrite buffer_slice_cell by lia.
  f_equal. apply (Hcells i j recs rec c Hi Hreq). lia.
Qed.

(** X2.  The part of C1 that the code keeps: two requests written in catalogue
    order decode a common field alike.  The catalogue has no duplicate; the
    block is present ([nc] above 0) and lies on disk at [offset], [twotondim]
    sub-cells of one record of [nc] doubles per catalogue field; the records
    of one sub-cell, with their markers, take less than 2 GiB
    ([len(all_fields) * (nc * 8 + 8)] is an [int]); each buffer is allocated
    with at least [nc] rows, [twotondim] columns and one slot per requested
    field.  Then both decodings end normally and, whatever other fields each
    request holds, the slices handed over under the common name agree on
    every row below the record count and every sub-cell of the block. *)
Theorem decode_block_alike_in_catalogue_order
    (all_fields fields1 fields2 : list string) (twotondim nc offset : Z)
    (subcells : list (list (list float64))) (f : FortranFile)
    (buffer1 buffer2 : decode_buffer) (x : string) :
  NoDup all_fields ->
  in_catalogue_order all_fields fields1 ->
  in_catalogue_order all_fields fields2 ->
  In x fields1 -> In x fields2 ->
  0 < nc -> 0 <= offset ->
  in_int32 (Z.of_nat (length all_fields) * (nc * 8 + 8)) ->
  length subcells = Z.to_nat twotondim ->
  well_formed_subcells (length all_fields) nc subcells ->
  bytes_at (contents f) (Z.to_nat offset) (encode_subcells subcells) ->
  buffer_allocated buffer1 -> buffer_allocated buffer2 ->
  nc <= Z.of_nat (dim0 buffer1) -> nc <= Z.of_nat (dim0 buffer2) ->
  twotondim <= Z.of_nat (dim1 buffer1) -> twotondim <= Z.of_nat (dim1 buffer2) ->
  (length fields1 <= dim2 buffer1)%nat -> (length fields2 <= dim2 buffer2)%nat ->
  exists jumps1 ffi1 f1 jl1 buffer1' jumps2 ffi2 f2 jl2 buffer2' slice1 slice2,
    build_jumps all_fields fields1 = Ok jumps1 /\
    array_get jumps1 0 = Ok ffi1 /\
    decode_block jumps1 ffi1 twotondim (Z.of_nat (length fields1)) nc offset f buffer1
      = Ok (f1, jl1, buffer1') /\
    build_jumps all_fields fields2 = Ok jumps2 /\
    array_get jumps2 0 = Ok ffi2 /\
    decode_block jumps2 ffi2 twotondim (Z.of_nat (length fields2)) nc offset f buffer2
      = Ok (f2, jl2, buffer2') /\
    alias_buffer fields1 buffer1' !! x = Some slice1 /\
    alias_buffer fields2 buffer2' !! x = Some slice2 /\
    forall c i : nat,
      Z.of_nat c < nc -> Z.of_nat i < twotondim ->
      slice1 !! c ≫= (fun row => row !! i) = slice2 !! c ≫= (fun row => row !! i).
Proof.
  intros Hnodup Ho1 Ho2 Hx1 Hx2 Hnc Hoffset Hfit Hlen Hwf Hat
    Ha1 Ha2 Hd01 Hd02 Hd11 Hd12 Hd21 Hd22.
  destruct (decode_block_delivers_named_records all_fields fields1 twotondim nc offset
              subcells f buffer1 Hnodup Ho1 Hnc Hoffset Hfit Hlen Hwf Hat Ha1 Hd01 Hd11 Hd21)
    as (jumps1 & ffi1 & f1 & jl1 & b1 & Hb1 & Hf1 & Hrun1 & Hnamed1).
  destruct (decode_block_delivers_named_records all_fields fields2 twotondim nc offset
              subcells f buffer2 Hnodup Ho2 Hnc Hoffset Hfit Hlen Hwf Hat Ha2 Hd02 Hd12 Hd22)
    as (jumps2 & ffi2 & f2 & jl2 & b2 & Hb2 & Hf2 & Hrun2 & Hnamed2).
  apply list_elem_of_In, list_elem_of_lookup_1 in Hx1 as [j1 Hj1].
  apply list_elem_of_In, list_elem_of_lookup_1 in Hx2 as [j2 Hj2].
  destruct (Hnamed1 j1 x Hj1) as [Halias1 Hrows1].
  destruct (Hnamed2 j2 x Hj2) as [Halias2 Hrows2].
  exists jumps1, ffi1, f1, jl1, b1, jumps2, ffi2, f2, jl2, b2,
    (buffer_slice b1 j1), (buffer_slice b2 j2).
  repeat (split; [assumption|]).
  intros c i Hc Hi.
  destruct (lookup_lt_is_Some_2 subcells i ltac:(lia)) as [recs Hrecs].
  destruct (Hrows1 i recs Hrecs) as (k1 & rec1 & Hk1 & Hr1 & Hcell1).
  destruct (Hrows2 i recs Hrecs) as (k2 & rec2 & Hk2 & Hr2 & Hcell2).
  assert (k1 = k2) by (eapply NoDup_lookup; eauto). subst k2.
  assert (rec1 = rec2) by congruence. subst rec2.
  rewrite Hcell1, Hcell2 by exact Hc. reflexivity.
Qed.
(** * Further properties

    ** The record reader: what a successful read leaves behind *)

Lemma read_bytes_Ok (n : nat) (f f' : FortranFile) (bs : list byte) :
  read_bytes n f = Ok (bs, f') ->
  contents f' = contents f /\ cursor f' = (cursor f + n)%nat /\
  (cursor f' <= length (contents f))%nat /\ length bs = n /\ io_log f' = io_log f.
Proof.
  unfold read_bytes. destruct (Nat.leb_spec (cursor f + n) (length (contents f)));
    [|discriminate].
  intros [= <- <-]. simpl. repeat split; try lia.
  rewrite length_take, length_drop. lia.
Qed.

Lemma read_record_Ok (f f' : FortranFile) (payload : list byte) :
  read_record f = Ok (payload, f') ->
  contents f' = contents f /\
  cursor f' = (cursor f + 8 + length payload)%nat /\
  (cursor f' <= length (contents f))%nat /\
  io_log f' = io_log f ++ [EvRead (cursor f) (length payload)].
Proof.
  unfold read_record, read_marker. intros H.
  apply bind_Ok in H as ([s1 f1] & H1 & H).
  apply bind_Ok in H1 as ([b1 g1] & Hb1 & [= <- <-]).
  destruct (Z.ltb_spec (wrap32 (le_combine b1)) 0); [discriminate|].
  apply bind_Ok in H as ([p f2] & Hp & H).
  apply bind_Ok in H as ([s2 f3] & H3 & H).
  apply bind_Ok in H3 as ([b3 g3] & Hb3 & [= <- <-]).
  destruct (_ =? _); [|discriminate]. injection H as <- <-.
  apply read_bytes_Ok in Hb1 as (C1 & P1 & _ & _ & L1).
  apply read_bytes_Ok in Hp as (C2 & P2 & _ & Lp & L2).
  apply read_bytes_Ok in Hb3 as (C3 & P3 & B3 & _ & L3).
  simpl. rewrite Lp. rewrite C2, C1 in B3.
  repeat split; try congruence; lia.
Qed.

Lemma read_int_Ok (f f' : FortranFile) (v : Z) :
  read_int f = Ok (v, f') ->
  contents f' = contents f /\ cursor f' = (cursor f + 12)%nat /\
  (cursor f' <= length (contents f))%nat /\ in_int32 v.
Proof.
  intros H. pose proof (read_int_in_int32 _ _ _ H) as Hv.
  unfold read_int in H. apply bind_Ok in H as ([payload f1] & Hrec & H).
  destruct (Nat.eqb_spec (length payload) 4); [|discriminate].
  injection H as _ <-. apply read_record_Ok in Hrec as (C & P & B & _).
  split; [exact C|]. split; [lia|]. split; [lia | exact Hv].
Qed.

Lemma seek_Ok (f f' : FortranFile) (pos whence : Z) :
  seek f pos whence = Ok f' -> contents f' = contents f.
Proof.
  unfold seek. destruct (_ || _); [discriminate|]. now intros [= <-].
Qed.

(** ** [read_offset]: the shape of the tables and the range of their entries *)

(** X3.  [np.full] refuses a negative dimension: when [min_level] is above
    [nlevelmax], or the header declares a negative number of domains,
    [read_offset] raises [ValueError] at the allocation of its tables,
    whatever the file holds and before any of it is read. *)
Theorem read_offset_refuses_negative_shape
    f min_level domain_id nvar headers Nskip :
  nlevelmax headers < min_level \/ nboundary headers + ncpu headers < 0 ->
  read_offset f min_level domain_id nvar headers Nskip = Raise ValueFault.
Proof.
  intros H. unfold read_offset, np_full. cbv zeta.
  destruct (Z.ltb_spec (nboundary headers + ncpu headers) 0) as [Hd|Hd];
    [reflexivity|].
  destruct (Z.ltb_spec (nlevelmax headers - min_level) 0) as [Hl|Hl];
    [reflexivity|]. lia.
Qed.

Lemma read_offset_refuses_negative_shape_witness :
  (nlevelmax Sample.data_headers < 3 \/
   nboundary Sample.data_headers + ncpu Sample.data_headers < 0) /\
  read_offset Sample.data_file 3 1 1 Sample.data_headers (-1) = Raise ValueFault.
Proof.
  assert (H : nlevelmax Sample.data_headers < 3 \/
              nboundary Sample.data_headers + ncpu Sample.data_headers < 0)
    by (left; simpl; lia).
  split; [exact H|].
  exact (read_offset_refuses_negative_shape Sample.data_file 3 1 1
           Sample.data_headers (-1) H).
Defined.

(** X4.  The tables that [read_offset] returns have one row per domain
    (real and boundary) and one column per level from [min_level] on; every
    entry of the offset table is the sentinel -1 or a byte position of the
    file, past the two header records of a block and not beyond the end of
    the file; every entry of the count table is a 32-bit value. *)
Theorem read_offset_entries_within_file
    f min_level domain_id nvar headers Nskip f' offset level_count :
  read_offset f min_level domain_id nvar headers Nskip = Ok (f', offset, level_count) ->
  (shape0 offset = Z.to_nat (nboundary headers + ncpu headers) /\
   shape1 offset = Z.to_nat (nlevelmax headers - min_level)) /\
  (shape0 level_count = Z.to_nat (nboundary headers + ncpu headers) /\
   shape1 level_count = Z.to_nat (nlevelmax headers - min_level)) /\
  Forall (fun o => o = -1 \/ 24 <= o <= Z.of_nat (length (contents f))) (cells offset) /\
  Forall in_int32 (cells level_count).
Proof.
  unfold read_offset. cbv zeta. intros Hrun.
  apply bind_Ok in Hrun as (off0 & Hoff & Hrun).
  apply bind_Ok in Hrun as (cnt0 & Hcnt & Hrun).
  apply np_full_Ok in Hoff as (_ & _ & Ho0 & Ho1 & Hocells).
  apply np_full_Ok in Hcnt as (_ & _ & Hc0 & Hc1 & Hccells).
  set (I := fun st : offset_state =>
    contents (fst (fst st)) = contents f /\
    (shape0 (snd (fst st)) = shape0 off0 /\ shape1 (snd (fst st)) = shape1 off0) /\
    (shape0 (snd st) = shape0 cnt0 /\ shape1 (snd st) = shape1 cnt0) /\
    Forall (fun o => o = -1 \/ 24 <= o <= Z.of_nat (length (contents f)))
      (cells (snd (fst st))) /\
    Forall in_int32 (cells (snd st))).
  assert (HI : I (f', offset, level_count)).
  { eapply (for_each_invariant I); [ | exact Hrun | ].
    - intros ilevel s s' _ Hin. eapply (for_each_invariant I); [ | exact Hin].
      intros icpu [[g o] c] [[g' o'] c'] _ Hbody (HC & [Hso0 Hso1] & [Hsc0 Hsc1] & Ho & Hc).
      unfold I in *. simpl in *. unfold read_offset_body in Hbody.
      apply bind_Ok in Hbody as ([file_ilevel f1] & Hr1 & Hbody).
      apply bind_Ok in Hbody as ([file_ncache f2] & Hr2 & Hbody).
      apply read_int_Ok in Hr1 as (C1 & P1 & B1 & _).
      apply read_int_Ok in Hr2 as (C2 & P2 & B2 & Hv).
      destruct (file_ncache =? 0).
      { injection Hbody as <- <- <-. split; [congruence|]. tauto. }
      destruct (negb _); [no_raise|].
      destruct (ilevel >=? min_level);
        apply bind_Ok in Hbody as (f3 & Hseek & [= <- <- <-]);
        apply seek_Ok in Hseek.
      + destruct (set2_shape o icpu (ilevel - min_level) (tell f2)) as [E0 E1].
        destruct (set2_shape c icpu (ilevel - min_level) file_ncache) as [E2 E3].
        split; [congruence|]. split; [split; congruence|].
        split; [split; congruence|].
        unfold set2. split.
        * destruct (in_bounds o icpu (ilevel - min_level)); [|exact Ho].
          simpl. apply Forall_insert; [exact Ho|]. right. unfold tell.
          rewrite C1, HC in B2. lia.
        * destruct (in_bounds c icpu (ilevel - min_level)); [|exact Hc].
          simpl. apply Forall_insert; assumption.
      + split; [congruence|]. tauto.
    - unfold I. simpl. repeat split; auto.
      + rewrite Hocells. apply Forall_replicate. now left.
      + rewrite Hccells. apply Forall_replicate. unfold in_int32. lia. }
  destruct HI as (_ & [H0 H1] & [H2 H3] & Ho & Hc). simpl in *.
  repeat split; try congruence; assumption.
Qed.

Lemma read_offset_entries_within_file_witness :
  read_offset Sample.data_file 0 1 1 Sample.data_headers (-1)
    = Ok Sample.data_indexed /\
  (shape0 (snd (fst Sample.data_indexed)) = 1%nat /\
   shape1 (snd (fst Sample.data_indexed)) = 2%nat) /\
  (shape0 (snd Sample.data_indexed) = 1%nat /\
   shape1 (snd Sample.data_indexed) = 2%nat) /\
  Forall (fun o => o = -1 \/
                   24 <= o <= Z.of_nat (length (contents Sample.data_file)))
    (cells (snd (fst Sample.data_indexed))) /\
  Forall in_int32 (cells (snd Sample.data_indexed)).
Proof.
  assert (Hrun : read_offset Sample.data_file 0 1 1 Sample.data_headers (-1)
                 = Ok (fst (fst Sample.data_indexed), snd (fst Sample.data_indexed),
                       snd Sample.data_indexed)) by (vm_compute; reflexivity).
  split; [exact Hrun|].
  exact (read_offset_entries_within_file _ _ _ _ _ _ _ _ _ Hrun).
Defined.
(** ** [read_offset]: the fault it raises *)

Lemma for_each_raise {X S} (x : X) (xs : list X) (body : X -> S -> result S)
    (s : S) (e : fault) :
  body x s = Raise e -> for_each (x :: xs) body s = Raise e.
Proof. intros H. simpl. now rewrite H. Qed.

Lemma encode_section_app (pre post : list (list block)) :
  encode_section (pre ++ post) = encode_section pre ++ encode_section post.
Proof. unfold encode_section. apply flat_map_app. Qed.

Lemma encode_blocks_app (pre post : list block) :
  encode_blocks (pre ++ post) = encode_blocks pre ++ encode_blocks post.
Proof. unfold encode_blocks. apply flat_map_app. Qed.

Lemma seq_split_at (n k : nat) :
  (k < n)%nat -> seq 0 n = seq 0 k ++ k :: seq (S k) (n - S k).
Proof.
  intros H. replace n with (k + S (n - S k))%nat at 1 by lia.
  rewrite seq_app. simpl. reflexivity.
Qed.

Lemma read_offset_levels_well_shaped min_level Nskip ncpu_and_bound (levels : list Z)
    f offset level_count f' offset' level_count' :
  for_each levels (fun ilevel =>
    for_each (range ncpu_and_bound) (read_offset_body min_level Nskip ilevel))
    (f, offset, level_count) = Ok (f', offset', level_count') ->
  well_shaped offset /\ well_shaped level_count ->
  well_shaped offset' /\ well_shaped level_count'.
Proof.
  set (I := fun st : offset_state => well_shaped (snd (fst st)) /\ well_shaped (snd st)).
  intros Hrun HI0. change (I (f', offset', level_count')).
  eapply (for_each_invariant I); [ | exact Hrun | exact HI0].
  intros ilevel s s' _ Hin. eapply (for_each_invariant I); [ | exact Hin].
  intros icpu [[g o] c] [[g' o'] c'] _ Hbody [Ho Hc]. unfold I. simpl in *.
  unfold read_offset_body in Hbody.
  apply bind_Ok in Hbody as ([file_ilevel f1] & _ & Hbody).
  apply bind_Ok in Hbody as ([file_ncache f2] & _ & Hbody).
  destruct (file_ncache =? 0); [now injection Hbody as <- <- <-|].
  destruct (negb _); [no_raise|].
  destruct (ilevel >=? min_level);
    apply bind_Ok in Hbody as (f3 & _ & [= <- <- <-]); [|tauto].
  split; now apply set2_well_shaped.
Qed.

Lemma read_record_name (f f' : FortranFile) (payload : list byte) :
  read_record f = Ok (payload, f') -> name f' = name f.
Proof.
  unfold read_record, read_marker, read_bytes. intros H.
  apply bind_Ok in H as ([s1 f1] & H1 & H).
  apply bind_Ok in H1 as ([b1 g1] & Hb1 & [= <- <-]).
  destruct (_ <=? _)%nat in Hb1; [|discriminate]. injection Hb1 as _ <-.
  destruct (_ <? 0); [discriminate|].
  apply bind_Ok in H as ([p f2] & Hp & H).
  destruct (_ <=? _)%nat in Hp; [|discriminate]. injection Hp as _ <-.
  apply bind_Ok in H as ([s2 f3] & H3 & H).
  apply bind_Ok in H3 as ([b3 g3] & Hb3 & [= <- <-]).
  destruct (_ <=? _)%nat in Hb3; [|discriminate]. injection Hb3 as _ <-.
  destruct (_ =? _); [|discriminate]. now injection H as _ <-.
Qed.

Lemma read_int_name (f f' : FortranFile) (v : Z) :
  read_int f = Ok (v, f') -> name f' = name f.
Proof.
  unfold read_int. intros H. apply bind_Ok in H as ([payload f1] & Hrec & H).
  destruct (_ =? _)%nat; [|discriminate]. injection H as _ <-.
  exact (read_record_name _ _ _ Hrec).
Qed.

Lemma seek_name (f f' : FortranFile) (pos whence : Z) :
  seek f pos whence = Ok f' -> name f' = name f.
Proof.
  unfold seek. destruct (_ || _); [discriminate|]. now intros [= <-].
Qed.

(** The reader that leaves the loops of [read_offset] is the reader that
    entered them, further on in its file. *)
Lemma read_offset_levels_name min_level Nskip ncpu_and_bound (levels : list Z)
    f offset level_count f' offset' level_count' :
  for_each levels (fun ilevel =>
    for_each (range ncpu_and_bound) (read_offset_body min_level Nskip ilevel))
    (f, offset, level_count) = Ok (f', offset', level_count') ->
  name f' = name f.
Proof.
  set (I := fun st : offset_state => name (fst (fst st)) = name f).
  intros Hrun. change (I (f', offset', level_count')).
  eapply (for_each_invariant I); [ | exact Hrun | reflexivity].
  intros ilevel s s' _ Hin. eapply (for_each_invariant I); [ | exact Hin].
  intros icpu [[g o] c] [[g' o'] c'] _ Hbody Hg. unfold I in *. simpl in *.
  unfold read_offset_body in Hbody.
  apply bind_Ok in Hbody as ([file_ilevel f1] & H1 & Hbody).
  apply bind_Ok in Hbody as ([file_ncache f2] & H2 & Hbody).
  apply read_int_name in H1, H2.
  destruct (file_ncache =? 0); [injection Hbody as <- <- <-; congruence|].
  destruct (negb _); [no_raise|].
  destruct (ilevel >=? min_level);
    apply bind_Ok in Hbody as (f3 & H3 & [= <- <- <-]);
    apply seek_name in H3; congruence.
Qed.

(** X5.  On a well-formed data section, [read_offset] stops at the first
    present block, in file order, whose declared level id is not the level
    of the loop plus one, and ends there with [level_fault]: for a reader
    that carries a name, the structural-integrity fault with that name, the
    level id that the block declares and, as the expected value, the
    zero-based level of the loop (one less than the level id the block was
    compared with); for the record reader itself, which has no attribute
    [name], the failure of the lookup of [f.name]. *)
Theorem read_offset_fault_names_first_mislabelled_block
    f min_level domain_id nvar headers Nskip data level domain b :
  0 <= nlevelmax headers - min_level ->
  0 <= nboundary headers + ncpu headers ->
  well_formed_section (effective_Nskip headers nvar Nskip) (nlevelmax headers)
    (nboundary headers + ncpu headers) data ->
  bytes_at (contents f) (cursor f) (encode_section data) ->
  first_mislabelled_present data level domain b ->
  read_offset f min_level domain_id nvar headers Nskip
  = Raise (level_fault f (blk_level b) (Z.of_nat level)).
Proof.
  intros Hlevels Hdomains [Hlen Hrows] Hat ((row & Hrow & Hb) & Hcount & Hlabel & Hfirst).
  unfold read_offset. cbv zeta. fold (effective_Nskip headers nvar Nskip).
  set (N := effective_Nskip headers nvar Nskip) in *.
  destruct (np_full (nboundary headers + ncpu headers) (nlevelmax headers - min_level) (-1))
    as [off0|] eqn:Hoff; [|unfold np_full in Hoff;
      destruct (Z.ltb_spec (nboundary headers + ncpu headers) 0); [lia|];
      destruct (Z.ltb_spec (nlevelmax headers - min_level) 0); [lia|]; discriminate].
  destruct (np_full (nboundary headers + ncpu headers) (nlevelmax headers - min_level) 0)
    as [cnt0|] eqn:Hcnt; [|unfold np_full in Hcnt;
      destruct (Z.ltb_spec (nboundary headers + ncpu headers) 0); [lia|];
      destruct (Z.ltb_spec (nlevelmax headers - min_level) 0); [lia|]; discriminate].
  step.
  assert (Hwo : well_shaped off0).
  { apply np_full_Ok in Hoff as (_ & _ & Hs0 & Hs1 & Hcells).
    unfold well_shaped. rewrite Hcells, length_replicate. congruence. }
  assert (Hwc : well_shaped cnt0).
  { apply np_full_Ok in Hcnt as (_ & _ & Hs0 & Hs1 & Hcells).
    unfold well_shaped. rewrite Hcells, length_replicate. congruence. }
  assert (Hlevel : (level < length data)%nat) by (eapply lookup_lt_Some; eauto).
  assert (Hdomain : (domain < length row)%nat) by (eapply lookup_lt_Some; eauto).
  (* the levels before the block *)
  assert (Hdata : data = take level data ++ row :: drop (S level) data).
  { now rewrite <- (take_drop_middle data level row Hrow) at 1. }
  set (pre := take level data) in *. set (post := drop (S level) data) in *.
  assert (Hpre_len : length pre = level) by (unfold pre; rewrite length_take; lia).
  assert (Hrowd : row = take domain row ++ b :: drop (S domain) row).
  { now rewrite <- (take_drop_middle row domain b Hb) at 1. }
  set (rpre := take domain row) in *. set (rpost := drop (S domain) row) in *.
  assert (Hrpre_len : length rpre = domain) by (unfold rpre; rewrite length_take; lia).
  rewrite Hdata in Hrows. apply Forall_app in Hrows as [Hrows_pre Hrows_row].
  apply Forall_cons in Hrows_row as [[Hrow_len Hrow_wf] _].
  rewrite Hdata, encode_section_app in Hat. apply bytes_at_app in Hat as [Hat_pre Hat_row].
  change (row :: post) with ([row] ++ post) in Hat_row.
  rewrite encode_section_app in Hat_row. apply bytes_at_app in Hat_row as [Hat_row _].
  change (encode_section [row]) with (encode_blocks row ++ []) in Hat_row.
  rewrite app_nil_r in Hat_row.
  assert (Hco : coherent_from (Z.of_nat 0) pre = true).
  { destruct (coherent_from (Z.of_nat 0) pre) eqn:E; [reflexivity|].
    apply coherent_from_false in E as (l & d & r & b' & H1 & H2 & H3 & H4).
    assert (Hl : (l < level)%nat) by (rewrite <- Hpre_len; eapply lookup_lt_Some; eauto).
    destruct (Hfirst l d r b') as [H | H]; try tauto; try lia.
    rewrite Hdata. rewrite lookup_app_l by lia. exact H1. }
  destruct (read_offset_levels_index min_level N (nboundary headers + ncpu headers)
              pre 0%nat f off0 cnt0 Hrows_pre Hat_pre Hco Hwo Hwc)
    as (f1 & o1 & c1 & Hrun1 & Hc1 & Hp1 & _).
  unfold range at 1. rewrite <- Hlen.
  rewrite (seq_split_at (length data) level Hlevel), map_app, for_each_app.
  replace (seq 0 level) with (seq 0 (length pre)) by now rewrite Hpre_len.
  rewrite Hrun1. step.
  pose proof (read_offset_levels_name _ _ _ _ _ _ _ _ _ _ Hrun1) as Hn1.
  apply for_each_raise.
  (* the blocks of the level before the block *)
  assert (Hrow_wf' := Hrow_wf).
  rewrite Hrowd in Hrow_wf'. apply Forall_app in Hrow_wf' as [Hwf_rpre Hwf_b].
  apply Forall_cons in Hwf_b as [Hwf_b _].
  rewrite Hrowd, encode_blocks_app in Hat_row.
  rewrite <- Hc1, <- Hp1 in Hat_row.
  apply bytes_at_app in Hat_row as [Hat_rpre Hat_b].
  rewrite length_encode_blocks_cons in Hat_b. apply bytes_at_app in Hat_b as [Hat_b _].
  assert (Hcoh : forallb (coherentb (Z.of_nat level)) rpre = true).
  { destruct (forallb (coherentb (Z.of_nat level)) rpre) eqn:E; [reflexivity|].
    apply forallb_false_lookup in E as (d & b' & H1 & H2).
    assert (Hd : (d < domain)%nat) by (rewrite <- Hrpre_len; eapply lookup_lt_Some; eauto).
    unfold coherentb in H2. apply orb_false_iff in H2 as [H2 H3].
    destruct (Hfirst level d row b') as [H | H]; try lia; auto.
    rewrite Hrowd. rewrite lookup_app_l by lia. exact H1. }
  assert (Hwo1 : well_shaped o1 /\ well_shaped c1).
  { exact (read_offset_levels_well_shaped _ _ _ _ _ _ _ _ _ _ Hrun1 (conj Hwo Hwc)). }
  destruct Hwo1 as [Hwo1 Hwc1].
  destruct (read_offset_row_indexes min_level N (Z.of_nat level) rpre 0%nat f1 o1 c1
              Hwf_rpre Hat_rpre Hcoh Hwo1 Hwc1)
    as (f2 & o2 & c2 & Hrun2 & Hc2 & Hp2 & _).
  unfold range. rewrite <- Hrow_len.
  rewrite (seq_split_at (length row) domain Hdomain), map_app, for_each_app.
  replace (seq 0 domain) with (seq 0 (length rpre)) by now rewrite Hrpre_len.
  rewrite Hrun2. step.
  pose proof (read_offset_levels_name min_level N (Z.of_nat (length rpre))
                [Z.of_nat level] f1 o1 c1 f2 o2 c2) as Hn2.
  cbn [for_each] in Hn2. unfold range in Hn2. rewrite Nat2Z.id in Hn2.
  rewrite Hrun2 in Hn2. specialize (Hn2 eq_refl).
  apply for_each_raise.
  rewrite <- Hc2, <- Hp2 in Hat_b.
  rewrite (read_offset_body_at min_level N (Z.of_nat level) (Z.of_nat domain)
             f2 o2 c2 b Hwf_b Hat_b).
  destruct (Z.eqb_spec (blk_count b) 0); [contradiction|].
  destruct (Z.eqb_spec (blk_level b) (Z.of_nat level + 1)); [contradiction|].
  cbn [negb]. unfold level_fault. now rewrite Hn2, Hn1.
Qed.

Lemma read_offset_fault_names_first_mislabelled_block_witness :
  0 <= nlevelmax Sample.data_headers - 0 /\
  0 <= nboundary Sample.data_headers + ncpu Sample.data_headers /\
  well_formed_section (effective_Nskip Sample.data_headers 1 (-1))
    (nlevelmax Sample.data_headers)
    (nboundary Sample.data_headers + ncpu Sample.data_headers)
    Scenario.data_section_late /\
  bytes_at (contents Scenario.data_file_late_named)
    (cursor Scenario.data_file_late_named)
    (encode_section Scenario.data_section_late) /\
  first_mislabelled_present Scenario.data_section_late 1 0 Scenario.late_block /\
  read_offset Scenario.data_file_late_named 0 1 1 Sample.data_headers (-1)
  = Raise (StructuralIntegrity Scenario.late_name 9 1) /\
  read_offset Scenario.data_file_late 0 1 1 Sample.data_headers (-1)
  = Raise AttributeFault.
Proof.
  assert (H1 : 0 <= nlevelmax Sample.data_headers - 0) by (simpl; lia).
  assert (H2 : 0 <= nboundary Sample.data_headers + ncpu Sample.data_headers)
    by (simpl; lia).
  assert (H3 : well_formed_section (effective_Nskip Sample.data_headers 1 (-1))
                 (nlevelmax Sample.data_headers)
                 (nboundary Sample.data_headers + ncpu Sample.data_headers)
                 Scenario.data_section_late).
  { split; [reflexivity|].
    repeat constructor; vm_compute; try reflexivity; try discriminate. }
  assert (H4 : bytes_at (contents Scenario.data_file_late_named)
                 (cursor Scenario.data_file_late_named)
                 (encode_section Scenario.data_section_late)).
  { split; [vm_compute; lia | reflexivity]. }
  assert (H5 : first_mislabelled_present Scenario.data_section_late 1 0
                 Scenario.late_block).
  { split; [exists [Scenario.late_block]; split; reflexivity|].
    split; [discriminate|]. split; [discriminate|].
    intros l d row' b' Hl Hd [Hlt | [_ Hlt]]; [|lia].
    destruct l as [|l]; [|lia]. injection Hl as <-.
    destruct d as [|d]; [|discriminate]. injection Hd as <-.
    right. reflexivity. }
  assert (H6 : bytes_at (contents Scenario.data_file_late)
                 (cursor Scenario.data_file_late)
                 (encode_section Scenario.data_section_late)).
  { split; [vm_compute; lia | reflexivity]. }
  repeat (split; [assumption|]).
  split.
  - exact (read_offset_fault_names_first_mislabelled_block
             Scenario.data_file_late_named 0 1 1 Sample.data_headers (-1)
             Scenario.data_section_late 1 0 Scenario.late_block H1 H2 H3 H4 H5).
  - exact (read_offset_fault_names_first_mislabelled_block
             Scenario.data_file_late 0 1 1 Sample.data_headers (-1)
             Scenario.data_section_late 1 0 Scenario.late_block H1 H2 H3 H6 H5).
Defined.
(** ** [fill_hydro]: the jump table, whatever the request *)

(** The walk of [build_jumps] when the catalogue still holds at least as
    many requested entries as the table has slots left: a write lands
    outside the table. *)
Lemma build_jumps_overrun (fields : list string) (names : list string) :
  forall (jumps : list Z) (k : nat) (acc : Z),
    (length jumps <= k + count_true (requested names fields))%nat ->
    (for_each names (fun field '(jumps, j, jump_len) =>
        if py_in field fields
        then jumps ← array_set jumps j jump_len; Ok (jumps, j + 1, 0)
        else Ok (jumps, j, jump_len + 1))
       (jumps, Z.of_nat k, acc)
     ≫= fun '(jumps, j, jump_len) => array_set jumps j jump_len)
    = Raise MemoryFault.
Proof.
  induction names as [|x names IH]; intros jumps k acc Hk.
  - cbn [for_each requested map count_true] in *. step.
    unfold array_set.
    destruct (Z.ltb_spec (Z.of_nat k) (Z.of_nat (length jumps))); [lia|].
    now rewrite andb_false_r.
  - unfold requested in *. cbn [for_each map] in *.
    destruct (py_in x fields) eqn:Ex; cbn [count_true] in *.
    + destruct (array_set jumps (Z.of_nat k) acc) as [jumps'|e] eqn:Hset.
      * step. replace (Z.of_nat k + 1) with (Z.of_nat (S k)) by lia.
        apply IH. unfold array_set in Hset.
        destruct (_ && _); [|discriminate]. injection Hset as <-.
        rewrite length_insert. lia.
      * unfold array_set in Hset. destruct (_ && _); [discriminate|].
        injection Hset as <-. reflexivity.
    + step. apply IH. exact Hk.
Qed.

Lemma sum_skip_distances (acc : Z) (req : list bool) :
  fold_right Z.add 0 (skip_distances acc req) + Z.of_nat (count_true req)
  = acc + Z.of_nat (length req).
Proof.
  revert acc. induction req as [|[|] req IH]; intros acc;
    cbn [skip_distances count_true fold_right length].
  - lia.
  - specialize (IH 0). lia.
  - specialize (IH (acc + 1)). lia.
Qed.

Lemma sum_replicate_zero (n : nat) : fold_right Z.add 0 (replicate n 0) = 0.
Proof. induction n as [|n IH]; simpl; [reflexivity | exact IH]. Qed.

Lemma fold_right_add_app (xs ys : list Z) :
  fold_right Z.add 0 (xs ++ ys) = fold_right Z.add 0 xs + fold_right Z.add 0 ys.
Proof. induction xs as [|x xs IH]; simpl; lia. Qed.

(** X6.  What [build_jumps] computes for any catalogue and any request.
    The table has [len(fields) + 1] slots.  When the catalogue holds no more
    requested entries than [fields] has names, the table is the list of skip
    distances of the walk, followed by a zero for every requested name that
    the walk did not meet (a name absent from the catalogue, or named twice
    in the request).  When the catalogue holds more of them (a requested
    name that the catalogue lists twice), a write lands past the end of the
    table. *)
Theorem build_jumps_outcome (all_fields fields : list string) :
  build_jumps all_fields fields
  = if (count_true (requested all_fields fields) <=? length fields)%nat
    then Ok (skip_distances 0 (requested all_fields fields)
             ++ replicate (length fields - count_true (requested all_fields fields)) 0)
    else Raise MemoryFault.
Proof.
  unfold build_jumps.
  replace (Z.to_nat (Z.of_nat (length fields) + 1)) with (S (length fields)) by lia.
  destruct (Nat.leb_spec (count_true (requested all_fields fields)) (length fields)).
  - pose proof (build_jumps_walk fields all_fields [] (S (length fields)) 0
                  ltac:(lia)) as Hwalk.
    cbn [app length] in Hwalk. exact Hwalk.
  - apply (build_jumps_overrun fields all_fields _ 0%nat 0).
    rewrite length_replicate. lia.
Qed.

(** X7.  A jump table that [build_jumps] returns accounts for every entry of
    the catalogue once: it has one slot per requested name and a trailing
    one, its entries are not negative, and they add up to the number of
    catalogue entries that are not requested. *)
Theorem build_jumps_accounts_for_catalogue
    (all_fields fields : list string) (jumps : list Z) :
  build_jumps all_fields fields = Ok jumps ->
  length jumps = S (length fields) /\
  Forall (fun d => 0 <= d) jumps /\
  fold_right Z.add 0 jumps
  + Z.of_nat (count_true (requested all_fields fields))
  = Z.of_nat (length all_fields).
Proof.
  intros Hrun.
  set (req := requested all_fields fields) in *.
  destruct (Nat.leb_spec (count_true req) (length fields)) as [Hle | Hgt].
  - assert (Hwalk : build_jumps all_fields fields
                    = Ok (skip_distances 0 req
                          ++ replicate (length fields - count_true req) 0)).
    { unfold build_jumps.
      replace (Z.to_nat (Z.of_nat (length fields) + 1)) with (S (length fields)) by lia.
      exact (build_jumps_walk fields all_fields [] (S (length fields)) 0
               ltac:(fold req; lia)). }
    rewrite Hwalk in Hrun. injection Hrun as <-.
    split; [|split].
    + rewrite length_app, length_skip_distances, length_replicate. lia.
    + apply Forall_app. split; [apply skip_distances_nonneg; lia|].
      apply Forall_replicate. lia.
    + rewrite fold_right_add_app, sum_replicate_zero.
      pose proof (sum_skip_distances 0 req) as Hsum.
      assert (Hlen : length req = length all_fields) by apply length_map.
      lia.
  - assert (Hover : build_jumps all_fields fields = Raise MemoryFault).
    { unfold build_jumps.
      replace (Z.to_nat (Z.of_nat (length fields) + 1)) with (S (length fields)) by lia.
      apply (build_jumps_overrun fields all_fields _ 0%nat 0).
      rewrite length_replicate. fold req. lia. }
    rewrite Hover in Hrun. discriminate.
Qed.

Lemma build_jumps_accounts_for_catalogue_witness :
  build_jumps Sample.hydro_fields ["pressure"%string] = Ok [1; 0] /\
  length [1; 0] = 2%nat /\
  Forall (fun d => 0 <= d) [1; 0] /\
  fold_right Z.add 0 [1; 0]
  + Z.of_nat (count_true (requested Sample.hydro_fields ["pressure"%string]))
  = Z.of_nat (length Sample.hydro_fields).
Proof.
  assert (Hrun : build_jumps Sample.hydro_fields ["pressure"%string] = Ok [1; 0])
    by (vm_compute; reflexivity).
  split; [exact Hrun|].
  exact (build_jumps_accounts_for_catalogue Sample.hydro_fields ["pressure"%string]
           [1; 0] Hrun).
Defined.
(** ** [fill_hydro]: absent blocks, empty requests, empty tables *)

(** X8.  A (level, domain) pair of the tables whose record count, read as a
    C [int], is zero, or whose offset is the sentinel -1, is passed over by
    [fill_hydro]: the iteration leaves the file, its cursor, the decode
    buffer and the index as they were. *)
Theorem fill_hydro_skips_absent_block
    offsets level_count cpu_list jumps first_field_index twotondim fields
    ilevel ii icpu nc offset st :
  0 <= ii -> cpu_list !! Z.to_nat ii = Some icpu ->
  lookup2 level_count (wrap32 icpu) ilevel = Some nc ->
  lookup2 offsets (wrap32 icpu) ilevel = Some offset ->
  wrap32 nc = 0 \/ offset = -1 ->
  fill_hydro_body offsets level_count cpu_list jumps first_field_index twotondim
    fields ilevel ii st = Ok st.
Proof.
  intros Hii Hcpu Hnc Hoff Habsent. destruct st as [[f buffer] oct].
  unfold fill_hydro_body, array_get.
  destruct (Z.ltb_spec ii 0); [lia|]. rewrite Hcpu. cbn [from_option]. step.
  unfold get2. unfold lookup2 in Hnc, Hoff.
  destruct (in_bounds level_count (wrap32 icpu) ilevel); [|discriminate].
  rewrite Hnc. cbn [from_option]. step.
  destruct (Z.eqb_spec (wrap32 nc) 0); [reflexivity|].
  destruct (in_bounds offsets (wrap32 icpu) ilevel); [|discriminate].
  rewrite Hoff. cbn [from_option]. step.
  destruct (Z.eqb_spec offset (-1)); [reflexivity|]. lia.
Qed.

Lemma fill_hydro_skips_absent_block_witness :
  0 <= 0 /\ [0] !! Z.to_nat 0 = Some 0 /\
  lookup2 (mk_ndarray2 1 1 [0]) (wrap32 0) 0 = Some 0 /\
  lookup2 (mk_ndarray2 1 1 [-1]) (wrap32 0) 0 = Some (-1) /\
  (wrap32 0 = 0 \/ -1 = -1) /\
  fill_hydro_body (mk_ndarray2 1 1 [-1]) (mk_ndarray2 1 1 [0]) [0] [1; 0] 1 2
    ["pressure"%string] 0 0 (Sample.hydro_file, Sample.hydro_buffer, [])
  = Ok (Sample.hydro_file, Sample.hydro_buffer, []).
Proof.
  assert (H1 : 0 <= 0) by lia.
  assert (H2 : [0] !! Z.to_nat 0 = Some 0) by reflexivity.
  assert (H3 : lookup2 (mk_ndarray2 1 1 [0]) (wrap32 0) 0 = Some 0) by reflexivity.
  assert (H4 : lookup2 (mk_ndarray2 1 1 [-1]) (wrap32 0) 0 = Some (-1)) by reflexivity.
  assert (H5 : wrap32 0 = 0 \/ -1 = -1) by (right; reflexivity).
  repeat (split; [assumption|]).
  exact (fill_hydro_skips_absent_block (mk_ndarray2 1 1 [-1]) (mk_ndarray2 1 1 [0])
           [0] [1; 0] 1 2 ["pressure"%string] 0 0 0 0 (-1)
           (Sample.hydro_file, Sample.hydro_buffer, []) H1 H2 H3 H4 H5).
Defined.

Lemma seek_reads_nothing (f f' : FortranFile) (pos whence : Z) :
  seek f pos whence = Ok f' ->
  read_positions (io_log f') = read_positions (io_log f).
Proof.
  unfold seek. destruct (_ || _); [discriminate|]. intros [= <-]. simpl.
  rewrite read_positions_app. simpl. apply app_nil_r.
Qed.

(** X9.  With an empty request [fill_hydro] reads no record at all, and
    every call it makes to the index carries an empty dictionary. *)
Theorem fill_hydro_empty_request_reads_nothing
    f offsets level_count cpu_enumerator ndim all_fields oct f' buffer' oct' :
  fill_hydro f offsets level_count cpu_enumerator ndim all_fields [] oct
    = Ok (f', buffer', oct') ->
  read_positions (io_log f') = read_positions (io_log f) /\
  exists calls,
    oct' = oct ++ calls /\ Forall (fun c => tmp_of c = Some ∅) calls.
Proof.
  unfold fill_hydro. cbv zeta. intros Hrun.
  apply bind_Ok in Hrun as (jumps & _ & Hrun).
  apply bind_Ok in Hrun as (ffi & _ & Hrun).
  apply bind_Ok in Hrun as (dim & _ & Hrun).
  apply bind_Ok in Hrun as (buffer & _ & Hrun).
  set (I := fun st : hydro_state =>
    read_positions (io_log (fst (fst st))) = read_positions (io_log f) /\
    exists calls, snd st = oct ++ calls /\ Forall (fun c => tmp_of c = Some ∅) calls).
  change (I (f', buffer', oct')).
  eapply (for_each_invariant I); [ | exact Hrun | ].
  - intros ilevel s s' _ Hin. eapply (for_each_invariant I); [ | exact Hin].
    intros ii [[g b] o] [[g' b'] o'] _ Hbody (Hlog & calls & Hoct & Hall).
    unfold I. simpl in *. unfold fill_hydro_body in Hbody.
    apply bind_Ok in Hbody as (icpu & _ & Hbody).
    apply bind_Ok in Hbody as (nc & _ & Hbody).
    destruct (wrap32 nc =? 0).
    { injection Hbody as <- <- <-. eauto. }
    apply bind_Ok in Hbody as (offset & _ & Hbody).
    destruct (offset =? -1).
    { injection Hbody as <- <- <-. eauto. }
    apply bind_Ok in Hbody as ([[g1 jl] b1] & Hdec & Hbody).
    injection Hbody as <- <- <-.
    split.
    + unfold decode_block in Hdec.
      apply bind_Ok in Hdec as (g0 & Hseek & Hdec).
      apply seek_reads_nothing in Hseek. rewrite <- Hlog, <- Hseek.
      set (J := fun st : field_state =>
        read_positions (io_log (fst (fst st))) = read_positions (io_log g0)).
      change (J (g1, jl, b1)).
      eapply (for_each_invariant J); [ | exact Hdec | reflexivity].
      intros i [[h jl0] b0] [[h' jl0'] b0'] _ Hsub HJ. unfold J in *. simpl in *.
      unfold read_subcell in Hsub. simpl in Hsub.
      apply bind_Ok in Hsub as (jmp & _ & [= <- _ _]). exact HJ.
    + exists (calls ++ [if Z.of_nat (length cpu_enumerator) >? 1
                        then OctFillLevelWithDomain ilevel (alias_buffer [] b1)
                               (wrap32 (wrap32 icpu + 1))
                        else OctFillLevel ilevel (alias_buffer [] b1)]).
      split; [now rewrite Hoct, app_assoc|].
      apply Forall_app. split; [exact Hall|].
      constructor; [|constructor].
      destruct (_ >? 1); reflexivity.
  - unfold I. simpl. split; [reflexivity|]. exists []. split; [now rewrite app_nil_r|].
    constructor.
Qed.

Lemma fill_hydro_empty_request_reads_nothing_witness :
  fill_hydro Sample.hydro_file Sample.hydro_offsets Sample.hydro_counts [0] 1
    Sample.hydro_fields [] [] = Ok Scenario.hydro_final_empty /\
  read_positions (io_log (fst (fst Scenario.hydro_final_empty)))
  = read_positions (io_log Sample.hydro_file) /\
  exists calls,
    snd Scenario.hydro_final_empty = [] ++ calls /\
    Forall (fun c => tmp_of c = Some ∅) calls.
Proof.
  assert (Hrun : fill_hydro Sample.hydro_file Sample.hydro_offsets Sample.hydro_counts
                   [0] 1 Sample.hydro_fields [] []
                 = Ok (fst (fst Scenario.hydro_final_empty),
                       snd (fst Scenario.hydro_final_empty),
                       snd Scenario.hydro_final_empty)) by (vm_compute; reflexivity).
  split; [exact Hrun|].
  exact (fill_hydro_empty_request_reads_nothing _ _ _ _ _ _ _ _ _ _ Hrun).
Defined.

Lemma build_jumps_first (all_fields fields : list string) :
  (count_true (requested all_fields fields) <= length fields)%nat ->
  exists jumps first_field_index,
    build_jumps all_fields fields = Ok jumps /\
    array_get jumps 0 = Ok first_field_index.
Proof.
  intros Hle. set (req := requested all_fields fields) in *.
  exists (skip_distances 0 req ++ replicate (length fields - count_true req) 0).
  destruct (skip_distances_cons 0 req) as (d & ds & Hd & _).
  exists d. split.
  - unfold build_jumps.
    replace (Z.to_nat (Z.of_nat (length fields) + 1)) with (S (length fields)) by lia.
    exact (build_jumps_walk fields all_fields [] (S (length fields)) 0
             ltac:(fold req; lia)).
  - rewrite Hd. reflexivity.
Qed.

Lemma read_offset_shapes f min_level domain_id nvar headers Nskip f' offset level_count :
  read_offset f min_level domain_id nvar headers Nskip = Ok (f', offset, level_count) ->
  (well_shaped offset /\ well_shaped level_count) /\
  (shape0 offset = Z.to_nat (nboundary headers + ncpu headers) /\
   shape1 offset = Z.to_nat (nlevelmax headers - min_level)) /\
  (shape0 level_count = Z.to_nat (nboundary headers + ncpu headers) /\
   shape1 level_count = Z.to_nat (nlevelmax headers - min_level)).
Proof.
  unfold read_offset. cbv zeta. intros Hrun.
  apply bind_Ok in Hrun as (off0 & Hoff & Hrun).
  apply bind_Ok in Hrun as (cnt0 & Hcnt & Hrun).
  apply np_full_Ok in Hoff as (_ & _ & Ho0 & Ho1 & Hocells).
  apply np_full_Ok in Hcnt as (_ & _ & Hc0 & Hc1 & Hccells).
  split.
  { apply (read_offset_levels_well_shaped _ _ _ _ _ _ _ _ _ _ Hrun).
    unfold well_shaped. rewrite Hocells, Hccells, !length_replicate. split; congruence. }
  set (I := fun st : offset_state =>
    (shape0 (snd (fst st)) = shape0 off0 /\ shape1 (snd (fst st)) = shape1 off0) /\
    (shape0 (snd st) = shape0 cnt0 /\ shape1 (snd st) = shape1 cnt0)).
  assert (HI : I (f', offset, level_count)).
  { eapply (for_each_invariant I); [ | exact Hrun | unfold I; simpl; auto].
    intros ilevel s s' _ Hin. eapply (for_each_invariant I); [ | exact Hin].
    intros icpu [[g o] c] [[g' o'] c'] _ Hbody [[A0 A1] [B0 B1]].
    unfold I. simpl in *. unfold read_offset_body in Hbody.
    apply bind_Ok in Hbody as ([file_ilevel f1] & _ & Hbody).
    apply bind_Ok in Hbody as ([file_ncache f2] & _ & Hbody).
    destruct (file_ncache =? 0); [injection Hbody as <- <- <-; auto|].
    destruct (negb _); [no_raise|].
    destruct (ilevel >=? min_level);
      apply bind_Ok in Hbody as (f3 & _ & [= <- <- <-]); [|auto].
    destruct (set2_shape o icpu (ilevel - min_level) (tell f2)) as [E0 E1].
    destruct (set2_shape c icpu (ilevel - min_level) file_ncache) as [E2 E3].
    repeat split; congruence. }
  destruct HI as [[A0 A1] [B0 B1]]. simpl in *. repeat split; congruence.
Qed.

(** X10.  Tables without entries cannot be decoded.  When [read_offset] is
    asked for no level ([min_level] is [nlevelmax]) or the header declares
    no domain, it returns two tables of zero size; [fill_hydro] on those
    tables raises [ValueError] at [level_count.max()], although there is no
    block to decode. *)
Theorem fill_hydro_refuses_tables_without_entries
    f min_level domain_id nvar headers Nskip f' offset level_count
    cpu_enumerator ndim all_fields fields oct :
  read_offset f min_level domain_id nvar headers Nskip = Ok (f', offset, level_count) ->
  nlevelmax headers = min_level \/ nboundary headers + ncpu headers = 0 ->
  (count_true (requested all_fields fields) <= length fields)%nat ->
  fill_hydro f' offset level_count cpu_enumerator ndim all_fields fields oct
  = Raise ValueFault.
Proof.
  intros Hindex Hzero Hfields.
  apply read_offset_shapes in Hindex as ([_ Hws] & _ & [Hs0 Hs1]).
  assert (Hcells : cells level_count = []).
  { apply length_zero_iff_nil. rewrite Hws, Hs0, Hs1.
    destruct Hzero as [-> | ->]; [rewrite Z.sub_diag|]; simpl; lia. }
  destruct (build_jumps_first all_fields fields Hfields) as (jumps & ffi & Hj & Hffi).
  unfold fill_hydro. cbv zeta. rewrite Hj. step. rewrite Hffi. step.
  unfold np_max. rewrite Hcells. reflexivity.
Qed.

Lemma fill_hydro_refuses_tables_without_entries_witness :
  read_offset Sample.data_file 2 1 1 Sample.data_headers (-1)
    = Ok Scenario.data_indexed_none /\
  (nlevelmax Sample.data_headers = 2 \/
   nboundary Sample.data_headers + ncpu Sample.data_headers = 0) /\
  (count_true (requested ["density"%string] ["density"%string])
   <= length ["density"%string])%nat /\
  fill_hydro (fst (fst Scenario.data_indexed_none))
    (snd (fst Scenario.data_indexed_none)) (snd Scenario.data_indexed_none)
    [0] 1 ["density"%string] ["density"%string] [] = Raise ValueFault.
Proof.
  assert (H1 : read_offset Sample.data_file 2 1 1 Sample.data_headers (-1)
               = Ok (fst (fst Scenario.data_indexed_none),
                     snd (fst Scenario.data_indexed_none),
                     snd Scenario.data_indexed_none)) by (vm_compute; reflexivity).
  assert (H2 : nlevelmax Sample.data_headers = 2 \/
               nboundary Sample.data_headers + ncpu Sample.data_headers = 0)
    by (left; reflexivity).
  assert (H3 : (count_true (requested ["density"%string] ["density"%string])
                <= length ["density"%string])%nat) by (vm_compute; lia).
  split; [exact H1|]. split; [exact H2|]. split; [exact H3|].
  exact (fill_hydro_refuses_tables_without_entries _ _ _ _ _ _ _ _ _ [0] 1
           ["density"%string] ["density"%string] [] H1 H2 H3).
Defined.
(** ** [fill_hydro]: what reaches the index, block by block *)

(** A loop whose iterations all end normally, keep an invariant and append
    to a log what a relation [Q] pairs with the items they process. *)
Lemma for_each_handoffs {X S L Y} (I : S -> Prop) (log : S -> list L)
    (g : X -> list Y) (Q : Y -> L -> Prop) (xs : list X) (body : X -> S -> result S) :
  (forall x s, In x xs -> I s ->
     exists s' l, body x s = Ok s' /\ I s' /\ log s' = log s ++ l /\ Forall2 Q (g x) l) ->
  forall s, I s ->
    exists s' l, for_each xs body s = Ok s' /\ I s' /\ log s' = log s ++ l /\
                 Forall2 Q (flat_map g xs) l.
Proof.
  induction xs as [|x xs IH]; intros Hbody s Hs.
  - exists s, []. simpl. rewrite app_nil_r. repeat split; auto.
  - destruct (Hbody x s (or_introl eq_refl) Hs) as (s1 & l1 & H1 & HI1 & Hlog1 & HQ1).
    destruct (IH (fun y t Hy => Hbody y t (or_intror Hy)) s1 HI1)
      as (s2 & l2 & H2 & HI2 & Hlog2 & HQ2).
    exists s2, (l1 ++ l2). simpl. rewrite H1. step.
    split; [exact H2|]. split; [exact HI2|].
    split; [now rewrite Hlog2, Hlog1, app_assoc|].
    now apply Forall2_app.
Qed.

Lemma read_vector_contents (f f' : FortranFile) (vs : list float64) :
  read_vector f = Ok (vs, f') -> contents f' = contents f.
Proof.
  unfold read_vector. intros H. apply bind_Ok in H as ([payload f1] & Hrec & H).
  destruct (_ =? _)%nat; [|discriminate]. injection H as _ <-.
  now apply read_record_Ok in Hrec.
Qed.

(** Decoding never changes the bytes of the file. *)
Lemma decode_block_contents jumps first_field_index twotondim nfields_selected nc
    offset f buffer f' jump_len buffer' :
  decode_block jumps first_field_index twotondim nfields_selected nc offset f buffer
    = Ok (f', jump_len, buffer') ->
  contents f' = contents f.
Proof.
  unfold decode_block. intros H. apply bind_Ok in H as (f0 & Hseek & H).
  apply seek_Ok in Hseek. rewrite <- Hseek.
  set (J := fun st : field_state => contents (fst (fst st)) = contents f0).
  change (J (f', jump_len, buffer')).
  eapply (for_each_invariant J); [ | exact H | reflexivity].
  intros i [[g jl] b] [[g' jl'] b'] _ Hsub HJ. unfold J in *. simpl in *.
  unfold read_subcell in Hsub.
  apply bind_Ok in Hsub as ([[g1 jl1] b1] & Hfields & Hsub).
  apply bind_Ok in Hsub as (jmp & _ & [= <- _ _]).
  change (J (g1, jl1, b1)).
  eapply (for_each_invariant J); [ | exact Hfields | exact HJ].
  intros j [[h jl0] b0] [[h' jl0'] b0'] _ Hfield HJ0. unfold J in *. simpl in *.
  unfold read_field in Hfield.
  apply bind_Ok in Hfield as (jmp0 & _ & Hfield).
  apply bind_Ok in Hfield as ([h1 jl2] & Hseek1 & Hfield).
  apply bind_Ok in Hfield as ([vs h2] & Hread & Hfield).
  apply bind_Ok in Hfield as (b2 & _ & [= <- _ _]).
  apply read_vector_contents in Hread. rewrite Hread.
  destruct (_ >? 0).
  - apply bind_Ok in Hseek1 as (h3 & Hs & [= <- _]). apply seek_Ok in Hs. congruence.
  - injection Hseek1 as <- _. exact HJ0.
Qed.

(** Decoding keeps the dimensions and the allocation of the buffer. *)
Lemma decode_block_same_dims jumps first_field_index twotondim nfields_selected nc
    offset f buffer f' jump_len buffer' :
  decode_block jumps first_field_index twotondim nfields_selected nc offset f buffer
    = Ok (f', jump_len, buffer') ->
  buffer_allocated buffer -> same_dims buffer buffer'.
Proof.
  unfold decode_block. intros H Halloc. apply bind_Ok in H as (f0 & _ & H).
  set (J := fun st : field_state => same_dims buffer (snd st)).
  change (J (f', jump_len, buffer')).
  assert (HJ0 : J (f0, - first_field_index, buffer)) by (unfold J, same_dims; simpl; auto).
  eapply (for_each_invariant J); [ | exact H | exact HJ0].
  intros i [[g jl] b] [[g' jl'] b'] _ Hsub HJ. unfold J in *. simpl in *.
  unfold read_subcell in Hsub.
  apply bind_Ok in Hsub as ([[g1 jl1] b1] & Hfields & Hsub).
  apply bind_Ok in Hsub as (jmp & _ & [= _ _ <-]).
  change (J (g1, jl1, b1)).
  eapply (for_each_invariant J); [ | exact Hfields | exact HJ].
  intros j [[h jl0] b0] [[h' jl0'] b0'] _ Hfield (D0 & D1 & D2 & Ha).
  unfold J, same_dims in *. simpl in *.
  unfold read_field in Hfield.
  apply bind_Ok in Hfield as (jmp0 & _ & Hfield).
  apply bind_Ok in Hfield as ([h1 jl2] & _ & Hfield).
  apply bind_Ok in Hfield as ([vs h2] & _ & Hfield).
  apply bind_Ok in Hfield as (b2 & Hw & [= _ _ <-]).
  apply write_vector_dims in Hw as (E0 & E1 & E2 & Hmem & Hfit).
  unfold buffer_allocated in *.
  repeat split; try congruence.
  rewrite Hmem, E0, E1, E2, !length_app, length_fmap, length_take, length_drop.
  rewrite D0, D1, D2. lia.
Qed.

Lemma same_dims_trans (a b c : decode_buffer) :
  same_dims a b -> same_dims b c -> same_dims a c.
Proof. unfold same_dims. intros (A0 & A1 & A2 & _) (B0 & B1 & B2 & Hc). repeat split; congruence. Qed.

(** One iteration of the loops of [fill_hydro], on tables that describe the
    file. *)
Lemma fill_hydro_body_delivers
    (all_fields fields : list string) (offsets level_count : ndarray2)
    (cpu_list : list Z) (ndim : Z) (disk : Z -> Z -> list (list (list float64)))
    (c0 : list byte) (buffer0 : decode_buffer)
    (first_field_index ilevel ii icpu : Z) (f : FortranFile) (buffer : decode_buffer)
    (oct : oct_handler) :
  NoDup all_fields -> in_catalogue_order all_fields fields ->
  decodable_tables (length all_fields) offsets level_count ->
  (forall ilevel icpu nc offset,
      lookup2 level_count icpu ilevel = Some nc ->
      lookup2 offsets icpu ilevel = Some offset ->
      nc <> 0 -> offset <> -1 ->
      block_on_disk c0 (length all_fields) (2 ^ ndim) offset nc (disk ilevel icpu)) ->
  array_get (skip_distances 0 (requested all_fields fields)) 0 = Ok first_field_index ->
  0 <= ilevel < Z.of_nat (shape1 offsets) ->
  0 <= ii -> cpu_list !! Z.to_nat ii = Some icpu ->
  0 <= icpu < Z.of_nat (shape0 level_count) ->
  contents f = c0 -> same_dims buffer0 buffer ->
  Forall (fun nc => nc <= Z.of_nat (dim0 buffer0)) (cells level_count) ->
  2 ^ ndim <= Z.of_nat (dim1 buffer0) ->
  (length fields <= dim2 buffer0)%nat ->
  exists f' buffer' calls,
    fill_hydro_body offsets level_count cpu_list
      (skip_distances 0 (requested all_fields fields)) first_field_index (2 ^ ndim)
      fields ilevel ii (f, buffer, oct) = Ok (f', buffer', oct ++ calls) /\
    contents f' = c0 /\ same_dims buffer0 buffer' /\
    Forall2 (delivers_block all_fields fields (Z.of_nat (length cpu_list)) level_count disk)
      (if block_present offsets level_count ilevel (wrap32 icpu)
       then [(ilevel, wrap32 icpu)] else [])
      calls.
Proof.
  intros Hnodup Horder (Hs0 & Hs1 & Hwo & Hwc & Hrows & _ & Hcounts) Hdisk Hffi
    Hlevel Hii Hcpu Hicpu Hc Hdims Hfit0 Hfit1 Hfit2.
  unfold fill_hydro_body, array_get.
  destruct (Z.ltb_spec ii 0); [lia|]. rewrite Hcpu. cbn [from_option]. step.
  assert (Hw : wrap32 icpu = icpu) by (apply wrap32_small; int_lia).
  rewrite Hw.
  assert (Hin_c : in_bounds level_count icpu ilevel = true)
    by (apply in_bounds_spec; lia).
  assert (Hin_o : in_bounds offsets icpu ilevel = true)
    by (apply in_bounds_spec; lia).
  destruct (lookup_lt_is_Some_2 (cells level_count) (flat_index level_count icpu ilevel))
    as [nc Hnc]; [rewrite Hwc; now apply flat_index_lt|].
  destruct (lookup_lt_is_Some_2 (cells offsets) (flat_index offsets icpu ilevel))
    as [offset Hoff]; [rewrite Hwo; now apply flat_index_lt|].
  assert (Hl_c : lookup2 level_count icpu ilevel = Some nc)
    by (unfold lookup2; now rewrite Hin_c).
  assert (Hl_o : lookup2 offsets icpu ilevel = Some offset)
    by (unfold lookup2; now rewrite Hin_o).
  unfold get2, block_present. rewrite Hin_c, Hin_o, Hnc, Hoff. rewrite Hl_c, Hl_o.
  cbn [from_option]. step.
  destruct (Forall_lookup_1 _ _ _ _ Hcounts Hnc) as (Hnc0 & Hnc2).
  assert (Hwnc : wrap32 nc = nc) by (apply wrap32_small; int_lia).
  rewrite Hwnc.
  destruct (Z.eqb_spec nc 0) as [Hz | Hnz].
  { exists f, buffer, []. rewrite app_nil_r.
    split; [reflexivity|]. split; [exact Hc|]. split; [exact Hdims|]. constructor. }
  destruct (Z.eqb_spec offset (-1)) as [Ho | Hno].
  { exists f, buffer, []. rewrite app_nil_r.
    split; [reflexivity|]. split; [exact Hc|]. split; [exact Hdims|]. constructor. }
  cbn [negb andb].
  destruct (Hdisk ilevel icpu nc offset Hl_c Hl_o Hnz Hno) as (Hoff0 & Hlen & Hwf & Hat).
  destruct Hdims as (D0 & D1 & D2 & Halloc).
  pose proof (Forall_lookup_1 _ _ _ _ Hfit0 Hnc) as Hnc_fit. cbv beta in Hnc_fit.
  rewrite <- Hc in Hat.
  destruct (decode_block_delivers_named_records all_fields fields (2 ^ ndim) nc offset
              (disk ilevel icpu) f buffer Hnodup Horder ltac:(lia) Hoff0 (Hnc2 Hnz) Hlen Hwf Hat
              Halloc ltac:(lia) ltac:(lia) ltac:(lia))
    as (jumps & ffi & f' & jl & b' & Hbuild & Hffi' & Hrun & Hnamed).
  destruct (build_jumps_spec all_fields fields (in_catalogue_order_once _ _ Horder))
    as [Hbuild' _].
  rewrite Hbuild' in Hbuild. injection Hbuild as <-.
  rewrite Hffi in Hffi'. injection Hffi' as <-.
  rewrite Hrun. step.
  eexists f', b', [_]. split; [reflexivity|].
  split; [rewrite <- Hc; eapply decode_block_contents; exact Hrun|].
  split.
  { eapply same_dims_trans; [unfold same_dims; eauto|].
    eapply decode_block_same_dims; eauto. }
  constructor; [|constructor].
  exists nc. split; [exact Hl_c|]. cbn [fst snd].
  assert (Hw1 : wrap32 (icpu + 1) = icpu + 1) by (apply wrap32_small; int_lia).
  split.
  - unfold handoff_route. destruct (_ >? 1); simpl; [now rewrite Hw1 | reflexivity].
  - exists (alias_buffer fields b'). split; [destruct (_ >? 1); reflexivity|].
    intros x Hx. apply list_elem_of_In, list_elem_of_lookup_1 in Hx as [j Hj].
    destruct (Hnamed j x Hj) as [Halias Hrows'].
    exists (buffer_slice b' j). split; [exact Halias|]. exact Hrows'.
Qed.

(** The run of [fill_hydro] on tables that describe the file. *)
Lemma fill_hydro_delivery
    (f : FortranFile) (offsets level_count : ndarray2) (cpu_enumerator : list Z)
    (ndim : Z) (all_fields fields : list string) (oct : oct_handler)
    (disk : Z -> Z -> list (list (list float64))) :
  NoDup all_fields -> in_catalogue_order all_fields fields ->
  decodable_tables (length all_fields) offsets level_count ->
  Forall (fun icpu => 0 <= icpu < Z.of_nat (shape0 level_count)) cpu_enumerator ->
  (forall ilevel icpu nc offset,
      lookup2 level_count icpu ilevel = Some nc ->
      lookup2 offsets icpu ilevel = Some offset ->
      nc <> 0 -> offset <> -1 ->
      block_on_disk (contents f) (length all_fields) (2 ^ ndim) offset nc
        (disk ilevel icpu)) ->
  exists f' buffer' calls,
    fill_hydro f offsets level_count cpu_enumerator ndim all_fields fields oct
      = Ok (f', buffer', oct ++ calls) /\
    Forall2 (delivers_block all_fields fields (Z.of_nat (length cpu_enumerator))
               level_count disk)
      (processed_blocks offsets level_count cpu_enumerator) calls.
Proof.
  intros Hnodup Horder Htables Hcpus Hdisk.
  pose proof Htables as (Hs0 & Hs1 & Hwo & Hwc & Hrows & Hnonempty & Hcounts).
  set (req := requested all_fields fields).
  destruct (build_jumps_spec all_fields fields (in_catalogue_order_once _ _ Horder))
    as [Hbuild _]. fold req in Hbuild.
  destruct (skip_distances_cons 0 req) as (ffi & ds & Hds & _).
  assert (Hffi : array_get (skip_distances 0 req) 0 = Ok ffi) by now rewrite Hds.
  unfold fill_hydro. cbv zeta. rewrite Hbuild. step. rewrite Hffi. step.
  destruct (cells level_count) as [|x xs] eqn:Hcells; [contradiction|].
  unfold np_max. rewrite Hcells. step.
  set (dim := fold_left Z.max xs x).
  destruct (fold_left_max_ge xs x) as [Hx Hxs]. fold dim in Hx, Hxs.
  assert (Hdim : 0 <= dim).
  { apply Forall_cons in Hcounts as [[Hx0 _] _]. lia. }
  assert (Hpow : 0 <= 2 ^ ndim) by (apply Z.pow_nonneg; lia).
  unfold np_empty3.
  destruct (Z.ltb_spec dim 0); [lia|].
  destruct (Z.ltb_spec (2 ^ ndim) 0); [lia|].
  destruct (Z.ltb_spec (Z.of_nat (length fields)) 0); [lia|].
  cbn [orb]. step.
  set (buffer0 := mk_buffer (Z.to_nat dim) (Z.to_nat (2 ^ ndim))
                    (Z.to_nat (Z.of_nat (length fields)))
                    (replicate (Z.to_nat dim * Z.to_nat (2 ^ ndim)
                                * Z.to_nat (Z.of_nat (length fields))) None)).
  assert (Halloc : same_dims buffer0 buffer0).
  { unfold same_dims, buffer_allocated, buffer0. simpl.
    rewrite length_replicate. auto. }
  assert (Hfit0 : Forall (fun nc => nc <= Z.of_nat (dim0 buffer0)) (x :: xs)).
  { simpl. rewrite Z2Nat.id by lia. constructor; assumption. }
  set (Q := delivers_block all_fields fields (Z.of_nat (length cpu_enumerator))
              level_count disk).
  set (I := fun st : hydro_state =>
    contents (fst (fst st)) = contents f /\ same_dims buffer0 (snd (fst st))).
  set (h := fun ilevel icpu =>
    if block_present offsets level_count ilevel (wrap32 icpu)
    then [(ilevel, wrap32 icpu)] else []).
  destruct (for_each_handoffs I snd (fun ilevel => flat_map (h ilevel) cpu_enumerator) Q
              (range (Z.of_nat (shape1 offsets)))
              (fun ilevel => for_each (range (Z.of_nat (length cpu_enumerator)))
                 (fill_hydro_body offsets level_count cpu_enumerator
                    (skip_distances 0 req) ffi (2 ^ ndim) fields ilevel)))
    with (s := (f, buffer0, oct)) as ([[f' b'] oct'] & calls & Hrun & _ & Hlog & HQ).
  - intros ilevel s Hilevel Hs. apply range_spec in Hilevel.
    rewrite <- (flat_map_range_lookup cpu_enumerator (h ilevel)).
    apply (for_each_handoffs I snd); [|exact Hs].
    intros ii [[g b] o] Hii [HC HD]. apply range_spec in Hii. simpl in HC, HD.
    destruct (lookup_lt_is_Some_2 cpu_enumerator (Z.to_nat ii) ltac:(lia))
      as [icpu Hicpu].
    rewrite Hicpu.
    pose proof (Forall_lookup_1 _ _ _ _ Hcpus Hicpu) as Hrange. cbv beta in Hrange.
    destruct (fill_hydro_body_delivers all_fields fields offsets level_count
                cpu_enumerator ndim disk (contents f) buffer0 ffi ilevel ii icpu g b o
                Hnodup Horder Htables Hdisk Hffi Hilevel ltac:(lia) Hicpu Hrange HC HD
                ltac:(rewrite Hcells; exact Hfit0)
                ltac:(simpl; lia) ltac:(simpl; lia))
      as (g' & b1 & l & Hbody & HC' & HD' & HQ').
    exists (g', b1, o ++ l), l. unfold I. simpl. auto.
  - unfold I. simpl. auto.
  - simpl in Hlog. subst oct'. exists f', b', calls. split; [exact Hrun|]. exact HQ.
Qed.

(** X11.  What [fill_hydro] hands to the index.  The tables are decodable
    ([decodable_tables]): of one shape, not empty, with fewer than [2^31]
    rows, and with record counts from 0 to [2^31 - 1] for which, where the
    count is not zero, the records of one sub-cell, with their markers, take
    less than 2 GiB ([len(all_fields) * (nc * 8 + 8)] is an [int]).  The
    tables describe the file: wherever they hold a record count other than 0
    and an offset other than -1, the payload of a block lies at that offset,
    [2^ndim] sub-cells with one record of that many doubles per field of the
    catalogue.  The catalogue has no duplicate, the request names fields of
    the catalogue in on-disk order, and the selected domains are rows of the
    tables.  Then
    [fill_hydro] ends normally and calls the index once for every such block
    of the selected domains, level by level and domain by domain; the call
    takes the route of the block, and its dictionary holds under every
    requested name the values of that field: row [c], column [i] of the
    slice is the [c]-th double of the field's record in sub-cell [i], for
    every row below the record count of the block. *)
Theorem fill_hydro_delivers_every_block
    (f : FortranFile) (offsets level_count : ndarray2) (cpu_enumerator : list Z)
    (ndim : Z) (all_fields fields : list string) (oct : oct_handler)
    (disk : Z -> Z -> list (list (list float64))) :
  NoDup all_fields -> in_catalogue_order all_fields fields ->
  decodable_tables (length all_fields) offsets level_count ->
  Forall (fun icpu => 0 <= icpu < Z.of_nat (shape0 level_count)) cpu_enumerator ->
  (forall ilevel icpu nc offset,
      lookup2 level_count icpu ilevel = Some nc ->
      lookup2 offsets icpu ilevel = Some offset ->
      nc <> 0 -> offset <> -1 ->
      block_on_disk (contents f) (length all_fields) (2 ^ ndim) offset nc
        (disk ilevel icpu)) ->
  exists f' buffer' calls,
    fill_hydro f offsets level_count cpu_enumerator ndim all_fields fields oct
      = Ok (f', buffer', oct ++ calls) /\
    Forall2 (delivers_block all_fields fields (Z.of_nat (length cpu_enumerator))
               level_count disk)
      (processed_blocks offsets level_count cpu_enumerator) calls.
Proof.
  intros Hnodup Horder Htables Hcpus Hdisk.
  destruct (fill_hydro_delivery f offsets level_count cpu_enumerator ndim all_fields
              fields oct disk Hnodup Horder Htables Hcpus Hdisk)
    as (f' & buffer' & calls & Hrun & Hcalls).
  exists f', buffer', calls. split; [exact Hrun | exact Hcalls].
Qed.

Lemma fill_hydro_delivers_every_block_witness :
  NoDup Sample.hydro_fields /\
  in_catalogue_order Sample.hydro_fields ["pressure"%string] /\
  decodable_tables (length Sample.hydro_fields) Sample.hydro2_offsets
    Sample.hydro2_counts /\
  Forall (fun icpu => 0 <= icpu < Z.of_nat (shape0 Sample.hydro2_counts)) [0; 1] /\
  (forall ilevel icpu nc offset,
      lookup2 Sample.hydro2_counts icpu ilevel = Some nc ->
      lookup2 Sample.hydro2_offsets icpu ilevel = Some offset ->
      nc <> 0 -> offset <> -1 ->
      block_on_disk (contents Sample.hydro2_file) (length Sample.hydro_fields)
        (2 ^ 1) offset nc (Scenario.hydro2_disk ilevel icpu)) /\
  exists f' buffer' calls,
    fill_hydro Sample.hydro2_file Sample.hydro2_offsets Sample.hydro2_counts [0; 1] 1
      Sample.hydro_fields ["pressure"%string] [] = Ok (f', buffer', [] ++ calls) /\
    Forall2 (delivers_block Sample.hydro_fields ["pressure"%string]
               (Z.of_nat (length [0; 1])) Sample.hydro2_counts Scenario.hydro2_disk)
      (processed_blocks Sample.hydro2_offsets Sample.hydro2_counts [0; 1]) calls.
Proof.
  assert (H1 : NoDup Sample.hydro_fields).
  { apply (bool_decide_unpack _). vm_compute. exact I. }
  assert (H2 : in_catalogue_order Sample.hydro_fields ["pressure"%string])
    by reflexivity.
  assert (H3 : decodable_tables (length Sample.hydro_fields) Sample.hydro2_offsets
                 Sample.hydro2_counts).
  { unfold decodable_tables, well_shaped. simpl.
    repeat split; try reflexivity; try lia; try discriminate.
    repeat constructor; vm_compute; congruence. }
  assert (H4 : Forall (fun icpu => 0 <= icpu < Z.of_nat (shape0 Sample.hydro2_counts))
                 [0; 1]) by (repeat constructor; simpl; lia).
  assert (H5 : forall ilevel icpu nc offset,
             lookup2 Sample.hydro2_counts icpu ilevel = Some nc ->
             lookup2 Sample.hydro2_offsets icpu ilevel = Some offset ->
             nc <> 0 -> offset <> -1 ->
             block_on_disk (contents Sample.hydro2_file) (length Sample.hydro_fields)
               (2 ^ 1) offset nc (Scenario.hydro2_disk ilevel icpu)).
  { intros ilevel icpu nc offset Hc Ho _ _. unfold lookup2 in Hc, Ho.
    destruct (in_bounds Sample.hydro2_counts icpu ilevel) eqn:E; [|discriminate].
    apply in_bounds_spec in E. simpl in E.
    assert (Hl : ilevel = 0) by lia. subst ilevel.
    assert (Hd : icpu = 0 \/ icpu = 1) by lia.
    destruct Hd; subst icpu; simpl in Hc, Ho; injection Hc as <-; injection Ho as <-;
      (split; [lia|]); (split; [reflexivity|]);
      (split; [repeat constructor|]); (split; [vm_compute; lia | reflexivity]). }
  repeat (split; [assumption|]).
  exact (fill_hydro_delivers_every_block Sample.hydro2_file Sample.hydro2_offsets
           Sample.hydro2_counts [0; 1] 1 Sample.hydro_fields ["pressure"%string] []
           Scenario.hydro2_disk H1 H2 H3 H4 H5).
Defined.
(** ** [read_offset] then [fill_hydro]: from the bytes of a section to the index *)






(** ** [read_amr]: one block of the topology section *)

(** [f.skip(n)] over [n] records that lie at the cursor. *)
Lemma skip_records (payloads : list (list byte)) :
  forall (f : FortranFile),
    Forall marker_fits payloads ->
    bytes_at (contents f) (cursor f) (flat_map record payloads) ->
    exists f',
      skip f (Z.of_nat (length payloads)) = Ok f' /\
      contents f' = contents f /\
      cursor f' = (cursor f + length (flat_map record payloads))%nat.
Proof.
  unfold skip. rewrite range_of_nat.
  generalize (seq 0 (length payloads)) (length_seq (length payloads) 0).
  induction payloads as [|p payloads IH]; intros idx Hidx f Hfit Hat.
  - destruct idx; [|discriminate]. exists f. simpl. repeat split; auto; lia.
  - destruct idx as [|i idx]; [discriminate|]. simpl in Hidx. injection Hidx as Hidx.
    apply Forall_cons in Hfit as [Hp Hfit].
    cbn [flat_map] in Hat. apply bytes_at_app in Hat as [Hat_p Hat_rest].
    cbn [map for_each]. rewrite (read_record_at f p Hp Hat_p). step.
    rewrite length_record in Hat_rest.
    destruct (IH idx Hidx (mk_file (contents f) (cursor f + (8 + length p))
                             (io_log f ++ [EvRead (cursor f) (length p)]) (name f)) Hfit Hat_rest)
      as (f' & Hrun & Hc & Hp').
    exists f'. split; [exact Hrun|]. split; [exact Hc|].
    rewrite Hp'. cbn [flat_map contents cursor]. rewrite length_app, length_record. lia.
Qed.

(** Three columns written one after the other make the rows. *)
Lemma set_columns_rows (rows : list position) :
  forall (xs ys zs : list float64),
    length xs = length rows -> length ys = length rows -> length zs = length rows ->
    zip_with (set_column 2)
      (zip_with (set_column 1) (zip_with (set_column 0) rows xs) ys) zs
    = grid_rows xs ys zs.
Proof.
  unfold grid_rows.
  induction rows as [|[[a b] c] rows IH]; intros [|x xs] [|y ys] [|z zs] Hx Hy Hz;
    try discriminate; [reflexivity|].
  simpl. f_equal. apply IH; simpl in *; lia.
Qed.

Lemma assign_column_rows (pos : list position) (ng : Z) (c : nat) (vs : list float64) :
  0 < ng -> Z.of_nat (length vs) = ng -> ng <= Z.of_nat (length pos) ->
  assign_column pos ng c vs
  = Ok (zip_with (set_column c) (take (Z.to_nat ng) pos) vs ++ drop (Z.to_nat ng) pos).
Proof.
  intros Hng Hvs Hpos. unfold assign_column, py_stop.
  destruct (Z.ltb_spec ng 0); [lia|].
  rewrite Nat.min_l by lia.
  destruct (Nat.eqb_spec (length vs) (Z.to_nat ng)); [reflexivity | lia].
Qed.

Lemma column_written (pos : list position) (m c : nat) (vs : list float64) :
  length vs = m -> (m <= length pos)%nat ->
  let pos' := zip_with (set_column c) (take m pos) vs ++ drop m pos in
  take m pos' = zip_with (set_column c) (take m pos) vs /\
  length pos' = length pos.
Proof.
  intros Hvs Hm. cbv zeta.
  assert (Hlen : length (zip_with (set_column c) (take m pos) vs) = m).
  { rewrite length_zip_with_l_eq; rewrite length_take; lia. }
  split.
  - now apply take_app_length'.
  - rewrite length_app, Hlen, length_drop. lia.
Qed.

Lemma length_recentred fsub (h : float64) (vs : list float64) :
  length (recentred fsub h vs) = length vs.
Proof. unfold recentred, read_back. now rewrite !length_fmap. Qed.

Lemma grid_count_get (headers : Headers) (ngridbound : list Z) (ilevel icpu ng : Z) :
  grid_count headers ngridbound ilevel icpu = Some ng ->
  (if icpu <? ncpu headers then get2 (numbl headers) ilevel icpu
   else array_get ngridbound (icpu - ncpu headers + nboundary headers * ilevel))
  = Ok ng.
Proof.
  unfold grid_count, get2, lookup2, array_get.
  destruct (icpu <? ncpu headers).
  - destruct (in_bounds _ _ _); [|discriminate]. now intros ->.
  - destruct (_ <? 0); [discriminate|]. now intros ->.
Qed.

(** One iteration of the loops of [read_amr] on a non-empty block that lies
    at the cursor. *)
Lemma read_amr_body_at fsub half_extent oct_add headers ngridbound
    min_level ilevel icpu st g ng :
  grid_count headers ngridbound ilevel icpu = Some ng ->
  0 < ng -> 0 <= ndim headers ->
  well_formed_grids (ndim headers) ng g ->
  bytes_at (contents (amr_file st)) (cursor (amr_file st)) (encode_grid_block g) ->
  Z.of_nat (length (amr_pos st)) = amr_buffer_size st ->
  let grids := grid_positions fsub half_extent headers g in
  let n := oct_add (amr_oct st) (icpu + 1) (ilevel - min_level) grids 1 in
  exists f' pos',
    read_amr_body fsub half_extent oct_add headers ngridbound min_level ilevel icpu st
    = Ok (if ilevel >=? min_level
          then mk_amr f'
                 (amr_oct st ++ [OctAdd (icpu + 1) (ilevel - min_level) grids 1 n])
                 pos' (Z.max ng (amr_buffer_size st))
                 (if n >? 0 then Z.max (ilevel - min_level) (amr_max_level st)
                  else amr_max_level st)
          else mk_amr f' (amr_oct st) pos' (Z.max ng (amr_buffer_size st))
                 (amr_max_level st)) /\
    contents f' = contents (amr_file st) /\
    cursor f' = (cursor (amr_file st) + length (encode_grid_block g))%nat /\
    Z.of_nat (length pos') = Z.max ng (amr_buffer_size st).
Proof.
  intros Hcount Hng Hndim (Hl3 & Hlfit & Hxs & Hys & Hzs & Hsize & Hmeta & Hmfit)
    Hat Hbuf. cbv zeta.
  unfold grid_positions, read_amr_body.
  destruct (nx headers) as [[nx ny] nz].
  rewrite (grid_count_get _ _ _ _ _ Hcount). step.
  assert (Hw : wrap32 ng = ng) by (apply wrap32_small; int_lia). rewrite Hw.
  destruct (Z.eqb_spec ng 0); [lia|].
  unfold encode_grid_block in Hat.
  apply bytes_at_app in Hat as [Hat_l Hat].
  destruct (skip_records (g_linkage g) (amr_file st) Hlfit Hat_l) as (f1 & Hskip & C1 & P1).
  rewrite Hl3 in Hskip. change (Z.of_nat 3) with 3 in Hskip. rewrite Hskip. step.
  (* the coordinate array *)
  set (choice := if ng >? amr_buffer_size st then (np_empty_pos ng, ng)
                 else (amr_pos st, amr_buffer_size st)).
  assert (Hchoice : exists pos0, choice = (pos0, Z.max ng (amr_buffer_size st)) /\
                                 Z.of_nat (length pos0) = Z.max ng (amr_buffer_size st)).
  { unfold choice. destruct (Z.gtb_spec ng (amr_buffer_size st)).
    - exists (np_empty_pos ng). rewrite Z.max_l by lia. split; [reflexivity|].
      unfold np_empty_pos. rewrite length_replicate. lia.
    - exists (amr_pos st). rewrite Z.max_r by lia. split; [reflexivity | exact Hbuf]. }
  destruct Hchoice as (pos0 & -> & Hpos0).
  set (m := Z.to_nat ng).
  assert (Lx : length (recentred fsub (half_extent nx) (g_xs g)) = m)
    by (rewrite length_recentred; unfold m; lia).
  assert (Ly : length (recentred fsub (half_extent ny) (g_ys g)) = m)
    by (rewrite length_recentred; unfold m; lia).
  assert (Lz : length (recentred fsub (half_extent nz) (g_zs g)) = m)
    by (rewrite length_recentred; unfold m; lia).
  (* x *)
  rewrite <- C1, <- P1 in Hat. apply bytes_at_app in Hat as [Hat_x Hat].
  destruct (read_vector_here f1 ng (g_xs g) Hxs Hsize Hat_x) as (f2 & Hrx & C2 & P2 & _).
  rewrite Hrx. step. fold (recentred fsub (half_extent nx) (g_xs g)).
  rewrite assign_column_rows; [ | lia | rewrite Lx; unfold m; lia | lia]. step.
  rewrite (length_record_of ng _ Hxs) in Hat. rewrite <- C2, <- P2 in Hat.
  fold m.
  destruct (column_written pos0 m 0 (recentred fsub (half_extent nx) (g_xs g)))
    as [Tx Lx']; [exact Lx | lia |].
  set (pos1 := zip_with (set_column 0) (take m pos0) _ ++ drop m pos0) in *.
  (* y *)
  apply bytes_at_app in Hat as [Hat_y Hat].
  destruct (read_vector_here f2 ng (g_ys g) Hys Hsize Hat_y) as (f3 & Hry & C3 & P3 & _).
  rewrite Hry. step. fold (recentred fsub (half_extent ny) (g_ys g)).
  rewrite assign_column_rows; [ | lia | rewrite Ly; unfold m; lia | lia]. step.
  rewrite (length_record_of ng _ Hys) in Hat. rewrite <- C3, <- P3 in Hat.
  fold m.
  destruct (column_written pos1 m 1 (recentred fsub (half_extent ny) (g_ys g)))
    as [Ty Ly']; [exact Ly | lia |].
  set (pos2 := zip_with (set_column 1) (take m pos1) _ ++ drop m pos1) in *.
  (* z *)
  apply bytes_at_app in Hat as [Hat_z Hat].
  destruct (read_vector_here f3 ng (g_zs g) Hzs Hsize Hat_z) as (f4 & Hrz & C4 & P4 & _).
  rewrite Hrz. step. fold (recentred fsub (half_extent nz) (g_zs g)).
  rewrite assign_column_rows; [ | lia | rewrite Lz; unfold m; lia | lia]. step.
  rewrite (length_record_of ng _ Hzs) in Hat. rewrite <- C4, <- P4 in Hat.
  fold m.
  destruct (column_written pos2 m 2 (recentred fsub (half_extent nz) (g_zs g)))
    as [Tz Lz']; [exact Lz | lia |].
  set (pos3 := zip_with (set_column 2) (take m pos2) _ ++ drop m pos2) in *.
  (* the metadata *)
  destruct (skip_records (g_metadata g) f4 Hmfit Hat) as (f5 & Hskip5 & C5 & P5).
  replace (1 + 2 * ndim headers + 2 ^ ndim headers + 2 ^ ndim headers + 2 ^ ndim headers)
    with (Z.of_nat (length (g_metadata g))) by lia.
  rewrite Hskip5. step.
  assert (Hgrids : take (py_stop ng (length pos3)) pos3
                   = grid_rows (recentred fsub (half_extent nx) (g_xs g))
                       (recentred fsub (half_extent ny) (g_ys g))
                       (recentred fsub (half_extent nz) (g_zs g))).
  { unfold py_stop. destruct (Z.ltb_spec ng 0); [lia|].
    rewrite Nat.min_l by lia. fold m. rewrite Tz, Ty, Tx.
    apply set_columns_rows; rewrite length_take; lia. }
  exists f5, pos3. split.
  - rewrite Hgrids. destruct (ilevel >=? min_level); reflexivity.
  - split; [congruence|]. split; [|lia].
    rewrite P5, P4, P3, P2, P1. unfold encode_grid_block.
    rewrite !length_app, !(length_record_of ng) by assumption. lia.
Qed.

(** X13.  A non-empty block at a level from [min_level] on.  [read_amr]
    consumes the block (linkage, coordinates, metadata) and calls [add] once,
    for the domain [icpu + 1] at the level [ilevel - min_level], counting the
    boundary grids, with exactly the [ng] rows of the block: its three
    coordinate vectors, each re-centred by the half extent of its axis.  The
    rows that an earlier, larger block left in the coordinate array are not
    passed on. *)
Theorem read_amr_adds_block_coordinates
    fsub half_extent oct_add headers ngridbound min_level ilevel icpu st g ng :
  grid_count headers ngridbound ilevel icpu = Some ng ->
  0 < ng -> 0 <= ndim headers ->
  well_formed_grids (ndim headers) ng g ->
  bytes_at (contents (amr_file st)) (cursor (amr_file st)) (encode_grid_block g) ->
  Z.of_nat (length (amr_pos st)) = amr_buffer_size st ->
  min_level <= ilevel ->
  exists st',
    read_amr_body fsub half_extent oct_add headers ngridbound min_level ilevel icpu st
    = Ok st' /\
    cursor (amr_file st')
    = (cursor (amr_file st) + length (encode_grid_block g))%nat /\
    amr_oct st'
    = amr_oct st
      ++ [OctAdd (icpu + 1) (ilevel - min_level)
            (grid_positions fsub half_extent headers g) 1
            (oct_add (amr_oct st) (icpu + 1) (ilevel - min_level)
               (grid_positions fsub half_extent headers g) 1)] /\
    length (grid_positions fsub half_extent headers g) = Z.to_nat ng /\
    Z.of_nat (length (amr_pos st')) = amr_buffer_size st'.
Proof.
  intros Hcount Hng Hndim Hwf Hat Hbuf Hlevel.
  destruct (read_amr_body_at fsub half_extent oct_add headers ngridbound min_level
              ilevel icpu st g ng Hcount Hng Hndim Hwf Hat Hbuf)
    as (f' & pos' & Hrun & _ & Hcursor & Hpos).
  assert (Hge : (ilevel >=? min_level) = true) by lia. rewrite Hge in Hrun.
  eexists. split; [exact Hrun|]. simpl.
  split; [exact Hcursor|]. split; [reflexivity|]. split; [|exact Hpos].
  destruct Hwf as (_ & _ & Hxs & Hys & Hzs & _).
  unfold grid_positions, grid_rows. destruct (nx headers) as [[nx ny] nz].
  rewrite length_zip_with, length_zip, !length_recentred. lia.
Qed.

Lemma read_amr_adds_block_coordinates_witness :
  grid_count Sample.amr_headers [] 0 0 = Some 2 /\
  0 < 2 /\ 0 <= ndim Sample.amr_headers /\
  well_formed_grids (ndim Sample.amr_headers) 2 Scenario.amr_block0 /\
  bytes_at (contents (amr_file (Sample.amr_start Sample.amr_file)))
    (cursor (amr_file (Sample.amr_start Sample.amr_file)))
    (encode_grid_block Scenario.amr_block0) /\
  Z.of_nat (length (amr_pos (Sample.amr_start Sample.amr_file)))
  = amr_buffer_size (Sample.amr_start Sample.amr_file) /\
  0 <= 0 /\
  exists st',
    read_amr_body Sample.fsub Sample.half_extent Sample.add_all Sample.amr_headers []
      0 0 0 (Sample.amr_start Sample.amr_file) = Ok st' /\
    cursor (amr_file st')
    = (cursor (amr_file (Sample.amr_start Sample.amr_file))
       + length (encode_grid_block Scenario.amr_block0))%nat /\
    amr_oct st'
    = amr_oct (Sample.amr_start Sample.amr_file)
      ++ [OctAdd (0 + 1) (0 - 0)
            (grid_positions Sample.fsub Sample.half_extent Sample.amr_headers
               Scenario.amr_block0) 1
            (Sample.add_all (amr_oct (Sample.amr_start Sample.amr_file)) (0 + 1) (0 - 0)
               (grid_positions Sample.fsub Sample.half_extent Sample.amr_headers
                  Scenario.amr_block0) 1)] /\
    length (grid_positions Sample.fsub Sample.half_extent Sample.amr_headers
              Scenario.amr_block0) = Z.to_nat 2 /\
    Z.of_nat (length (amr_pos st')) = amr_buffer_size st'.
Proof.
  assert (H1 : grid_count Sample.amr_headers [] 0 0 = Some 2) by reflexivity.
  assert (H2 : 0 < 2) by lia.
  assert (H3 : 0 <= ndim Sample.amr_headers) by (simpl; lia).
  assert (H4 : well_formed_grids (ndim Sample.amr_headers) 2 Scenario.amr_block0).
  { unfold well_formed_grids, marker_fits, in_int32. simpl.
    repeat split; try reflexivity; try lia; repeat constructor; simpl; lia. }
  assert (H5 : bytes_at (contents (amr_file (Sample.amr_start Sample.amr_file)))
                 (cursor (amr_file (Sample.amr_start Sample.amr_file)))
                 (encode_grid_block Scenario.amr_block0))
    by (split; [vm_compute; lia | reflexivity]).
  assert (H6 : Z.of_nat (length (amr_pos (Sample.amr_start Sample.amr_file)))
               = amr_buffer_size (Sample.amr_start Sample.amr_file)) by reflexivity.
  assert (H7 : 0 <= 0) by lia.
  repeat (split; [assumption|]).
  exact (read_amr_adds_block_coordinates Sample.fsub Sample.half_extent Sample.add_all
           Sample.amr_headers [] 0 0 0 (Sample.amr_start Sample.amr_file)
           Scenario.amr_block0 2 H1 H2 H3 H4 H5 H6 H7).
Defined.

(** X14.  A non-empty block below [min_level].  [read_amr] still consumes
    the block, so that the blocks after it are found where they lie, but the
    index receives no call for it and the running maximum stays as it was. *)
Theorem read_amr_passes_block_below_min_level
    fsub half_extent oct_add headers ngridbound min_level ilevel icpu st g ng :
  grid_count headers ngridbound ilevel icpu = Some ng ->
  0 < ng -> 0 <= ndim headers ->
  well_formed_grids (ndim headers) ng g ->
  bytes_at (contents (amr_file st)) (cursor (amr_file st)) (encode_grid_block g) ->
  Z.of_nat (length (amr_pos st)) = amr_buffer_size st ->
  ilevel < min_level ->
  exists st',
    read_amr_body fsub half_extent oct_add headers ngridbound min_level ilevel icpu st
    = Ok st' /\
    cursor (amr_file st')
    = (cursor (amr_file st) + length (encode_grid_block g))%nat /\
    amr_oct st' = amr_oct st /\
    amr_max_level st' = amr_max_level st.
Proof.
  intros Hcount Hng Hndim Hwf Hat Hbuf Hlevel.
  destruct (read_amr_body_at fsub half_extent oct_add headers ngridbound min_level
              ilevel icpu st g ng Hcount Hng Hndim Hwf Hat Hbuf)
    as (f' & pos' & Hrun & _ & Hcursor & _).
  assert (Hlt : (ilevel >=? min_level) = false) by lia. rewrite Hlt in Hrun.
  eexists. split; [exact Hrun|]. simpl. auto.
Qed.

Lemma read_amr_passes_block_below_min_level_witness :
  grid_count Sample.amr_headers [] 0 0 = Some 2 /\
  0 < 2 /\ 0 <= ndim Sample.amr_headers /\
  well_formed_grids (ndim Sample.amr_headers) 2 Scenario.amr_block0 /\
  bytes_at (contents (amr_file (Sample.amr_start Sample.amr_file)))
    (cursor (amr_file (Sample.amr_start Sample.amr_file)))
    (encode_grid_block Scenario.amr_block0) /\
  Z.of_nat (length (amr_pos (Sample.amr_start Sample.amr_file)))
  = amr_buffer_size (Sample.amr_start Sample.amr_file) /\
  0 < 1 /\
  exists st',
    read_amr_body Sample.fsub Sample.half_extent Sample.add_all Sample.amr_headers []
      1 0 0 (Sample.amr_start Sample.amr_file) = Ok st' /\
    cursor (amr_file st')
    = (cursor (amr_file (Sample.amr_start Sample.amr_file))
       + length (encode_grid_block Scenario.amr_block0))%nat /\
    amr_oct st' = amr_oct (Sample.amr_start Sample.amr_file) /\
    amr_max_level st' = amr_max_level (Sample.amr_start Sample.amr_file).
Proof.
  assert (H1 : grid_count Sample.amr_headers [] 0 0 = Some 2) by reflexivity.
  assert (H2 : 0 < 2) by lia.
  assert (H3 : 0 <= ndim Sample.amr_headers) by (simpl; lia).
  assert (H4 : well_formed_grids (ndim Sample.amr_headers) 2 Scenario.amr_block0).
  { unfold well_formed_grids, marker_fits, in_int32. simpl.
    repeat split; try reflexivity; try lia; repeat constructor; simpl; lia. }
  assert (H5 : bytes_at (contents (amr_file (Sample.amr_start Sample.amr_file)))
                 (cursor (amr_file (Sample.amr_start Sample.amr_file)))
                 (encode_grid_block Scenario.amr_block0))
    by (split; [vm_compute; lia | reflexivity]).
  assert (H6 : Z.of_nat (length (amr_pos (Sample.amr_start Sample.amr_file)))
               = amr_buffer_size (Sample.amr_start Sample.amr_file)) by reflexivity.
  assert (H7 : 0 < 1) by lia.
  repeat (split; [assumption|]).
  exact (read_amr_passes_block_below_min_level Sample.fsub Sample.half_extent
           Sample.add_all Sample.amr_headers [] 1 0 0
           (Sample.amr_start Sample.amr_file) Scenario.amr_block0 2
           H1 H2 H3 H4 H5 H6 H7).
Defined.
(** ** [read_amr]: the topology section as a whole *)

Lemma read_amr_body_empty fsub half_extent oct_add headers ngridbound
    min_level ilevel icpu st :
  grid_count headers ngridbound ilevel icpu = Some 0 ->
  read_amr_body fsub half_extent oct_add headers ngridbound min_level ilevel icpu st
  = Ok st.
Proof.
  intros Hcount. unfold read_amr_body. destruct (nx headers) as [[nx ny] nz].
  rewrite (grid_count_get _ _ _ _ _ Hcount). reflexivity.
Qed.

(** The blocks of one level, from domain [d0] on. *)
Lemma read_amr_row fsub half_extent oct_add headers ngridbound min_level ilevel
    (rest : list (option grid_block)) :
  0 <= ndim headers ->
  forall (d0 : nat) (st : amr_state),
    (forall (k : nat) (o : option grid_block),
        rest !! k = Some o ->
        block_counted headers ngridbound ilevel (Z.of_nat (d0 + k)) o) ->
    bytes_at (contents (amr_file st)) (cursor (amr_file st)) (encode_topology_row rest) ->
    Z.of_nat (length (amr_pos st)) = amr_buffer_size st ->
    exists st' calls,
      for_each (map Z.of_nat (seq d0 (length rest)))
        (read_amr_body fsub half_extent oct_add headers ngridbound min_level ilevel) st
      = Ok st' /\
      contents (amr_file st') = contents (amr_file st) /\
      cursor (amr_file st')
      = (cursor (amr_file st) + length (encode_topology_row rest))%nat /\
      Z.of_nat (length (amr_pos st')) = amr_buffer_size st' /\
      amr_oct st' = amr_oct st ++ calls /\
      map request_of calls
      = Some <$> row_requests fsub half_extent headers min_level ilevel d0 rest.
Proof.
  intros Hndim. induction rest as [|o rest IH]; intros d0 st Hcounted Hat Hbuf.
  - exists st, []. simpl. rewrite app_nil_r. repeat split; auto; lia.
  - cbn [length seq map for_each].
    pose proof (Hcounted 0%nat o eq_refl) as Ho. rewrite Nat.add_0_r in Ho.
    assert (Hrest : forall (k : nat) (o' : option grid_block),
               rest !! k = Some o' ->
               block_counted headers ngridbound ilevel (Z.of_nat (S d0 + k)) o').
    { intros k o' Hk. replace (S d0 + k)%nat with (d0 + S k)%nat by lia.
      apply Hcounted. exact Hk. }
    cbn [encode_topology_row flat_map] in Hat. fold (encode_topology_row rest) in Hat.
    destruct o as [g|].
    + destruct Ho as (ng & Hcount & Hng & Hwf).
      apply bytes_at_app in Hat as [Hat_g Hat_rest].
      destruct (read_amr_body_at fsub half_extent oct_add headers ngridbound min_level
                  ilevel (Z.of_nat d0) st g ng Hcount Hng Hndim Hwf Hat_g Hbuf)
        as (f' & pos' & Hrun & Hc & Hp & Hpos).
      rewrite Hrun. step.
      set (st1 := if ilevel >=? min_level then _ else _) in *.
      assert (Hst1 : amr_file st1 = f' /\ amr_pos st1 = pos' /\
                     amr_buffer_size st1 = Z.max ng (amr_buffer_size st)).
      { unfold st1. destruct (ilevel >=? min_level); simpl; auto. }
      destruct Hst1 as (Hf1 & Hpos1 & Hbs1).
      destruct (IH (S d0) st1 Hrest) as (st' & calls & Hloop & Hc' & Hp' & Hpos' & Hoct' & Hreq').
      { rewrite Hf1, Hc, Hp. exact Hat_rest. }
      { rewrite Hpos1, Hbs1. exact Hpos. }
      rewrite Hf1 in Hc', Hp'.
      cbn [row_requests encode_topology_row flat_map]. fold (encode_topology_row rest).
      destruct (ilevel >=? min_level) eqn:Elev.
      * eexists st', (_ :: calls). split; [exact Hloop|].
        split; [congruence|]. split; [rewrite Hp', Hp, length_app; lia|].
        split; [exact Hpos'|]. split.
        { rewrite Hoct'. unfold st1. simpl. rewrite <- app_assoc. reflexivity. }
        cbn [map request_of app fmap list_fmap]. f_equal. exact Hreq'.
      * exists st', calls. split; [exact Hloop|].
        split; [congruence|]. split; [rewrite Hp', Hp, length_app; lia|].
        split; [exact Hpos'|]. split; [rewrite Hoct'; reflexivity|]. exact Hreq'.
    + rewrite (read_amr_body_empty _ _ _ _ _ _ _ _ _ Ho). step.
      destruct (IH (S d0) st Hrest Hat Hbuf)
        as (st' & calls & Hloop & Hc' & Hp' & Hpos' & Hoct' & Hreq').
      exists st', calls. cbn [row_requests encode_topology_row flat_map app].
      fold (encode_topology_row rest). repeat split; auto.
Qed.

(** The levels from [l0] on. *)
Lemma read_amr_levels fsub half_extent oct_add headers ngridbound min_level
    (ncpu_and_bound : Z) (rest : list (list (option grid_block))) :
  0 <= ndim headers ->
  forall (l0 : nat) (st : amr_state),
    (forall (k : nat) (row : list (option grid_block)),
        rest !! k = Some row ->
        length row = Z.to_nat ncpu_and_bound /\
        forall (d : nat) (o : option grid_block),
          row !! d = Some o ->
          block_counted headers ngridbound (Z.of_nat (l0 + k)) (Z.of_nat d) o) ->
    bytes_at (contents (amr_file st)) (cursor (amr_file st)) (encode_topology rest) ->
    Z.of_nat (length (amr_pos st)) = amr_buffer_size st ->
    exists st' calls,
      for_each (map Z.of_nat (seq l0 (length rest)))
        (fun ilevel =>
           for_each (range ncpu_and_bound)
             (read_amr_body fsub half_extent oct_add headers ngridbound min_level ilevel))
        st = Ok st' /\
      contents (amr_file st') = contents (amr_file st) /\
      cursor (amr_file st')
      = (cursor (amr_file st) + length (encode_topology rest))%nat /\
      Z.of_nat (length (amr_pos st')) = amr_buffer_size st' /\
      amr_oct st' = amr_oct st ++ calls /\
      map request_of calls
      = Some <$> topology_requests fsub half_extent headers min_level l0 rest.
Proof.
  intros Hndim. induction rest as [|row rest IH]; intros l0 st Hcounted Hat Hbuf.
  - exists st, []. simpl. rewrite app_nil_r. repeat split; auto; lia.
  - cbn [length seq map for_each].
    destruct (Hcounted 0%nat row eq_refl) as [Hrow_len Hrow]. rewrite Nat.add_0_r in Hrow.
    assert (Hrest : forall (k : nat) (row' : list (option grid_block)),
               rest !! k = Some row' ->
               length row' = Z.to_nat ncpu_and_bound /\
               forall (d : nat) (o : option grid_block),
                 row' !! d = Some o ->
                 block_counted headers ngridbound (Z.of_nat (S l0 + k)) (Z.of_nat d) o).
    { intros k row' Hk. replace (S l0 + k)%nat with (l0 + S k)%nat by lia.
      apply Hcounted. exact Hk. }
    cbn [encode_topology flat_map] in Hat. fold (encode_topology rest) in Hat.
    apply bytes_at_app in Hat as [Hat_row Hat_rest].
    destruct (read_amr_row fsub half_extent oct_add headers ngridbound min_level
                (Z.of_nat l0) row Hndim 0%nat st Hrow Hat_row Hbuf)
      as (st1 & calls1 & Hloop1 & Hc1 & Hp1 & Hpos1 & Hoct1 & Hreq1).
    assert (Hr : range ncpu_and_bound = map Z.of_nat (seq 0 (length row)))
      by (unfold range; now rewrite Hrow_len).
    rewrite <- Hr in Hloop1. rewrite Hloop1. step.
    destruct (IH (S l0) st1 Hrest) as (st' & calls & Hloop & Hc' & Hp' & Hpos' & Hoct' & Hreq').
    { rewrite Hc1, Hp1. exact Hat_rest. }
    { exact Hpos1. }
    exists st', (calls1 ++ calls). split; [exact Hloop|].
    split; [congruence|].
    split.
    { rewrite Hp', Hp1. cbn [encode_topology flat_map]. fold (encode_topology rest).
      rewrite length_app. lia. }
    split; [exact Hpos'|].
    split; [rewrite Hoct', Hoct1, app_assoc; reflexivity|].
    cbn [topology_requests]. rewrite map_app, fmap_app, Hreq1, Hreq'. reflexivity.
Qed.

(** X15.  [read_amr] on a whole topology section.  The section holds, level
    by level and domain by domain, the block of every pair for which the
    header counts grids ([numbl] for the real domains, [ngridbound] for the
    boundary ones) and nothing for the others.  Then [read_amr] ends
    normally with the cursor at the end of the section, and the index has
    received, in file order, one [add] for each block at a level from
    [min_level] on and no other call: for domain [icpu + 1], level
    [ilevel - min_level], with the re-centred coordinates of the block. *)
Theorem read_amr_decodes_topology
    fsub half_extent oct_add f headers ngridbound min_level oct
    (topo : list (list (option grid_block))) :
  0 <= ndim headers ->
  well_formed_topology headers ngridbound topo ->
  bytes_at (contents f) (cursor f) (encode_topology topo) ->
  exists max_level st calls,
    read_amr fsub half_extent oct_add f headers ngridbound min_level oct
      = Ok (max_level, st) /\
    cursor (amr_file st) = (cursor f + length (encode_topology topo))%nat /\
    amr_oct st = oct ++ calls /\
    map request_of calls
    = Some <$> topology_requests fsub half_extent headers min_level 0 topo.
Proof.
  intros Hndim [Hlen Hrows] Hat. unfold read_amr. cbv zeta.
  destruct (read_amr_levels fsub half_extent oct_add headers ngridbound min_level
              (nboundary headers + ncpu headers) topo Hndim 0%nat
              (mk_amr f oct (np_empty_pos 0) 0 0))
    as (st & calls & Hloop & _ & Hp & _ & Hoct & Hreq).
  - intros k row Hk. exact (Hrows k row Hk).
  - exact Hat.
  - reflexivity.
  - assert (Hr : range (nlevelmax headers) = map Z.of_nat (seq 0 (length topo)))
      by (unfold range; now rewrite Hlen).
    rewrite Hr, Hloop. step.
    exists (amr_max_level st), st, calls. repeat split; assumption.
Qed.

Lemma read_amr_decodes_topology_witness :
  0 <= ndim Sample.amr_headers /\
  well_formed_topology Sample.amr_headers [] Scenario.amr_topology /\
  bytes_at (contents Sample.amr_file) (cursor Sample.amr_file)
    (encode_topology Scenario.amr_topology) /\
  exists max_level st calls,
    read_amr Sample.fsub Sample.half_extent Sample.add_all Sample.amr_file
      Sample.amr_headers [] 1 [] = Ok (max_level, st) /\
    cursor (amr_file st)
    = (cursor Sample.amr_file + length (encode_topology Scenario.amr_topology))%nat /\
    amr_oct st = [] ++ calls /\
    map request_of calls
    = Some <$> topology_requests Sample.fsub Sample.half_extent Sample.amr_headers 1 0
                 Scenario.amr_topology.
Proof.
  assert (H1 : 0 <= ndim Sample.amr_headers) by (simpl; lia).
  assert (H2 : well_formed_topology Sample.amr_headers [] Scenario.amr_topology).
  { split; [reflexivity|]. intros level row Hrow.
    destruct level as [|[|level]]; [| |discriminate]; injection Hrow as <-;
      (split; [reflexivity|]); intros domain o Ho;
      (destruct domain as [|domain]; [|discriminate]); injection Ho as <-.
    - exists 2. split; [reflexivity|]. split; [lia|].
      unfold well_formed_grids, marker_fits, in_int32. simpl.
      repeat split; try reflexivity; try lia; repeat constructor; simpl; lia.
    - exists 3. split; [reflexivity|]. split; [lia|].
      unfold well_formed_grids, marker_fits, in_int32. simpl.
      repeat split; try reflexivity; try lia; repeat constructor; simpl; lia. }
  assert (H3 : bytes_at (contents Sample.amr_file) (cursor Sample.amr_file)
                 (encode_topology Scenario.amr_topology))
    by (split; [vm_compute; lia | reflexivity]).
  repeat (split; [assumption|]).
  exact (read_amr_decodes_topology Sample.fsub Sample.half_extent Sample.add_all
           Sample.amr_file Sample.amr_headers [] 1 [] Scenario.amr_topology H1 H2 H3).
Defined.
(** ** [read_amr]: how the index is addressed *)

(** X16.  Whatever the file holds, the only calls that [read_amr] makes to
    the index are [add]s, each for a domain id between 1 and the number of
    domains (real and boundary), at a level between 0 and
    [nlevelmax - min_level - 1], with [count_boundary = 1]. *)
Theorem read_amr_add_calls_addressed
    fsub half_extent oct_add f headers ngridbound min_level oct max_level st :
  read_amr fsub half_extent oct_add f headers ngridbound min_level oct
    = Ok (max_level, st) ->
  exists calls,
    amr_oct st = oct ++ calls /\
    Forall (add_addressed (nboundary headers + ncpu headers)
              (nlevelmax headers - min_level)) calls.
Proof.
  unfold read_amr. cbv zeta. intros Hrun.
  apply bind_Ok in Hrun as (st1 & Hloop & [= _ <-]).
  set (I := fun s : amr_state =>
    exists calls, amr_oct s = oct ++ calls /\
      Forall (add_addressed (nboundary headers + ncpu headers)
                (nlevelmax headers - min_level)) calls).
  change (I st1).
  eapply (for_each_invariant I); [ | exact Hloop | ].
  - intros ilevel s s' Hlev Hin. apply range_spec in Hlev.
    eapply (for_each_invariant I); [ | exact Hin].
    intros icpu t t' Hcpu Hbody (calls & Hoct & Hall). apply range_spec in Hcpu.
    unfold I. unfold read_amr_body in Hbody.
    destruct (nx headers) as [[nx0 ny0] nz0].
    apply bind_Ok in Hbody as (ng & _ & Hbody).
    destruct (wrap32 ng =? 0); [injection Hbody as <-; eauto|].
    apply bind_Ok in Hbody as (f1 & _ & Hbody).
    destruct (if wrap32 ng >? amr_buffer_size t then _ else _) as [pos bs].
    apply bind_Ok in Hbody as ([xs f2] & _ & Hbody).
    apply bind_Ok in Hbody as (pos1 & _ & Hbody).
    apply bind_Ok in Hbody as ([ys f3] & _ & Hbody).
    apply bind_Ok in Hbody as (pos2 & _ & Hbody).
    apply bind_Ok in Hbody as ([zs f4] & _ & Hbody).
    apply bind_Ok in Hbody as (pos3 & _ & Hbody).
    apply bind_Ok in Hbody as (f5 & _ & Hbody).
    destruct (Z.geb_spec ilevel min_level) as [Hge | Hlt].
    + injection Hbody as <-. simpl. eexists (calls ++ [_]).
      split; [rewrite Hoct, <- app_assoc; reflexivity|].
      apply Forall_app. split; [exact Hall|]. constructor; [|constructor].
      simpl. lia.
    + injection Hbody as <-. simpl. eauto.
  - exists []. simpl. split; [now rewrite app_nil_r | constructor].
Qed.

Lemma read_amr_add_calls_addressed_witness :
  read_amr Sample.fsub Sample.half_extent Sample.add_all
    Sample.amr_file Sample.amr_headers [] 1 [] = Ok (0, Sample.amr_final_all) /\
  exists calls,
    amr_oct Sample.amr_final_all = [] ++ calls /\
    Forall (add_addressed (nboundary Sample.amr_headers + ncpu Sample.amr_headers)
              (nlevelmax Sample.amr_headers - 1)) calls.
Proof.
  assert (Hrun : read_amr Sample.fsub Sample.half_extent Sample.add_all
                   Sample.amr_file Sample.amr_headers [] 1 []
                 = Ok (0, Sample.amr_final_all)) by (vm_compute; reflexivity).
  split; [exact Hrun|].
  exact (read_amr_add_calls_addressed _ _ _ _ _ _ _ _ _ _ Hrun).
Defined.
(** ** [skip_len] and the length of records on disk *)

(** X17.  [skip_len(Nskip, record_len)] is the number of bytes that [Nskip]
    records of [record_len] doubles take on disk, each with its two 4-byte
    markers, as long as that number is below 2 GiB: a relative seek by it
    passes exactly over these records. *)
Theorem skip_len_is_length_of_records (records : list (list float64)) (record_len : Z) :
  Forall (fun r => Z.of_nat (length r) = record_len) records ->
  in_int32 (Z.of_nat (length records) * (record_len * 8 + 8)) ->
  skip_len (Z.of_nat (length records)) record_len
  = Z.of_nat (length (flat_map record_doubles records)).
Proof.
  intros Hall Hfit. rewrite (length_encode_records records record_len Hall).
  now apply skip_len_exact.
Qed.

Lemma skip_len_is_length_of_records_witness :
  Forall (fun r => Z.of_nat (length r) = 2) [[11; 12]; [21; 22]; [13; 14]] /\
  in_int32 (Z.of_nat (length [[11; 12]; [21; 22]; [13; 14]]) * (2 * 8 + 8)) /\
  skip_len (Z.of_nat (length [[11; 12]; [21; 22]; [13; 14]])) 2
  = Z.of_nat (length (flat_map record_doubles [[11; 12]; [21; 22]; [13; 14]])).
Proof.
  assert (H1 : Forall (fun r => Z.of_nat (length r) = 2) [[11; 12]; [21; 22]; [13; 14]])
    by (repeat constructor).
  assert (H2 : in_int32 (Z.of_nat (length [[11; 12]; [21; 22]; [13; 14]]) * (2 * 8 + 8)))
    by (vm_compute; split; [discriminate | reflexivity]).
  split; [exact H1|]. split; [exact H2|].
  exact (skip_len_is_length_of_records [[11; 12]; [21; 22]; [13; 14]] 2 H1 H2).
Defined.

(** ** [fill_hydro]: the rows of the buffer beyond the record count *)

Lemma store_records_rows_beyond (i : nat) (n : nat) (recs : list (list float64)) :
  forall (j0 : nat) (b : decode_buffer) (j' : Z) (b' : decode_buffer),
    store_records (Z.of_nat i) recs (Z.of_nat j0, b) = Ok (j', b') ->
    Forall (fun rec => (length rec <= n)%nat) recs ->
    (n <= dim0 b)%nat -> (i < dim1 b)%nat ->
    (dim0 b' = dim0 b /\ dim1 b' = dim1 b) /\
    forall (c i' j : nat),
      (n <= c < dim0 b)%nat -> (i' < dim1 b)%nat ->
      cell b' c i' j = cell b c i' j.
Proof.
  induction recs as [|rec recs IH]; intros j0 b j' b' Hrun Hrecs Hn Hi.
  - cbn in Hrun. injection Hrun as <- <-. auto.
  - pose proof (Forall_inv Hrecs) as Hrec. pose proof (Forall_inv_tail Hrecs) as Hrecs'.
    cbv beta in Hrec.
    unfold store_records in Hrun. cbn [for_each] in Hrun.
    apply bind_Ok in Hrun as ([j1 b1] & Hfirst & Hrun).
    apply bind_Ok in Hfirst as (b1' & Hwrite & [= <- <-]).
    pose proof (write_vector_dims _ _ _ _ _ Hwrite) as (H0 & H1 & H2 & _ & _).
    replace (Z.of_nat j0 + 1) with (Z.of_nat (S j0)) in Hrun by lia.
    destruct (IH (S j0) b1' j' b' Hrun Hrecs') as ((H0' & H1') & Hframe).
    { rewrite H0. exact Hn. }
    { rewrite H1. exact Hi. }
    assert (Hlen : length (read_back rec) = length rec)
      by (unfold read_back; now rewrite length_fmap).
    split; [split; congruence|].
    intros c i' j Hc Hi'.
    rewrite Hframe by (rewrite ?H0, ?H1; lia).
    apply (write_vector_cell_other _ _ _ _ _ _ _ _ Hwrite); try lia.
Qed.

Lemma store_subcells_rows_beyond (req : list bool) (n : nat)
    (subcells : list (list (list float64))) :
  forall (i0 : nat) (b b' : decode_buffer),
    store_subcells req i0 subcells b = Ok b' ->
    Forall (Forall (fun rec => (length rec <= n)%nat)) subcells ->
    (n <= dim0 b)%nat -> (i0 + length subcells <= dim1 b)%nat ->
    forall (c i j : nat),
      (n <= c < dim0 b)%nat -> (i < dim1 b)%nat ->
      cell b' c i j = cell b c i j.
Proof.
  induction subcells as [|recs subcells IH]; intros i0 b b' Hrun Hrecs Hn Hdim.
  - cbn in Hrun. now injection Hrun as <-.
  - pose proof (Forall_inv Hrecs) as Hhere. pose proof (Forall_inv_tail Hrecs) as Hrest.
    cbn [length] in Hdim. cbn [store_subcells] in Hrun.
    apply bind_Ok in Hrun as ([j1 b1] & Hfirst & Hrun).
    change 0 with (Z.of_nat 0) in Hfirst.
    destruct (store_records_rows_beyond i0 n (requested_records req recs) 0%nat b j1 b1
                Hfirst) as ((H0 & H1) & Hframe1).
    { now apply requested_records_Forall. }
    { exact Hn. }
    { lia. }
    intros c i j Hc Hi.
    rewrite (IH (S i0) b1 b' Hrun Hrest) by (rewrite ?H0, ?H1; lia).
    now apply Hframe1.
Qed.

(** X18.  The decode buffer is shared by all the blocks of a call and sized
    for the largest of them.  The block is present ([nc] above 0) and lies
    on disk at [offset], [twotondim] sub-cells of one record of [nc] doubles
    per catalogue field; the records of one sub-cell, with their markers,
    take less than 2 GiB ([len(all_fields) * (nc * 8 + 8)] is an [int]);
    every requested field is an entry of the catalogue found once; the
    buffer is allocated with at least [nc] rows, [twotondim] columns and one
    slot per requested field.  Then decoding the block ends normally and
    writes the rows below [nc] only: every cell of a row from [nc] on keeps
    what it held before, so the slices handed to the index still show there
    the values of an earlier, larger block. *)
Theorem decode_block_keeps_rows_beyond_count
    (all_fields fields : list string) (twotondim nc offset : Z)
    (subcells : list (list (list float64))) (f : FortranFile)
    (buffer : decode_buffer) :
  requested_once all_fields fields ->
  0 < nc -> 0 <= offset ->
  in_int32 (Z.of_nat (length all_fields) * (nc * 8 + 8)) ->
  length subcells = Z.to_nat twotondim ->
  well_formed_subcells (length all_fields) nc subcells ->
  bytes_at (contents f) (Z.to_nat offset) (encode_subcells subcells) ->
  buffer_allocated buffer ->
  nc <= Z.of_nat (dim0 buffer) ->
  twotondim <= Z.of_nat (dim1 buffer) ->
  (length fields <= dim2 buffer)%nat ->
  exists jumps first_field_index f' jump_len buffer',
    build_jumps all_fields fields = Ok jumps /\
    array_get jumps 0 = Ok first_field_index /\
    decode_block jumps first_field_index twotondim (Z.of_nat (length fields)) nc
      offset f buffer = Ok (f', jump_len, buffer') /\
    forall (c i j : nat),
      nc <= Z.of_nat c -> (c < dim0 buffer)%nat -> (i < dim1 buffer)%nat ->
      cell buffer' c i j = cell buffer c i j.
Proof.
  intros Honce Hnc Hoffset Hfit Hlen Hwf Hat Halloc Hdim0 Hdim1 Hdim2.
  set (req := requested all_fields fields) in *.
  destruct (build_jumps_spec all_fields fields Honce) as [Hbuild _].
  destruct (decode_block_spec all_fields fields twotondim nc offset subcells f buffer
              Honce Hnc Hoffset Hfit Hlen Hwf Hat)
    as (ffi & f' & jl & Hffi & Hrun & _).
  fold req in Hbuild, Hffi, Hrun.
  destruct (store_subcells_fits req (length all_fields) nc subcells Hwf ltac:(lia)
              0%nat buffer Halloc Hdim0 ltac:(lia)
              ltac:(unfold requested_once in Honce; fold req in Honce; lia))
    as (buffer' & Hstore & _).
  rewrite Hstore in Hrun.
  exists (skip_distances 0 req), ffi, f', jl, buffer'.
  split; [exact Hbuild|]. split; [exact Hffi|]. split; [exact Hrun|].
  intros c i j Hc Hc' Hi.
  apply (store_subcells_rows_beyond req (Z.to_nat nc) subcells 0%nat buffer buffer' Hstore);
    try lia.
  eapply List.Forall_impl; [|exact Hwf]. cbn. intros recs [_ Hrecs].
  eapply List.Forall_impl; [|exact Hrecs]. cbn. intros rec Hrec. lia.
Qed.

Lemma decode_block_keeps_rows_beyond_count_witness :
  requested_once Sample.hydro_fields ["pressure"%string] /\
  0 < 1 /\ 0 <= 144 /\
  in_int32 (Z.of_nat (length Sample.hydro_fields) * (1 * 8 + 8)) /\
  length (Scenario.hydro2_payload 0 1) = Z.to_nat 2 /\
  well_formed_subcells (length Sample.hydro_fields) 1 (Scenario.hydro2_payload 0 1) /\
  bytes_at (contents Sample.hydro2_file) (Z.to_nat 144)
    (encode_subcells (Scenario.hydro2_payload 0 1)) /\
  buffer_allocated Sample.hydro_buffer /\
  1 <= Z.of_nat (dim0 Sample.hydro_buffer) /\
  2 <= Z.of_nat (dim1 Sample.hydro_buffer) /\
  (length ["pressure"%string] <= dim2 Sample.hydro_buffer)%nat /\
  exists jumps first_field_index f' jump_len buffer',
    build_jumps Sample.hydro_fields ["pressure"%string] = Ok jumps /\
    array_get jumps 0 = Ok first_field_index /\
    decode_block jumps first_field_index 2 (Z.of_nat (length ["pressure"%string])) 1
      144 Sample.hydro2_file Sample.hydro_buffer = Ok (f', jump_len, buffer') /\
    forall (c i j : nat),
      1 <= Z.of_nat c -> (c < dim0 Sample.hydro_buffer)%nat ->
      (i < dim1 Sample.hydro_buffer)%nat ->
      cell buffer' c i j = cell Sample.hydro_buffer c i j.
Proof.
  assert (H1 : requested_once Sample.hydro_fields ["pressure"%string]) by reflexivity.
  assert (H2 : 0 < 1) by lia.
  assert (H3 : 0 <= 144) by lia.
  assert (H4 : in_int32 (Z.of_nat (length Sample.hydro_fields) * (1 * 8 + 8)))
    by (vm_compute; split; [discriminate | reflexivity]).
  assert (H5 : length (Scenario.hydro2_payload 0 1) = Z.to_nat 2) by reflexivity.
  assert (H6 : well_formed_subcells (length Sample.hydro_fields) 1
                 (Scenario.hydro2_payload 0 1)) by (repeat constructor).
  assert (H7 : bytes_at (contents Sample.hydro2_file) (Z.to_nat 144)
                 (encode_subcells (Scenario.hydro2_payload 0 1)))
    by (split; [vm_compute; lia | reflexivity]).
  assert (H8 : buffer_allocated Sample.hydro_buffer) by reflexivity.
  assert (H9 : 1 <= Z.of_nat (dim0 Sample.hydro_buffer)) by (simpl; lia).
  assert (H10 : 2 <= Z.of_nat (dim1 Sample.hydro_buffer)) by (simpl; lia).
  assert (H11 : (length ["pressure"%string] <= dim2 Sample.hydro_buffer)%nat)
    by (simpl; lia).
  repeat (split; [assumption|]).
  exact (decode_block_keeps_rows_beyond_count Sample.hydro_fields ["pressure"%string]
           2 1 144 (Scenario.hydro2_payload 0 1) Sample.hydro2_file Sample.hydro_buffer
           H1 H2 H3 H4 H5 H6 H7 H8 H9 H10 H11).
Defined.

(** ** [read_offset]: what it reads *)

Lemma read_int_log (f f' : FortranFile) (v : Z) :
  read_int f = Ok (v, f') -> io_log f' = io_log f ++ [EvRead (cursor f) 4].
Proof.
  unfold read_int. intros H. apply bind_Ok in H as ([payload f1] & Hrec & H).
  destruct (Nat.eqb_spec (length payload) 4) as [Hlen|]; [|discriminate].
  injection H as _ <-. apply read_record_Ok in Hrec as (_ & _ & _ & Hlog).
  now rewrite Hlog, Hlen.
Qed.

Lemma seek_log (f f' : FortranFile) (pos whence : Z) :
  seek f pos whence = Ok f' -> exists p, io_log f' = io_log f ++ [EvSeek p].
Proof.
  unfold seek. destruct (_ || _); [discriminate|]. intros [= <-]. simpl. eauto.
Qed.

(** X19.  [read_offset] never reads a field record.  Of every block it reads
    the two 4-byte header records and passes over the payload with one
    relative seek: all it does to the file is reading 4-byte records and
    seeking. *)
Theorem read_offset_reads_headers_only
    f min_level domain_id nvar headers Nskip f' offset level_count :
  read_offset f min_level domain_id nvar headers Nskip = Ok (f', offset, level_count) ->
  exists events, io_log f' = io_log f ++ events /\ Forall header_event events.
Proof.
  unfold read_offset. cbv zeta. intros Hrun.
  apply bind_Ok in Hrun as (off0 & _ & Hrun).
  apply bind_Ok in Hrun as (cnt0 & _ & Hrun).
  set (I := fun st : offset_state =>
    exists events, io_log (fst (fst st)) = io_log f ++ events /\
                   Forall header_event events).
  change (I (f', offset, level_count)).
  eapply (for_each_invariant I); [ | exact Hrun | ].
  - intros ilevel s s' _ Hin. eapply (for_each_invariant I); [ | exact Hin].
    intros icpu [[g o] c] [[g' o'] c'] _ Hbody (events & Hlog & Hall).
    unfold I. simpl in *. unfold read_offset_body in Hbody.
    apply bind_Ok in Hbody as ([file_ilevel f1] & Hr1 & Hbody).
    apply bind_Ok in Hbody as ([file_ncache f2] & Hr2 & Hbody).
    apply read_int_log in Hr1. apply read_int_log in Hr2.
    assert (Hheaders : io_log f2
                       = io_log f ++ (events ++ [EvRead (cursor g) 4; EvRead (cursor f1) 4])).
    { rewrite Hr2, Hr1, Hlog, <- !app_assoc. reflexivity. }
    assert (Hall2 : Forall header_event
                      (events ++ [EvRead (cursor g) 4; EvRead (cursor f1) 4])).
    { apply Forall_app. split; [exact Hall|]. repeat constructor. }
    destruct (file_ncache =? 0).
    { injection Hbody as <- _ _. eauto. }
    destruct (negb _); [no_raise|].
    assert (Hseek : exists f3, seek f2 (skip_len
                      (if Nskip =? -1 then wrap32 (2 ^ ndim headers * nvar) else Nskip)
                      file_ncache) 1 = Ok f3 /\ g' = f3).
    { destruct (ilevel >=? min_level);
        apply bind_Ok in Hbody as (f3 & Hs & [= <- _ _]); eauto. }
    destruct Hseek as (f3 & Hs & ->). apply seek_log in Hs as [p Hp].
    exists ((events ++ [EvRead (cursor g) 4; EvRead (cursor f1) 4]) ++ [EvSeek p]).
    split; [rewrite Hp, Hheaders, <- !app_assoc; reflexivity|].
    apply Forall_app. split; [exact Hall2|]. repeat constructor.
  - exists []. simpl. split; [now rewrite app_nil_r | constructor].
Qed.

Lemma read_offset_reads_headers_only_witness :
  read_offset Sample.data_file 0 1 1 Sample.data_headers (-1)
    = Ok Sample.data_indexed /\
  exists events,
    io_log (fst (fst Sample.data_indexed)) = io_log Sample.data_file ++ events /\
    Forall header_event events.
Proof.
  assert (Hrun : read_offset Sample.data_file 0 1 1 Sample.data_headers (-1)
                 = Ok (fst (fst Sample.data_indexed), snd (fst Sample.data_indexed),
                       snd Sample.data_indexed)) by (vm_compute; reflexivity).
  split; [exact Hrun|].
  exact (read_offset_reads_headers_only _ _ _ _ _ _ _ _ _ Hrun).
Defined.

(** ** Sample runs of the indexing and of the decoding in catalogue order *)


Lemma decode_block_alike_in_catalogue_order_witness :
  NoDup Sample.hydro_fields /\
  in_catalogue_order Sample.hydro_fields ["pressure"%string] /\
  in_catalogue_order Sample.hydro_fields ["density"; "pressure"]%string /\
  In "pressure"%string ["pressure"%string] /\
  In "pressure"%string ["density"; "pressure"]%string /\
  0 < 2 /\ 0 <= 24 /\
  in_int32 (Z.of_nat (length Sample.hydro_fields) * (2 * 8 + 8)) /\
  length Sample.hydro_subcells = Z.to_nat 2 /\
  well_formed_subcells (length Sample.hydro_fields) 2 Sample.hydro_subcells /\
  bytes_at (contents Sample.hydro_file) (Z.to_nat 24)
    (encode_subcells Sample.hydro_subcells) /\
  buffer_allocated Sample.hydro_buffer /\ buffer_allocated Scenario.hydro_buffer2 /\
  2 <= Z.of_nat (dim0 Sample.hydro_buffer) /\
  2 <= Z.of_nat (dim0 Scenario.hydro_buffer2) /\
  2 <= Z.of_nat (dim1 Sample.hydro_buffer) /\
  2 <= Z.of_nat (dim1 Scenario.hydro_buffer2) /\
  (length ["pressure"%string] <= dim2 Sample.hydro_buffer)%nat /\
  (length ["density"; "pressure"]%string <= dim2 Scenario.hydro_buffer2)%nat /\
  exists jumps1 ffi1 f1 jl1 buffer1' jumps2 ffi2 f2 jl2 buffer2' slice1 slice2,
    build_jumps Sample.hydro_fields ["pressure"%string] = Ok jumps1 /\
    array_get jumps1 0 = Ok ffi1 /\
    decode_block jumps1 ffi1 2 (Z.of_nat (length ["pressure"%string])) 2 24
      Sample.hydro_file Sample.hydro_buffer = Ok (f1, jl1, buffer1') /\
    build_jumps Sample.hydro_fields ["density"; "pressure"]%string = Ok jumps2 /\
    array_get jumps2 0 = Ok ffi2 /\
    decode_block jumps2 ffi2 2 (Z.of_nat (length ["density"; "pressure"]%string)) 2 24
      Sample.hydro_file Scenario.hydro_buffer2 = Ok (f2, jl2, buffer2') /\
    alias_buffer ["pressure"%string] buffer1' !! "pressure"%string = Some slice1 /\
    alias_buffer ["density"; "pressure"]%string buffer2' !! "pressure"%string
    = Some slice2 /\
    forall c i : nat,
      Z.of_nat c < 2 -> Z.of_nat i < 2 ->
      slice1 !! c ≫= (fun row => row !! i) = slice2 !! c ≫= (fun row => row !! i).
Proof.
  assert (H1 : NoDup Sample.hydro_fields).
  { apply (bool_decide_unpack _). vm_compute. exact I. }
  assert (H2 : in_catalogue_order Sample.hydro_fields ["pressure"%string])
    by reflexivity.
  assert (H3 : in_catalogue_order Sample.hydro_fields ["density"; "pressure"]%string)
    by reflexivity.
  assert (H4 : In "pressure"%string ["pressure"%string]) by (simpl; auto).
  assert (H5 : In "pressure"%string ["density"; "pressure"]%string) by (simpl; auto).
  assert (H6 : 0 < 2) by lia.
  assert (H7 : 0 <= 24) by lia.
  assert (H8 : in_int32 (Z.of_nat (length Sample.hydro_fields) * (2 * 8 + 8)))
    by (vm_compute; split; [discriminate | reflexivity]).
  assert (H9 : length Sample.hydro_subcells = Z.to_nat 2) by reflexivity.
  assert (H10 : well_formed_subcells (length Sample.hydro_fields) 2
                  Sample.hydro_subcells) by (repeat constructor).
  assert (H11 : bytes_at (contents Sample.hydro_file) (Z.to_nat 24)
                  (encode_subcells Sample.hydro_subcells))
    by (split; [vm_compute; lia | reflexivity]).
  assert (H12 : buffer_allocated Sample.hydro_buffer) by reflexivity.
  assert (H13 : buffer_allocated Scenario.hydro_buffer2) by reflexivity.
  assert (H14 : 2 <= Z.of_nat (dim0 Sample.hydro_buffer)) by (simpl; lia).
  assert (H15 : 2 <= Z.of_nat (dim0 Scenario.hydro_buffer2)) by (simpl; lia).
  assert (H16 : 2 <= Z.of_nat (dim1 Sample.hydro_buffer)) by (simpl; lia).
  assert (H17 : 2 <= Z.of_nat (dim1 Scenario.hydro_buffer2)) by (simpl; lia).
  assert (H18 : (length ["pressure"%string] <= dim2 Sample.hydro_buffer)%nat)
    by (simpl; lia).
  assert (H19 : (length ["density"; "pressure"]%string
                 <= dim2 Scenario.hydro_buffer2)%nat) by (simpl; lia).
  repeat (split; [assumption|]).
  exact (decode_block_alike_in_catalogue_order Sample.hydro_fields
           ["pressure"%string] ["density"; "pressure"]%string 2 2 24
           Sample.hydro_subcells Sample.hydro_file Sample.hydro_buffer
           Scenario.hydro_buffer2 "pressure"%string
           H1 H2 H3 H4 H5 H6 H7 H8 H9 H10 H11 H12 H13 H14 H15 H16 H17 H18 H19).
Defined.
(** ** [read_amr]: a block whose coordinates do not match the header *)

(** X20.  The header counts [ng] grids for a pair, but the first coordinate
    record of its block holds another number of values, and more than one:
    the assignment to the first [ng] rows of the coordinate array fails, and
    [read_amr] raises [ValueError] before the index is called for the
    block. *)
Theorem read_amr_rejects_miscounted_coordinates
    fsub half_extent oct_add headers ngridbound min_level ilevel icpu st
    (linkage : list (list byte)) (xs : list float64) ng :
  grid_count headers ngridbound ilevel icpu = Some ng ->
  0 < ng < 2 ^ 31 ->
  length linkage = 3%nat -> Forall marker_fits linkage ->
  in_int32 (Z.of_nat (length xs) * 8 + 8) ->
  Z.of_nat (length xs) <> ng -> length xs <> 1%nat ->
  bytes_at (contents (amr_file st)) (cursor (amr_file st))
    (flat_map record linkage ++ record_doubles xs) ->
  Z.of_nat (length (amr_pos st)) = amr_buffer_size st ->
  read_amr_body fsub half_extent oct_add headers ngridbound min_level ilevel icpu st
  = Raise ValueFault.
Proof.
  intros Hcount Hng Hl3 Hlfit Hsize Hne Hne1 Hat Hbuf.
  unfold read_amr_body. destruct (nx headers) as [[nx ny] nz].
  rewrite (grid_count_get _ _ _ _ _ Hcount). step.
  assert (Hw : wrap32 ng = ng) by (apply wrap32_small; int_lia). rewrite Hw.
  destruct (Z.eqb_spec ng 0); [lia|].
  apply bytes_at_app in Hat as [Hat_l Hat_x].
  destruct (skip_records linkage (amr_file st) Hlfit Hat_l) as (f1 & Hskip & C1 & P1).
  rewrite Hl3 in Hskip. change (Z.of_nat 3) with 3 in Hskip. rewrite Hskip. step.
  set (choice := if ng >? amr_buffer_size st then (np_empty_pos ng, ng)
                 else (amr_pos st, amr_buffer_size st)).
  assert (Hchoice : exists pos0 bs, choice = (pos0, bs) /\ ng <= Z.of_nat (length pos0)).
  { unfold choice. destruct (Z.gtb_spec ng (amr_buffer_size st)).
    - exists (np_empty_pos ng), ng. split; [reflexivity|].
      unfold np_empty_pos. rewrite length_replicate. lia.
    - exists (amr_pos st), (amr_buffer_size st). split; [reflexivity | lia]. }
  destruct Hchoice as (pos0 & bs & -> & Hpos0).
  rewrite <- C1, <- P1 in Hat_x.
  destruct (read_vector_here f1 (Z.of_nat (length xs)) xs eq_refl Hsize Hat_x)
    as (f2 & Hrx & _).
  rewrite Hrx. step. fold (recentred fsub (half_extent nx) xs).
  unfold assign_column, py_stop.
  destruct (Z.ltb_spec ng 0); [lia|]. rewrite Nat.min_l by lia.
  pose proof (length_recentred fsub (half_extent nx) xs) as Hlen.
  destruct (Nat.eqb_spec (length (recentred fsub (half_extent nx) xs)) (Z.to_nat ng));
    [lia|].
  destruct (recentred fsub (half_extent nx) xs) as [|v [|v' vs]]; try reflexivity.
  simpl in Hlen. congruence.
Qed.

Lemma read_amr_rejects_miscounted_coordinates_witness :
  grid_count Scenario.amr_headers_miscounted [] 0 0 = Some 3 /\
  0 < 3 < 2 ^ 31 /\
  length (replicate 3 (le_split 4 0)) = 3%nat /\
  Forall marker_fits (replicate 3 (le_split 4 0)) /\
  in_int32 (Z.of_nat (length [10; 20]) * 8 + 8) /\
  Z.of_nat (length [10; 20]) <> 3 /\ length [10; 20] <> 1%nat /\
  bytes_at (contents (amr_file (Sample.amr_start Sample.amr_file)))
    (cursor (amr_file (Sample.amr_start Sample.amr_file)))
    (flat_map record (replicate 3 (le_split 4 0)) ++ record_doubles [10; 20]) /\
  Z.of_nat (length (amr_pos (Sample.amr_start Sample.amr_file)))
  = amr_buffer_size (Sample.amr_start Sample.amr_file) /\
  read_amr_body Sample.fsub Sample.half_extent Sample.add_all
    Scenario.amr_headers_miscounted [] 0 0 0 (Sample.amr_start Sample.amr_file)
  = Raise ValueFault.
Proof.
  assert (H1 : grid_count Scenario.amr_headers_miscounted [] 0 0 = Some 3) by reflexivity.
  assert (H2 : 0 < 3 < 2 ^ 31) by lia.
  assert (H3 : length (replicate 3 (le_split 4 0)) = 3%nat) by reflexivity.
  assert (H4 : Forall marker_fits (replicate 3 (le_split 4 0)))
    by (unfold marker_fits; repeat constructor; simpl; lia).
  assert (H5 : in_int32 (Z.of_nat (length [10; 20]) * 8 + 8))
    by (vm_compute; split; [discriminate | reflexivity]).
  assert (H6 : Z.of_nat (length [10; 20]) <> 3) by (simpl; lia).
  assert (H7 : length [10; 20] <> 1%nat) by (simpl; lia).
  assert (H8 : bytes_at (contents (amr_file (Sample.amr_start Sample.amr_file)))
                 (cursor (amr_file (Sample.amr_start Sample.amr_file)))
                 (flat_map record (replicate 3 (le_split 4 0))
                  ++ record_doubles [10; 20]))
    by (split; [vm_compute; lia | reflexivity]).
  assert (H9 : Z.of_nat (length (amr_pos (Sample.amr_start Sample.amr_file)))
               = amr_buffer_size (Sample.amr_start Sample.amr_file)) by reflexivity.
  repeat (split; [assumption|]).
  exact (read_amr_rejects_miscounted_coordinates Sample.fsub Sample.half_extent
           Sample.add_all Scenario.amr_headers_miscounted [] 0 0 0
           (Sample.amr_start Sample.amr_file) (replicate 3 (le_split 4 0)) [10; 20] 3
           H1 H2 H3 H4 H5 H6 H7 H8 H9).
Defined.

(** ** [fill_hydro]: no domain selected *)

Lemma for_each_nothing {X S} (xs : list X) (s : S) :
  for_each xs (fun _ s0 => Ok s0) s = Ok s.
Proof. induction xs as [|x xs IH]; simpl; [reflexivity | exact IH]. Qed.

(** X21.  With an empty list of domains [fill_hydro] allocates its buffer
    and does nothing else: the file and its cursor are as before and the
    index receives no call.  The buffer is still sized from the whole count
    table, so the tables may not be empty. *)
Theorem fill_hydro_no_domain_selected
    f offsets level_count ndim all_fields fields oct dim :
  (count_true (requested all_fields fields) <= length fields)%nat ->
  np_max level_count = Ok dim -> 0 <= dim ->
  exists buffer,
    fill_hydro f offsets level_count [] ndim all_fields fields oct
    = Ok (f, buffer, oct).
Proof.
  intros Hfields Hmax Hdim.
  destruct (build_jumps_first all_fields fields Hfields) as (jumps & ffi & Hj & Hffi).
  unfold fill_hydro. cbv zeta. rewrite Hj. step. rewrite Hffi. step. rewrite Hmax. step.
  assert (Hpow : 0 <= 2 ^ ndim) by (apply Z.pow_nonneg; lia).
  unfold np_empty3.
  destruct (Z.ltb_spec dim 0); [lia|].
  destruct (Z.ltb_spec (2 ^ ndim) 0); [lia|].
  destruct (Z.ltb_spec (Z.of_nat (length fields)) 0); [lia|].
  cbn [orb]. step. eexists. cbn [length]. change (range (Z.of_nat 0)) with (@nil Z).
  cbn [for_each]. apply for_each_nothing.
Qed.

Lemma fill_hydro_no_domain_selected_witness :
  (count_true (requested Sample.hydro_fields ["pressure"%string])
   <= length ["pressure"%string])%nat /\
  np_max Sample.hydro_counts = Ok 2 /\ 0 <= 2 /\
  exists buffer,
    fill_hydro Sample.hydro_file Sample.hydro_offsets Sample.hydro_counts [] 1
      Sample.hydro_fields ["pressure"%string] [] = Ok (Sample.hydro_file, buffer, []).
Proof.
  assert (H1 : (count_true (requested Sample.hydro_fields ["pressure"%string])
                <= length ["pressure"%string])%nat) by (vm_compute; lia).
  assert (H2 : np_max Sample.hydro_counts = Ok 2) by reflexivity.
  assert (H3 : 0 <= 2) by lia.
  repeat (split; [assumption|]).
  exact (fill_hydro_no_domain_selected Sample.hydro_file Sample.hydro_offsets
           Sample.hydro_counts 1 Sample.hydro_fields ["pressure"%string] [] 2 H1 H2 H3).
Defined.
(** ** The C [int] of [skip_len] and of the record count *)

(** C4, at the failing input.  A present block of a level below
    [min_level] that declares 178956970 cells, in a file of three records
    per block: its payload, three records of that many doubles with their
    markers, is 4294967304 bytes long, and [skip_len], computed in C [int],
    gives 8.  The iteration of [read_offset] leaves the two tables as they
    were, but it leaves the cursor 8 bytes after the two header records,
    inside the payload of the block and not past it. *)
Theorem read_offset_short_skip_on_large_block
    min_level ilevel icpu f offset level_count :
  in_int32 (ilevel + 1) ->
  ilevel < min_level ->
  bytes_at (contents f) (cursor f)
    (record_int (ilevel + 1) ++ record_int Scenario.large_count) ->
  (forall b : block,
      blk_count b = Scenario.large_count ->
      length (blk_records b) = 3%nat ->
      Forall (fun r => Z.of_nat (length r) = blk_count b) (blk_records b) ->
      Z.of_nat (length (encode_payload b)) = 4294967304) /\
  skip_len 3 Scenario.large_count = 8 /\
  exists f',
    read_offset_body min_level 3 ilevel icpu (f, offset, level_count)
      = Ok (f', offset, level_count) /\
    contents f' = contents f /\
    tell f' = tell f + 24 + 8.
Proof.
  intros Hlevel Hbelow Hat.
  split; [|split; [reflexivity|]].
  - intros b Hcount Hthree Hrecs. unfold encode_payload.
    rewrite (length_encode_records _ _ Hrecs), Hthree, Hcount. reflexivity.
  - apply bytes_at_app in Hat as [Hl Hc]. rewrite length_record_int in Hc.
    unfold read_offset_body.
    rewrite (read_int_at f _ Hlevel Hl). step.
    set (f1 := mk_file (contents f) (cursor f + 12) (io_log f ++ [EvRead (cursor f) 4])
                 (name f)).
    rewrite (read_int_at f1 Scenario.large_count) by
      (try exact Hc; unfold in_int32, Scenario.large_count; lia).
    step.
    change (Scenario.large_count =? 0) with false. cbv iota.
    rewrite Z.eqb_refl. cbn [negb].
    assert (E : (ilevel >=? min_level) = false) by lia. rewrite E.
    change (skip_len 3 Scenario.large_count) with 8.
    rewrite seek_relative by lia. step.
    eexists. split; [reflexivity|]. split; [reflexivity|].
    unfold tell. subst f1. cbn [cursor]. lia.
Qed.

Lemma read_offset_short_skip_on_large_block_witness :
  in_int32 (0 + 1) /\
  0 < 1 /\
  bytes_at (contents Scenario.large_block_head) (cursor Scenario.large_block_head)
    (record_int (0 + 1) ++ record_int Scenario.large_count) /\
  exists f',
    read_offset_body 1 3 0 0
      (Scenario.large_block_head, mk_ndarray2 1 0 [], mk_ndarray2 1 0 [])
      = Ok (f', mk_ndarray2 1 0 [], mk_ndarray2 1 0 []) /\
    contents f' = contents Scenario.large_block_head /\
    tell f' = tell Scenario.large_block_head + 24 + 8.
Proof.
  assert (H1 : in_int32 (0 + 1)) by (unfold in_int32; simpl; lia).
  assert (H2 : 0 < 1) by lia.
  assert (H3 : bytes_at (contents Scenario.large_block_head)
                 (cursor Scenario.large_block_head)
                 (record_int (0 + 1) ++ record_int Scenario.large_count)).
  { split; [vm_compute; lia | reflexivity]. }
  repeat (split; [assumption|]).
  exact (proj2 (proj2 (read_offset_short_skip_on_large_block 1 0 0
                         Scenario.large_block_head (mk_ndarray2 1 0 [])
                         (mk_ndarray2 1 0 []) H1 H2 H3))).
Defined.

(** C6, at the failing input.  A block of 178956970 cells at [offset], a
    catalogue of four fields of which the last is requested, one sub-cell.
    The jump table is [3; 0].  The three records to pass over are 4294967304
    bytes long, so the requested record lies at [offset + 4294967304]: there
    the naive plan reads it, after three skips of one record (1431655768
    bytes each).  The optimized plan makes the three skips in one seek whose
    length, [skip_len 3 nc], computed in C [int], is 8: its read is made at
    [offset + 8], inside the first record of the block.  Both plans are
    otherwise the same: one read, stored in slot 0 of the buffer. *)
Theorem fill_hydro_seek_plan_short_on_large_block
    (f : FortranFile) (offset : Z) (buffer : decode_buffer) :
  0 <= offset ->
  build_jumps Scenario.wide_fields ["a"%string] = Ok [3; 0] /\
  skip_len 3 Scenario.large_count = 8 /\
  skip_len 1 Scenario.large_count = 1431655768 /\
  block_positions (record_bytes Scenario.large_count) (Z.to_nat offset) 1
    (requested Scenario.wide_fields ["a"%string])
  = [Z.to_nat (offset + 4294967304)] /\
  exists g_seek g_naive,
    contents g_seek = contents f /\
    cursor g_seek = Z.to_nat (offset + 8) /\
    decode_block [3; 0] 3 1 1 Scenario.large_count offset f buffer
    = ('(vs, g) ← read_vector g_seek;
       b ← write_vector buffer 0 0 vs;
       Ok (g, 0, b)) /\
    contents g_naive = contents f /\
    cursor g_naive = Z.to_nat (offset + 4294967304) /\
    naive_block Scenario.wide_fields ["a"%string] 1 Scenario.large_count offset f buffer
    = ('(vs, g) ← read_vector g_naive;
       b ← write_vector buffer 0 0 vs;
       Ok (g, b)).
Proof.
  intros Hoffset.
  split; [reflexivity|]. split; [reflexivity|]. split; [reflexivity|].
  split.
  - change (requested Scenario.wide_fields ["a"%string]) with [false; false; false; true].
    cbn [block_positions requested_positions app].
    f_equal. unfold record_bytes, Scenario.large_count. lia.
  - eexists (mk_file (contents f) (Z.to_nat (offset + 8))
               (io_log f ++ [EvSeek (Z.to_nat (offset + 8))]) (name f)).
    eexists (mk_file (contents f) (Z.to_nat (offset + 4294967304)) _ (name f)).
    split; [reflexivity|]. split; [reflexivity|]. split; [|split; [reflexivity|]].
    + unfold decode_block.
      change (skip_len 3 Scenario.large_count) with 8.
      rewrite seek_absolute by lia. step.
      change (range 1) with [0]. cbn [for_each].
      unfold read_subcell. change (range 1) with [0]. cbn [for_each].
      unfold read_field.
      change (array_get [3; 0] 0) with (Ok 3 : result Z). step.
      change (Z.opp 3 + 3 >? 0) with false. cbv iota. step.
      destruct (read_vector _) as [[vs g]|e]; [|reflexivity]. step.
      destruct (write_vector buffer 0 0 vs) as [b|e]; reflexivity.
    + split; [reflexivity|].
      unfold naive_block. rewrite seek_absolute by lia. step.
      change (range 1) with [0]. cbn [for_each].
      unfold naive_subcell, Scenario.wide_fields. cbn [for_each].
      unfold naive_field.
      change (py_in "u1" ["a"%string]) with false.
      change (py_in "u2" ["a"%string]) with false.
      change (py_in "u3" ["a"%string]) with false.
      change (py_in "a" ["a"%string]) with true. cbv iota.
      change (skip_len 1 Scenario.large_count) with 1431655768.
      rewrite seek_relative by lia. step.
      rewrite seek_relative by lia. step.
      rewrite seek_relative by lia. step.
      cbn [contents cursor io_log name].
      assert (Hp : (Z.to_nat offset + Z.to_nat 1431655768 + Z.to_nat 1431655768
                    + Z.to_nat 1431655768)%nat = Z.to_nat (offset + 4294967304)) by lia.
      rewrite Hp.
      assert (Hshape : forall m : result (list float64 * FortranFile),
                 ((((m ≫= λ '(vs, f0), write_vector buffer 0 0 vs
                            ≫= λ buffer0 : decode_buffer, Ok (f0, 0 + 1, buffer0))
                    ≫= λ s' : FortranFile * Z * decode_buffer, Ok s')
                   ≫= λ '(f0, _, buffer0), Ok (f0, buffer0))
                  ≫= (λ s' : FortranFile * decode_buffer, Ok s'))
                 = (m ≫= λ '(vs, g), write_vector buffer 0 0 vs
                           ≫= λ b : decode_buffer, Ok (g, b))).
      { intros [[vs g]|e]; [|reflexivity]. step.
        destruct (write_vector buffer 0 0 vs) as [b|e']; reflexivity. }
      rewrite Hshape. reflexivity.
Qed.

Lemma fill_hydro_seek_plan_short_on_large_block_witness :
  0 <= 24 /\
  build_jumps Scenario.wide_fields ["a"%string] = Ok [3; 0] /\
  block_positions (record_bytes Scenario.large_count) (Z.to_nat 24) 1
    (requested Scenario.wide_fields ["a"%string])
  = [Z.to_nat (24 + 4294967304)].
Proof.
  assert (H : 0 <= 24) by lia.
  split; [assumption|].
  pose proof (fill_hydro_seek_plan_short_on_large_block Sample.hydro_file 24
                Sample.hydro_buffer H) as (H1 & _ & _ & H2 & _).
  split; [exact H1 | exact H2].
Defined.

